(** * qa-agents: the orchestration pipeline, embedded and verified

    A shallow embedding of the Python sources under [src/]:
    - [src/tools/playwright_tools.py]  (snapshot tools, the full test run,
      [update_test_script]), [src/tools/snapshot_locator_tool.py]
    - [src/graph/state.py], [src/graph/workflow.py]
    - [src/agents/snapshot_collector.py], [src/agents/test_planner.py]
    - [src/agents/test_script_generator.py], [src/agents/test_runner.py]
    - [src/agents/advanced_test_healer.py], [src/agents/test_healer.py]

    Text is modelled as [string]: a character of the model is a Unicode
    code point below 256, so the strings of the model are the Python
    strings over that range; text with other characters is outside the
    model.  The keywords and tokens the code looks for are ASCII.
    The model provider, the tools, the test processes, the clock and the
    file system are interfaces (type classes over an environment type):
    every theorem holds for any behaviour of theirs. *)

From Stdlib Require Import ZArith Lia Bool List Ascii String.
From stdpp Require Import base option list gmap strings pretty.
Import ListNotations.

Set Default Proof Using "Type".

(** * Python strings *)

Module Py.

(** [s.startswith(p)] *)
Fixpoint startswith (p s : string) : bool :=
  match p, s with
  | EmptyString, _ => true
  | String _ _, EmptyString => false
  | String a p', String b s' => if Ascii.eqb a b then startswith p' s' else false
  end.

(** [needle in hay] *)
Fixpoint contains (needle hay : string) : bool :=
  startswith needle hay ||
  match hay with
  | EmptyString => false
  | String _ hay' => contains needle hay'
  end.

(** [c.lower()] for a code point below 256: the capital letters are A-Z
    (65-90) and the accented capitals 192-222 except the multiplication
    sign 215; each lowers to the code point 32 above it. *)
Definition lower_char (c : ascii) : ascii :=
  let n := nat_of_ascii c in
  if ((65 <=? n)%nat && (n <=? 90)%nat)
     || ((192 <=? n)%nat && (n <=? 222)%nat && negb (n =? 215)%nat)
  then ascii_of_nat (n + 32) else c.

(** [s.lower()] *)
Fixpoint lower (s : string) : string :=
  match s with
  | EmptyString => EmptyString
  | String c s' => String (lower_char c) (lower s')
  end.

(** The characters [str.strip()] removes, among the code points below
    256: the ASCII blanks and separators (9-13, 28-32), NEXT LINE (133) and
    NO-BREAK SPACE (160). *)
Definition isspace (c : ascii) : bool :=
  let n := nat_of_ascii c in
  ((9 <=? n)%nat && (n <=? 13)%nat) || ((28 <=? n)%nat && (n <=? 32)%nat)
  || (n =? 133)%nat || (n =? 160)%nat.

Fixpoint lstrip (s : string) : string :=
  match s with
  | EmptyString => EmptyString
  | String c s' => if isspace c then lstrip s' else s
  end.

(** Drops trailing whitespace: a character is kept when something
    non-blank follows it or it is non-blank itself. *)
Fixpoint rstrip (s : string) : string :=
  match s with
  | EmptyString => EmptyString
  | String c s' =>
      match rstrip s' with
      | EmptyString => if isspace c then EmptyString else String c EmptyString
      | r => String c r
      end
  end.

(** [s.strip()] *)
Definition strip (s : string) : string := rstrip (lstrip s).

(** [s.replace(a, b)] for single characters. *)
Fixpoint replace_char (a b : ascii) (s : string) : string :=
  match s with
  | EmptyString => EmptyString
  | String c s' => String (if Ascii.eqb c a then b else c) (replace_char a b s')
  end.

(** [s[:n]] *)
Definition take (n : nat) (s : string) : string := String.substring 0 n s.

(** [sep.join(parts)] *)
Fixpoint join (sep : string) (parts : list string) : string :=
  match parts with
  | [] => ""
  | [p] => p
  | p :: rest => p +:+ sep +:+ join sep rest
  end.

(** Truthiness of a string: the empty string is falsy. *)
Definition truthy_str (s : string) : bool :=
  match s with EmptyString => false | _ => true end.

(** ** Exceptions and results *)

Inductive exn_kind :=
| AttributeError | TypeError | IndexError | KeyError | StopIteration
| ExternalError.

(** A raised exception: its class and [str(e)].  [ExternalError] stands for
    whatever a collaborator (model provider, tool, regex engine) raises. *)
Record exn := Exn { exn_class : exn_kind; exn_str : string }.

Inductive result (A : Type) : Type :=
| Ok (a : A)
| Raise (e : exn).
Arguments Ok {A} a.
Arguments Raise {A} e.

#[global] Instance result_ret : MRet result := fun A a => Ok a.
#[global] Instance result_bind : MBind result := fun A B f m =>
  match m with
  | Ok a => f a
  | Raise e => Raise e
  end.

Definition is_ok {A} (r : result A) : bool :=
  match r with Ok _ => true | Raise _ => false end.

(** ** Values: what [json.loads] returns and what tools exchange *)

#[warnings="-register-all"]
Inductive pyval :=
| PNone
| PBool (b : bool)
| PInt (z : Z)
| PFloat (repr : string)
| PStr (s : string)
| PList (items : list pyval)
| PDict (items : list (string * pyval)).

Definition type_name (v : pyval) : string :=
  match v with
  | PNone => "NoneType"
  | PBool _ => "bool"
  | PInt _ => "int"
  | PFloat _ => "float"
  | PStr _ => "str"
  | PList _ => "list"
  | PDict _ => "dict"
  end.

(** [isinstance(v, dict)] *)
Definition is_dict (v : pyval) : bool :=
  match v with PDict _ => true | _ => false end.

(** Lookup in a dict given as its items; the first binding of a key is the
    one the dict holds. *)
Fixpoint dict_lookup (key : string) (items : list (string * pyval)) : option pyval :=
  match items with
  | [] => None
  | (k, v) :: rest => if String.eqb k key then Some v else dict_lookup key rest
  end.

(** [v.get(key, dflt)]: only a dict has [get]. *)
Definition get (v : pyval) (key : string) (dflt : pyval) : result pyval :=
  match v with
  | PDict items => Ok (default dflt (dict_lookup key items))
  | _ => Raise (Exn AttributeError
                  ("'" +:+ type_name v +:+ "' object has no attribute 'get'"))
  end.

Fixpoint chars (s : string) : list pyval :=
  match s with
  | EmptyString => []
  | String c s' => PStr (String c EmptyString) :: chars s'
  end.

(** [for x in v]: a list gives its items, a string its characters, a dict
    its keys; nothing else is iterable. *)
Definition iter (v : pyval) : result (list pyval) :=
  match v with
  | PList items => Ok items
  | PStr s => Ok (chars s)
  | PDict items => Ok (map (fun kv => PStr (fst kv)) items)
  | _ => Raise (Exn TypeError ("'" +:+ type_name v +:+ "' object is not iterable"))
  end.

(** [v[0]] *)
Definition first (v : pyval) : result pyval :=
  match v with
  | PList [] => Raise (Exn IndexError "list index out of range")
  | PList (x :: _) => Ok x
  | PStr EmptyString => Raise (Exn IndexError "string index out of range")
  | PStr (String c _) => Ok (PStr (String c EmptyString))
  | PDict _ => Raise (Exn KeyError "0")
  | _ => Raise (Exn TypeError
                  ("'" +:+ type_name v +:+ "' object is not subscriptable"))
  end.

(** [any(f(x) for x in xs)]: stops at the first true. *)
Fixpoint any (f : pyval -> result bool) (xs : list pyval) : result bool :=
  match xs with
  | [] => Ok false
  | x :: rest =>
      match f x with
      | Raise e => Raise e
      | Ok true => Ok true
      | Ok false => any f rest
      end
  end.

(** [len([x for x in xs if f(x)])] *)
Fixpoint count_if (f : pyval -> result bool) (xs : list pyval) : result nat :=
  match xs with
  | [] => Ok 0
  | x :: rest =>
      b ← f x;
      n ← count_if f rest;
      Ok (if b : bool then S n else n)
  end.

(** [sum(f(x) for x in xs)] *)
Fixpoint sum_of (f : pyval -> result nat) (xs : list pyval) : result nat :=
  match xs with
  | [] => Ok 0
  | x :: rest =>
      n ← f x;
      m ← sum_of f rest;
      Ok (n + m)
  end.

(** [v == s] for a string literal [s]. *)
Definition eq_str (v : pyval) (s : string) : bool :=
  match v with PStr t => String.eqb t s | _ => false end.

(** [str(b)] for a bool. *)
Definition str_bool (b : bool) : string := if b then "True" else "False".

(** The characters the string literals below cannot hold directly. *)
Definition dquote : string := String (ascii_of_nat 34) EmptyString.
Definition newline : string := String (ascii_of_nat 10) EmptyString.

End Py.

(** * The file store *)

(** The files a log of writes leaves behind: a map from the path written
    to the last content written there. *)
Definition write_text (path content : string) (fs : gmap string string)
  : gmap string string := <[path := content]> fs.

(** The file system as the tools reach it through pathlib.  For the path
    [Path(dir) / name], which pathlib normalises and the operating system
    resolves: [exists()], and [write_text(content)], which returns or
    raises (the path is a directory, a parent is missing, the name is too
    long, the file may not be written) and leaves the file system it
    leaves. *)
Class FileSystem (FS : Type) := {
  fs_exists : string -> string -> FS -> bool;
  fs_write_text : string -> string -> string -> FS -> Py.result unit * FS
}.

(** * src/tools/playwright_tools.py *)

Module PlaywrightTools.

(** An element of [ax_tree["nodes"]]: [node.get("role", {}).get("value")]
    and [node.get("name", {}).get("value")]; [None] when absent. *)
Record AXNode := { ax_role : option string; ax_name : option string }.

Record InteractiveAction := {
  role : string;
  label : string;
  ref : string;
  locator : string;
  fallback_locators : list string
}.

Record Snapshot := {
  url : string;
  page_name : string;
  page_type : string;
  actions : list InteractiveAction
}.

Definition INTERACTIVE_ROLES : list string :=
  ["button"; "textbox"; "link"; "combobox"; "checkbox"; "radio"; "menuitem"].

Definition in_roles (r : string) : bool :=
  existsb (String.eqb r) INTERACTIVE_ROLES.

Definition make_locator (r n : string) : string :=
  "page.getByRole('" +:+ r +:+ "', { name: '" +:+ n +:+ "' })".

(** The loop over [ax_tree["nodes"]]; [ref_counter] is threaded. *)
Fixpoint collect_actions (ref_counter : nat) (nodes : list AXNode)
  : list InteractiveAction :=
  match nodes with
  | [] => []
  | node :: rest =>
      match ax_role node, ax_name node with
      | Some r, Some n =>
          if negb (Py.truthy_str r) || negb (in_roles r) then
            collect_actions ref_counter rest
          else if negb (Py.truthy_str n) || negb (Py.truthy_str (Py.strip n)) then
            collect_actions ref_counter rest
          else
            {| role := r; label := n; ref := "e" +:+ pretty ref_counter;
               locator := make_locator r n; fallback_locators := [] |}
            :: collect_actions (S ref_counter) rest
      | _, _ => collect_actions ref_counter rest
      end
  end.

(** Page type inference of [browser_snapshot]. *)
Definition infer_page_type (page_name : string) : string :=
  let lower_name := Py.lower page_name in
  if existsb (fun k => Py.contains k lower_name) ["new"; "edit"; "create"; "form"]
  then "form_page"
  else if existsb (fun k => Py.contains k lower_name) ["list"; "view"]
  then "list_view"
  else "general_page".

Definition safe_name (name : string) : string :=
  Py.replace_char "/"%char "_"%char (Py.replace_char " "%char "_"%char name).

(** What the browser session gives a snapshot tool: the page URL, the
    accessibility tree and the clock's timestamp. *)
Record PageView := {
  pv_url : string;
  pv_nodes : list AXNode;
  pv_timestamp : string
}.

(** The summary a snapshot tool returns to its caller. *)
Record SnapshotSummary := {
  sum_page : string;
  sum_actions_captured : nat;
  sum_file : string
}.

(** [browser_snapshot(page_name)]: the record written under
    [output/snapshots], its path, and the summary. *)
Definition browser_snapshot (pv : PageView) (page_name : string)
    (store : gmap string Snapshot) : SnapshotSummary * gmap string Snapshot :=
  let actions := collect_actions 1 (pv_nodes pv) in
  let snapshot := {| url := pv_url pv; page_name := page_name;
                     page_type := infer_page_type page_name;
                     actions := actions |} in
  let file_path := "output/snapshots/" +:+ safe_name page_name +:+ "_"
                   +:+ pv_timestamp pv +:+ ".json" in
  ({| sum_page := page_name; sum_actions_captured := length actions;
      sum_file := file_path |},
   <[file_path := snapshot]> store).

(** [browser_failure_snapshot(test_name)] *)
Definition browser_failure_snapshot (pv : PageView) (test_name : string)
    (store : gmap string Snapshot) : SnapshotSummary * gmap string Snapshot :=
  let actions := collect_actions 1 (pv_nodes pv) in
  let snapshot := {| url := pv_url pv; page_name := "FAIL_" +:+ test_name;
                     page_type := "failure_page";
                     actions := actions |} in
  let file_path := "output/snapshots/FAIL_" +:+ safe_name test_name +:+ "_"
                   +:+ pv_timestamp pv +:+ ".json" in
  ({| sum_page := test_name; sum_actions_captured := length actions;
      sum_file := file_path |},
   <[file_path := snapshot]> store).

(** The page types the data model lists. *)
Definition PAGE_TYPES : list string := ["form_page"; "list_view"; "general_page"].

(** [Path("tests") / script_name]: an absolute name replaces the base. *)
Definition script_path (script_name : string) : string :=
  if Py.startswith "/" script_name then script_name
  else "tests/" +:+ script_name.

(** [update_test_script(script_name, updated_content)]: what it returns
    or raises, and the file system afterwards.  The path is
    [Path("tests") / script_name]. *)
Definition update_test_script {FS : Type} `{!FileSystem FS}
    (script_name updated_content : string) (fs : FS) : Py.result string * FS :=
  if negb (fs_exists "tests" script_name fs) then
    (Py.Ok ("ERROR: Script " +:+ script_name +:+ " not found."), fs)
  else if negb (Py.contains "test(" updated_content)
          || negb (Py.contains "import" updated_content) then
    (Py.Ok "ERROR: Invalid test content detected. Update aborted.", fs)
  else
    let '(written, fs') := fs_write_text "tests" script_name updated_content fs in
    (match written with
     | Py.Ok _ => Py.Ok ("Updated test script: " +:+ script_name)
     | Py.Raise e => Py.Raise e
     end, fs').

End PlaywrightTools.

(** * A tests directory

    A file system to run the tools against: a working directory that
    holds one directory, [tests], which holds plain files.  Names are
    resolved as pathlib and the operating system do: empty and [.]
    components are dropped, [..] goes up, an absolute name leaves the
    working directory, and nothing lies below a plain file. *)

Module TestsDir.

(** The plain files of [tests]: name and content. *)
Definition dir : Type := list (string * string).

Fixpoint lookup (name : string) (d : dir) : option string :=
  match d with
  | [] => None
  | (n, c) :: rest => if String.eqb n name then Some c else lookup name rest
  end.

Fixpoint store (name content : string) (d : dir) : dir :=
  match d with
  | [] => [(name, content)]
  | (n, c) :: rest =>
      if String.eqb n name then (n, content) :: rest else (n, c) :: store name content rest
  end.

(** [s.split(sep)] for a single character. *)
Fixpoint split_on (sep : ascii) (s : string) : list string :=
  match s with
  | EmptyString => [EmptyString]
  | String c s' =>
      if Ascii.eqb c sep then EmptyString :: split_on sep s'
      else match split_on sep s' with
           | p :: ps => String c p :: ps
           | [] => [String c EmptyString]
           end
  end.

(** The components pathlib keeps of a relative name. *)
Definition components (name : string) : list string :=
  List.filter (fun p => negb (String.eqb p "") && negb (String.eqb p "."))
              (split_on "/" name).

(** Where a path leads. *)
Inductive place :=
| InTests                 (* the directory tests *)
| InWorkdir               (* the working directory *)
| AtFile (name : string)  (* a plain file of tests *)
| NewFile (name : string) (* a name free in tests *)
| Nowhere.                (* no such path *)

Definition step (d : dir) (p : place) (c : string) : place :=
  match p with
  | InTests =>
      if String.eqb c ".." then InWorkdir
      else match lookup c d with Some _ => AtFile c | None => NewFile c end
  | InWorkdir => if String.eqb c "tests" then InTests else Nowhere
  | _ => Nowhere
  end.

(** [Path(base) / name], resolved. *)
Definition resolve (base name : string) (d : dir) : place :=
  if Py.startswith "/" name then Nowhere
  else fold_left (step d) (components base ++ components name) InWorkdir.

Definition errno (text path : string) : Py.exn :=
  Py.Exn Py.ExternalError (text +:+ ": '" +:+ path +:+ "'").

#[global] Instance file_system : FileSystem dir := {|
  fs_exists base name d :=
    match resolve base name d with
    | InTests | InWorkdir | AtFile _ => true
    | NewFile _ | Nowhere => false
    end;
  fs_write_text base name content d :=
    match resolve base name d with
    | AtFile n | NewFile n => (Py.Ok tt, store n content d)
    | InTests | InWorkdir => (Py.Raise (errno "[Errno 21] Is a directory" base), d)
    | Nowhere =>
        (Py.Raise (errno "[Errno 2] No such file or directory" (base +:+ "/" +:+ name)), d)
    end
|}.

End TestsDir.

(** * Conversation messages and observable effects *)

Inductive msg_role := SystemMessage | HumanMessage | AIMessage | ToolMessage.

(** [message.content] is a string or a list of parts. *)
Inductive msg_content :=
| Text (s : string)
| Parts (items : list Py.pyval).

Record tool_call := {
  tc_name : string;
  tc_args : Py.pyval;
  tc_id : string
}.

Record message := {
  msg_role_of : msg_role;
  content : msg_content;
  tool_calls : list tool_call;
  tool_call_id : option string;
  msg_id : option string
}.

(** Messages the code constructs itself carry no id. *)
Definition system_message (s : string) : message :=
  {| msg_role_of := SystemMessage; content := Text s; tool_calls := [];
     tool_call_id := None; msg_id := None |}.

Definition human_message (s : string) : message :=
  {| msg_role_of := HumanMessage; content := Text s; tool_calls := [];
     tool_call_id := None; msg_id := None |}.

Definition tool_message (s : string) (call_id : string) : message :=
  {| msg_role_of := ToolMessage; content := Text s; tool_calls := [];
     tool_call_id := Some call_id; msg_id := None |}.

(** What a stage does to the outside, in order. *)
Inductive event :=
| EvModel (model : string) (with_tools : bool) (prompt : list message)
| EvTool (name : string) (args : Py.pyval)
| EvMkdir (path : string)
| EvWrite (path : string) (text : string).

Definition is_model_call (e : event) : bool :=
  match e with EvModel _ _ _ => true | _ => false end.

Definition is_write (e : event) : bool :=
  match e with EvWrite _ _ => true | _ => false end.

Definition is_write_under (dir : string) (e : event) : bool :=
  match e with EvWrite p _ => Py.startswith dir p | _ => false end.

Definition count_events (p : event -> bool) (tr : list event) : nat :=
  length (filter (fun e => p e = true) tr).

(** The files a trace leaves behind. *)
Fixpoint replay (tr : list event) (fs : gmap string string) : gmap string string :=
  match tr with
  | [] => fs
  | EvWrite p c :: rest => replay rest (write_text p c fs)
  | _ :: rest => replay rest fs
  end.

(** * External collaborators *)

(** ModelProvider: [llm.invoke(messages)] returns one message or raises.
    [with_tools] tells the tool-bound model from the plain one. *)
Class ModelProvider (Env : Type) := {
  llm_invoke : string -> bool -> list message -> Env -> Py.result message * Env
}.

(** ToolProvider: [tool.invoke(args)] / [tool.ainvoke(args)]. *)
Class ToolProvider (Env : Type) := {
  tool_invoke : string -> Py.pyval -> Env -> Py.result Py.pyval * Env
}.

(** [datetime.now().strftime("%Y%m%d_%H%M%S")] *)
Class Clock (Env : Type) := {
  timestamp : Env -> string
}.

(** Formatting done by library code: [json.dumps(v, indent=2)] and
    [str(v)], on the values tools return. *)
Class Render := {
  json_dumps : Py.pyval -> string;
  py_str : Py.pyval -> string
}.

(** The prompt files read when the modules are imported. *)
Class Prompts := {
  ADVANCED_HEALER_PROMPT : string;
  TEST_RUNNER_PROMPT : string;
  TEST_PLANNER_PROMPT : string;
  SCRIPT_GENERATOR_PROMPT : string
}.

(** [f"{msg.content}"] *)
Definition content_str `{Render} (c : msg_content) : string :=
  match c with
  | Text s => s
  | Parts items => py_str (Py.PList items)
  end.

(** [path.write_text(content)]: the content has to be a string. *)
Definition as_text (c : msg_content) : Py.result string :=
  match c with
  | Text s => Py.Ok s
  | Parts _ => Py.Raise (Py.Exn Py.TypeError "data must be str, not list")
  end.

(** * src/graph/state.py *)

Module State.

(** A failure as [test_runner_node] records it. *)
Record TestFailure := {
  script_name : string;
  script_path : string;
  script_content : string;
  logs : string
}.

(** The values the keys of an [AgentState] dict hold. *)
Inductive value :=
| VNone
| VBool (b : bool)
| VInt (z : Z)
| VStr (s : string)
| VMessages (ms : list message)
| VFailures (fs : list TestFailure)
| VList (items : list Py.pyval).

(** [bool(v)] *)
Definition truthy (v : value) : bool :=
  match v with
  | VNone => false
  | VBool b => b
  | VInt z => negb (Z.eqb z 0)
  | VStr s => Py.truthy_str s
  | VMessages ms => match ms with [] => false | _ => true end
  | VFailures fs => match fs with [] => false | _ => true end
  | VList items => match items with [] => false | _ => true end
  end.

(** [state.get(key, dflt)] *)
Definition get (state : gmap string value) (key : string) (dflt : value) : value :=
  default dflt (state !! key).

(** [state["messages"]] *)
Definition messages_of (state : gmap string value) : Py.result (list message) :=
  match state !! "messages" with
  | Some (VMessages ms) => Py.Ok ms
  | Some _ => Py.Raise (Py.Exn Py.TypeError "can only concatenate list to list")
  | None => Py.Raise (Py.Exn Py.KeyError "'messages'")
  end.

(** [{**state, **update}]: the update's keys override. *)
Definition override (update state : gmap string value) : gmap string value :=
  update ∪ state.

(** ** The reducer named by [messages: Annotated[list, add_messages]]

    [add_messages] is langgraph's; it is modelled after the library: a
    message of the update whose id is already among the messages merged so
    far replaces that entry in place, any other message is appended.  The
    library first gives every message without id a random one, which
    matches nothing; the ids drawn are not modelled, and the facts about
    the reducer are about messages that carry ids, as the replies of the
    model provider and the messages of a merged state do. *)

Definition same_id (m m' : message) : bool :=
  match msg_id m, msg_id m' with
  | Some a, Some b => String.eqb a b
  | _, _ => false
  end.

(** Replace the last entry of [left] that has the id of [m]. *)
Fixpoint replace_by_id (m : message) (left : list message) : option (list message) :=
  match left with
  | [] => None
  | x :: rest =>
      match replace_by_id m rest with
      | Some rest' => Some (x :: rest')
      | None => if same_id x m then Some (m :: rest) else None
      end
  end.

(** The loop over the update: ids are looked up in everything merged so
    far, the messages this update has appended included. *)
Fixpoint merge_messages (merged right : list message) : list message :=
  match right with
  | [] => merged
  | m :: rest =>
      match replace_by_id m merged with
      | Some l => merge_messages l rest
      | None => merge_messages (merged ++ [m]) rest
      end
  end.

Definition add_messages (left right : list message) : list message :=
  merge_messages left right.

(** How the graph folds a node's return value into the state: a key with
    a reducer is combined with the old value, every other returned key
    overrides. *)
Definition apply_update (state update : gmap string value) : gmap string value :=
  match update !! "messages" with
  | Some (VMessages new) =>
      let old := match state !! "messages" with
                 | Some (VMessages ms) => ms
                 | _ => []
                 end in
      <["messages" := VMessages (add_messages old new)]> (override update state)
  | _ => override update state
  end.

End State.

(** * src/graph/workflow.py *)

Module Workflow.

Inductive node :=
| snapshot_agent | tools | test_planner_agent | test_case_designer_agent
| test_script_generator_agent | test_runner_agent
| advanced_test_healer_agent | END.

(** [should_continue(state)] *)
Definition should_continue (state : gmap string State.value) : Py.result string :=
  ms ← State.messages_of state;
  match last ms with
  | None => Py.Raise (Py.Exn Py.IndexError "list index out of range")
  | Some last_message =>
      match tool_calls last_message with
      | [] => Py.Ok "test_plan"
      | _ :: _ => Py.Ok "tool_call"
      end
  end.

(** [route_after_test_runner(state)] *)
Definition route_after_test_runner (state : gmap string State.value) : string :=
  if State.truthy (State.get state "has_test_failures" (State.VBool false))
  then "heal_advanced"
  else "end".

(** The conditional edge out of [test_runner_agent]. *)
Definition after_test_runner (state : gmap string State.value) : option node :=
  let branch := route_after_test_runner state in
  if String.eqb branch "heal_advanced" then Some advanced_test_healer_agent
  else if String.eqb branch "end" then Some END
  else None.

(** The unconditional edges. *)
Definition edge (n : node) : option node :=
  match n with
  | tools => Some snapshot_agent
  | test_planner_agent => Some test_case_designer_agent
  | test_case_designer_agent => Some test_script_generator_agent
  | test_script_generator_agent => Some test_runner_agent
  | advanced_test_healer_agent => Some END
  | _ => None
  end.

End Workflow.

(** * Stage nodes: a state-and-error monad

    A stage runs against the environment of its collaborators and logs
    what it does; an exception ends it, the environment and the log reached
    so far stay observable. *)

Definition Stage (Env : Type) (A : Type) : Type :=
  Env * list event -> Py.result A * (Env * list event).

#[global] Instance stage_ret {Env} : MRet (Stage Env) :=
  fun A a s => (Py.Ok a, s).

#[global] Instance stage_bind {Env} : MBind (Stage Env) :=
  fun A B f m s =>
    match m s with
    | (Py.Ok a, s') => f a s'
    | (Py.Raise e, s') => (Py.Raise e, s')
    end.

Section StageOps.
Context {Env : Type}.

(** An operation that may raise but touches nothing. *)
Definition lift {A} (r : Py.result A) : Stage Env A := fun s => (r, s).

Definition log (e : event) : Stage Env unit :=
  fun s => (Py.Ok tt, (s.1, s.2 ++ [e])).

(** An operation of the environment. *)
Definition perform {A} (op : Env -> A * Env) : Stage Env A :=
  fun s => let '(a, env') := op s.1 in (Py.Ok a, (env', s.2)).

Definition ask {A} (q : Env -> A) : Stage Env A :=
  fun s => (Py.Ok (q s.1), s).

(** [llm.invoke(prompt)] *)
Definition invoke_model `{!ModelProvider Env} (model : string) (with_tools : bool)
    (prompt : list message) : Stage Env message :=
  fun s =>
    let '(r, env') := llm_invoke model with_tools prompt s.1 in
    (r, (env', s.2 ++ [EvModel model with_tools prompt])).

(** [path.write_text(text)] *)
Definition write_file (path text : string) : Stage Env unit :=
  log (EvWrite path text).

(** [dir.mkdir(parents=True, exist_ok=True)] *)
Definition mkdir (path : string) : Stage Env unit :=
  log (EvMkdir path).

(** Run a stage from an empty log. *)
Definition run_stage {A} (m : Stage Env A) (env : Env)
  : Py.result A * (Env * list event) := m (env, []).

End StageOps.

(** * src/agents/test_runner.py *)

Module TestRunner.
Import State.

(** [subprocess.run(cmd, capture_output=True, text=True, timeout=60)]
    completes or times out. *)
Inductive proc_result :=
| Completed (returncode : Z) (stdout stderr : string)
| TimeoutExpired.

(** The tests directory and the test process. *)
Class TestProcess (Env : Type) := {
  glob_specs : Env -> list string;
  run_playwright : string -> Env -> proc_result * Env;
  read_script : string -> Env -> string
}.

Section Node.
Context {Env : Type} `{!ModelProvider Env, !TestProcess Env, !Render, !Prompts}.

(** The loop over [test_dir.glob("*.spec.ts")]; [failures] grows at its
    end. *)
Fixpoint run_scripts (scripts : list string) (failures : list TestFailure)
    (env : Env) : list TestFailure * Env :=
  match scripts with
  | [] => (failures, env)
  | script :: rest =>
      let path := "tests/" +:+ script in
      let '(proc, env') := run_playwright path env in
      match proc with
      | Completed returncode stdout stderr =>
          if negb (Z.eqb returncode 0) then
            run_scripts rest
              (failures ++
               [{| script_name := script; script_path := path;
                   script_content := read_script path env';
                   logs := Py.take 4000
                             (Py.strip (if Py.truthy_str stderr then stderr
                                        else stdout)) |}])
              env'
          else run_scripts rest failures env'
      | TimeoutExpired =>
          run_scripts rest
            (failures ++
             [{| script_name := script; script_path := path;
                 script_content := read_script path env';
                 logs := "Test execution timed out after 60 seconds" |}])
            env'
      end
  end.

Definition payload_entry (f : TestFailure) : string :=
  Py.join Py.newline
    [""; "SCRIPT NAME:"; script_name f; ""; "SCRIPT CONTENT:"; script_content f;
     ""; "FAILURE LOGS:"; logs f; ""].

Definition payload_separator : string :=
  Py.newline +:+ Py.newline +:+ "---" +:+ Py.newline +:+ Py.newline.

(** Normalisation of the model's content to a string. *)
Definition normalize (raw_content : msg_content) : string :=
  match raw_content with
  | Text s => s
  | Parts items =>
      Py.join Py.newline
        (map (fun item => match item with Py.PStr s => s | _ => py_str item end)
             items)
  end.

Definition report_md_path : string := "output/failure_report/failure_analysis.md".

(** The prompt sent for a non-empty list of failures. *)
Definition runner_prompt (failures : list TestFailure) : list message :=
  [system_message TEST_RUNNER_PROMPT;
   human_message (Py.join payload_separator (map payload_entry failures))].

(** The dicts returned: [{**state, ...}] on the early return without
    failures, and after the report has been written. *)
Definition clean_state (state : gmap string value) : gmap string value :=
  <["llm_analysis" := VNone]>
    (<["failure_report_path" := VNone]>
      (<["failures" := VFailures []]>
        (<["has_test_failures" := VBool false]> state))).

Definition failing_state (state : gmap string value) (failures : list TestFailure)
    (markdown_report : string) : gmap string value :=
  <["llm_analysis" := VStr markdown_report]>
    (<["failure_report_path" := VStr report_md_path]>
      (<["failures" := VFailures failures]>
        (<["has_test_failures" := VBool true]> state))).

(** [test_runner_node(state)] *)
Definition test_runner_node (state : gmap string value)
  : Stage Env (gmap string value) :=
  _ ← mkdir "output/failure_report";
  scripts ← ask glob_specs;
  failures ← perform (run_scripts scripts []);
  match failures with
  | [] => mret (clean_state state)
  | _ :: _ =>
      llm_response ← invoke_model "gpt-4o-mini" false (runner_prompt failures);
      let markdown_report := normalize (content llm_response) in
      _ ← write_file report_md_path markdown_report;
      mret (failing_state state failures markdown_report)
  end.

End Node.
End TestRunner.

(** * src/agents/test_planner.py *)

Module TestPlanner.
Import State.

(** What the planner reads: the text of [snapshot_data] (every
    [output/snapshots/*.json], each load guarded by its own try/except) and
    [str] of a state value. *)
Class PlannerInputs (Env : Type) := {
  snapshot_data_text : Env -> string;
  str_value : value -> string
}.

Section Node.
Context {Env : Type} `{!ModelProvider Env, !PlannerInputs Env, !Prompts}.

Definition user_story_text (state : gmap string value) : string :=
  match get state "user_story" (VStr "") with
  | VStr s => s
  | v => str_value v
  end.

Definition planner_prompt (user_story snapshot_data : string) : string :=
  Py.join Py.newline
    [""; "User Story:"; user_story; ""; "Captured Snapshots:"; snapshot_data; ""].

(** The two messages sent to the model. *)
Definition planner_messages (state : gmap string value) (snapshot_data : string)
  : list message :=
  [system_message TEST_PLANNER_PROMPT;
   human_message (planner_prompt (user_story_text state) snapshot_data)].

(** [test_planner_node(state)] *)
Definition test_planner_node (state : gmap string value)
  : Stage Env (gmap string value) :=
  snapshot_data ← ask snapshot_data_text;
  response ← invoke_model "gpt-4o-mini" false (planner_messages state snapshot_data);
  text ← lift (as_text (content response));
  _ ← write_file "output/test_plan.md" text;
  mret (<["messages" := VMessages [response]]> state).

End Node.
End TestPlanner.

(** * src/agents/test_script_generator.py *)

Module ScriptGenerator.
Import State.

(** A planned test case: [case.get("id")], [None] when the key is absent. *)
Record TestCase := { case_id : option string }.

(** What the generator loads ([output/test_cases.json] through
    [json.loads], the prompt context built from it and the snapshots) and
    the regular-expression search of the fallback: [search_case id text] is
    group 0 of the first match of the pattern built around [id], [None] when
    nothing matches; it raises when the pattern does not compile. *)
Class GeneratorInputs (Env : Type) := {
  load_test_cases : Env -> Py.result (list TestCase);
  load_context : list TestCase -> Env -> Py.result string;
  search_case : string -> string -> Py.result (option string);
  (** [Path(path).write_text(text, encoding="utf-8")]: it returns, or raises
      when the file system refuses the path (a missing directory, as for an
      id with a slash in it, a name too long, no permission). *)
  write_script : string -> string -> Env -> Py.result unit * Env
}.

(** The boilerplate every script begins with. *)
Definition header : string :=
  "import { test, expect } from " +:+ Py.dquote +:+ "@playwright/test" +:+ Py.dquote
  +:+ ";" +:+ Py.newline
  +:+ "test.use({ storageState: " +:+ Py.dquote +:+ "auth_state.json" +:+ Py.dquote
  +:+ " });" +:+ Py.newline +:+ Py.newline.


(** Cutting [s] before every occurrence of [d]: the text before the first
    cut, and the pieces after it. *)
Fixpoint split_before (d s : string) : string * list string :=
  match s with
  | EmptyString => (EmptyString, [])
  | String c s' =>
      let '(h, t) := split_before d s' in
      if Py.startswith d s then (EmptyString, String c h :: t)
      else (String c h, t)
  end.

(** [re.split(r'(?=test\()', text)] *)
Definition split_tests (text : string) : list string :=
  let '(h, t) := split_before "test(" text in h :: t.

(** The scripts kept from the pieces. *)
Fixpoint extract_scripts (scripts : list string) : list string :=
  match scripts with
  | [] => []
  | script :: rest =>
      let script := Py.strip script in
      if Py.truthy_str script && Py.startswith "test(" script
      then (header +:+ script) :: extract_scripts rest
      else extract_scripts rest
  end.

Section Node.
Context {Env : Type} `{!ModelProvider Env, !GeneratorInputs Env, !Prompts}.

(** The fallback loop over the test cases. *)
Fixpoint fallback_scripts (cases : list TestCase) (text : string)
    (test_scripts : list string) : Py.result (list string) :=
  match cases with
  | [] => Py.Ok test_scripts
  | case :: rest =>
      found ← search_case (default "" (case_id case)) text;
      match found with
      | Some group0 =>
          fallback_scripts rest text (test_scripts ++ [header +:+ "test(" +:+ group0])
      | None => fallback_scripts rest text test_scripts
      end
  end.

(** [case.get("id", f"case_{idx+1}")] *)
Definition effective_id (idx : nat) (case : TestCase) : string :=
  default ("case_" +:+ pretty (idx + 1)) (case_id case).

Definition placeholder (case_id : string) : string :=
  header +:+ "// TODO: Generate test for " +:+ case_id.


(** The script written for the case at position [idx]. *)
Definition script_for (idx : nat) (case : TestCase) (test_scripts : list string) : string :=
  match test_scripts !! idx with
  | Some script => script
  | None => placeholder (effective_id idx case)
  end.




(** From the model's text to the scripts, fallback included. *)
Definition partition_scripts (test_cases : list TestCase) (text : string)
  : Py.result (list string) :=
  let test_scripts := extract_scripts (split_tests text) in
  match test_scripts with
  | [] => fallback_scripts test_cases text []
  | _ :: _ => Py.Ok test_scripts
  end.





End Node.
End ScriptGenerator.

(** * src/agents/advanced_test_healer.py *)

Module Healer.
Import State.

Definition max_iterations : nat := 5.

(** The names of [healing_tools], in order. *)
Definition healing_tools : list string :=
  ["playwright_run_all_tests"; "playwright_analyze_failure"; "update_test_script";
   "browser_snapshot"; "browser_navigate"; "browser_wait"].

(** [next(t for t in healing_tools if t.name == tool_name)] *)
Definition find_tool (tool_name : string) : Py.result string :=
  if existsb (String.eqb tool_name) healing_tools then Py.Ok tool_name
  else Py.Raise (Py.Exn Py.StopIteration "").

(** A spec counts when a result of its first test has status failed:
    [any(r.get("status") == "failed"
         for r in t.get("tests", [{}])[0].get("results", []))] *)
Definition spec_failed (t : Py.pyval) : Py.result bool :=
  tests ← Py.get t "tests" (Py.PList [Py.PDict []]);
  test0 ← Py.first tests;
  results ← Py.get test0 "results" (Py.PList []);
  rs ← Py.iter results;
  Py.any (fun r => status ← Py.get r "status" Py.PNone;
                   Py.Ok (Py.eq_str status "failed")) rs.

(** [len([t for t in suite.get("specs", []) if ...])] *)
Definition suite_failures (suite : Py.pyval) : Py.result nat :=
  specs ← Py.get suite "specs" (Py.PList []);
  ts ← Py.iter specs;
  Py.count_if spec_failed ts.

(** [total_failures] of a [run_all_tests] result. *)
Definition total_failures (tool_result : Py.pyval) : Py.result nat :=
  suites ← Py.get tool_result "suites" (Py.PList []);
  ss ← Py.iter suites;
  Py.sum_of suite_failures ss.

Definition error_msg (e : Py.exn) : string :=
  "Tool execution error: " +:+ Py.exn_str e.

Definition initial_request : string :=
  Py.join Py.newline
    [""; "Begin the advanced healing workflow:";
     "1. Run all tests to identify failures";
     "2. Debug each failing test systematically";
     "3. Investigate, diagnose, and fix issues";
     "4. Verify fixes by re-running tests";
     "5. Iterate until all tests pass";
     "";
     "Start now by running all tests.";
     ""].

Definition continue_request : string :=
  "Continue with the next step in the healing workflow.".

(** The locals of the node while its loop runs, with the environment and
    the log of what was done. *)
Record HState (Env : Type) := {
  env : Env;
  trace : list event;
  messages : list message;
  iteration : nat;
  all_tests_passing : bool
}.
Arguments env {Env} _.
Arguments trace {Env} _.
Arguments messages {Env} _.
Arguments iteration {Env} _.
Arguments all_tests_passing {Env} _.

(** How the loop of the node ends. *)
Inductive outcome (A : Type) : Type :=
| Finished (a : A)
| Aborted (e : Py.exn) (a : A)
| OutOfFuel.
Arguments Finished {A} a.
Arguments Aborted {A} e a.
Arguments OutOfFuel {A}.

Section Node.
Context {Env : Type} `{!ModelProvider Env, !ToolProvider Env, !Clock Env,
                       !Render, !Prompts}.

(** [messages.append(m)] *)
Definition append_message (m : message) (st : HState Env) : HState Env :=
  {| env := env st; trace := trace st; messages := messages st ++ [m];
     iteration := iteration st; all_tests_passing := all_tests_passing st |}.

Definition set_passing (st : HState Env) : HState Env :=
  {| env := env st; trace := trace st; messages := messages st;
     iteration := iteration st; all_tests_passing := true |}.

Definition next_iteration (st : HState Env) : HState Env :=
  {| env := env st; trace := trace st; messages := messages st;
     iteration := S (iteration st); all_tests_passing := all_tests_passing st |}.

Definition after_effect (env' : Env) (e : event) (st : HState Env) : HState Env :=
  {| env := env'; trace := trace st ++ [e]; messages := messages st;
     iteration := iteration st; all_tests_passing := all_tests_passing st |}.

(** [json.dumps(tool_result, indent=2)] for a dict, [str(tool_result)]
    otherwise. *)
Definition result_str (tool_result : Py.pyval) : string :=
  if Py.is_dict tool_result then json_dumps tool_result else py_str tool_result.

(** The body of the try block for one tool call, with the state it
    leaves: [Ok true] when it ends in [break], [Raise e] when something in
    it raised (no such tool, the tool itself, or the count on its
    result). *)
Definition try_call (st : HState Env) (call : tool_call)
  : Py.result bool * HState Env :=
  let tool_name := tc_name call in
  match find_tool tool_name with
  | Py.Raise e => (Py.Raise e, st)
  | Py.Ok tool_func =>
      let '(r, env') := tool_invoke tool_func (tc_args call) (env st) in
      let st1 := after_effect env' (EvTool tool_func (tc_args call)) st in
      match r with
      | Py.Raise e => (Py.Raise e, st1)
      | Py.Ok tool_result =>
          let st2 := append_message
                       (tool_message (result_str tool_result) (tc_id call)) st1 in
          if String.eqb tool_name "playwright_run_all_tests"
             && Py.is_dict tool_result then
            match total_failures tool_result with
            | Py.Raise e => (Py.Raise e, st2)
            | Py.Ok 0 => (Py.Ok true, set_passing st2)
            | Py.Ok (S _) => (Py.Ok false, st2)
            end
          else (Py.Ok false, st2)
      end
  end.

(** The [for tool_call in response.tool_calls] loop; the handler of
    [except Exception as e] appends the diagnostic message and the loop
    goes on. *)
Fixpoint run_tool_calls (st : HState Env) (calls : list tool_call) : HState Env :=
  match calls with
  | [] => st
  | call :: rest =>
      match try_call st call with
      | (Py.Ok true, st') => st'
      | (Py.Ok false, st') => run_tool_calls st' rest
      | (Py.Raise e, st') =>
          run_tool_calls
            (append_message (tool_message (error_msg e) (tc_id call)) st') rest
      end
  end.

(** The body of the while loop.  An exception of the model provider is
    not handled: it leaves the loop, with the state it was raised in. *)
Definition loop_body (st : HState Env) : Py.exn * HState Env + HState Env :=
  let st := next_iteration st in
  let '(r, env') := llm_invoke "gpt-4o" true (messages st) (env st) in
  let st := after_effect env' (EvModel "gpt-4o" true (messages st)) st in
  match r with
  | Py.Raise e => inl (e, st)
  | Py.Ok response =>
      let st := append_message response st in
      match tool_calls response with
      | _ :: _ => inr (run_tool_calls st (tool_calls response))
      | [] => inr (append_message (human_message continue_request) st)
      end
  end.

(** The state of a round once the model has replied: the counter is up,
    the call is logged, the reply is appended. *)
Definition after_reply (st : HState Env) (response : message) (env1 : Env)
  : HState Env :=
  append_message response
    (after_effect env1 (EvModel "gpt-4o" true (messages st)) (next_iteration st)).

(** [while iteration < max_iterations and not all_tests_passing: ...] *)
Fixpoint healer_loop (fuel : nat) (st : HState Env) : outcome (HState Env) :=
  if (iteration st <? max_iterations) && negb (all_tests_passing st) then
    match fuel with
    | 0 => OutOfFuel
    | S fuel' =>
        match loop_body st with
        | inl (e, st') => Aborted e st'
        | inr st' => healer_loop fuel' st'
        end
    end
  else Finished st.

Definition initial_state (env0 : Env) : HState Env :=
  {| env := env0; trace := [];
     messages := [system_message ADVANCED_HEALER_PROMPT;
                  human_message initial_request];
     iteration := 0; all_tests_passing := false |}.

(** [messages[-10:]] *)
Definition last_ten (ms : list message) : list message :=
  drop (length ms - 10) ms.

Definition summary_request (iteration : nat) (all_tests_passing : bool)
    (ms : list message) : string :=
  Py.join Py.newline
    [""; "Based on the following healing conversation, create a comprehensive summary report:";
     "";
     "Iterations completed: " +:+ pretty iteration;
     "All tests passing: " +:+ Py.str_bool all_tests_passing;
     "";
     "Conversation history:";
     Py.join Py.newline (map (fun msg => "- " +:+ content_str (content msg)) (last_ten ms));
     "";
     "Create a report with:";
     "1. Executive Summary";
     "2. Issues Identified";
     "3. Fixes Applied";
     "4. Tests Modified";
     "5. Final Status";
     "6. Recommendations";
     ""].

Definition summary_prompt (st : HState Env) : list message :=
  [system_message "You are a technical report writer. Summarize the test healing process.";
   human_message (summary_request (iteration st) (all_tests_passing st) (messages st))].

Definition healing_report_dir : string := "output/healing_summary".

Definition report_path_at (stamp : string) : string :=
  healing_report_dir +:+ "/advanced_healing_summary_" +:+ stamp +:+ ".md".

(** The dict the node returns; [state["messages"]] has to be there. *)
Definition healed_state (state : gmap string value) (st : HState Env)
    (report_path : string) : Py.result (gmap string value) :=
  history ← messages_of state;
  Py.Ok (<["healing_report_path" := VStr report_path]>
         (<["healing_iterations" := VInt (Z.of_nat (iteration st))]>
          (<["healing_complete" := VBool (all_tests_passing st)]>
           (<["messages" := VMessages (history ++ messages st)]> state)))).

(** What follows the loop: the summary call, the report file, the returned
    state. *)
Definition final_report (state : gmap string value) (st : HState Env)
  : Stage Env (gmap string value) :=
  _ ← mkdir healing_report_dir;
  stamp ← ask timestamp;
  let report_path := report_path_at stamp in
  summary_response ← invoke_model "gpt-4o" false (summary_prompt st);
  text ← lift (as_text (content summary_response));
  _ ← write_file report_path text;
  lift (healed_state state st report_path).

(** [advanced_test_healer_node(state)]: the loop, then the report, on the
    environment and the log the loop left.  The loop is given
    [max_iterations] rounds of fuel; [None] would mean they did not
    suffice. *)
Definition advanced_test_healer_node (state : gmap string value) (env0 : Env)
  : option (Py.result (gmap string value) * (Env * list event)) :=
  match healer_loop max_iterations (initial_state env0) with
  | Finished st => Some (final_report state st (env st, trace st))
  | Aborted e st => Some (Py.Raise e, (env st, trace st))
  | OutOfFuel => None
  end.

End Node.

(** The state a loop outcome carries. *)
Definition final_state {Env} (o : outcome (HState Env)) (dflt : HState Env)
  : HState Env :=
  match o with
  | Finished st => st
  | Aborted _ st => st
  | OutOfFuel => dflt
  end.

(** ** The states of the convergence loop, read off its variables *)

Inductive status := RUNNING | CONVERGED | BUDGET_EXHAUSTED.

Definition status_of {Env} (st : HState Env) : status :=
  if all_tests_passing st then CONVERGED
  else if iteration st <? max_iterations then RUNNING
  else BUDGET_EXHAUSTED.

(** A model call of the loop (tool-bound) and the summary call (plain). *)
Definition is_loop_call (e : event) : bool :=
  match e with EvModel _ true _ => true | _ => false end.

Definition is_plain_call (e : event) : bool :=
  match e with EvModel _ false _ => true | _ => false end.

Definition is_tool_run (e : event) : bool :=
  match e with EvTool _ _ => true | _ => false end.

(** ** A structured suite result without failed specs

    The shape of the JSON report of the test runner: a dict whose
    [suites] is a list of dicts, each with a list [specs] of dicts, each
    with a non-empty list [tests] of dicts, the first of which has a list
    [results] of dicts; absent keys count as the defaults the code gives
    them.  No result of a spec's first test has status failed. *)

Definition result_not_failed (r : Py.pyval) : bool :=
  match r with
  | Py.PDict items =>
      negb (Py.eq_str (default Py.PNone (Py.dict_lookup "status" items)) "failed")
  | _ => false
  end.

Definition spec_not_failed (t : Py.pyval) : bool :=
  match t with
  | Py.PDict items =>
      match default (Py.PList [Py.PDict []]) (Py.dict_lookup "tests" items) with
      | Py.PList (Py.PDict test0 :: _) =>
          match default (Py.PList []) (Py.dict_lookup "results" test0) with
          | Py.PList rs => forallb result_not_failed rs
          | _ => false
          end
      | _ => false
      end
  | _ => false
  end.

Definition suite_not_failed (s : Py.pyval) : bool :=
  match s with
  | Py.PDict items =>
      match default (Py.PList []) (Py.dict_lookup "specs" items) with
      | Py.PList ts => forallb spec_not_failed ts
      | _ => false
      end
  | _ => false
  end.

Definition zero_failed_specs (tool_result : Py.pyval) : bool :=
  match tool_result with
  | Py.PDict items =>
      match default (Py.PList []) (Py.dict_lookup "suites" items) with
      | Py.PList ss => forallb suite_not_failed ss
      | _ => false
      end
  | _ => false
  end.

End Healer.

(** * A scripted environment

    Collaborators that answer from prepared lists: the model provider
    gives its replies in order and raises once they are used up, and so do
    the tools; the test process reports the prepared results and passes
    afterwards.  The examples run the stages on it. *)

Module Scripted.

Record env := {
  model_replies : list (Py.result message);
  tool_results : list (Py.result Py.pyval);
  proc_results : list TestRunner.proc_result;
  spec_files : list string;
  test_cases : list ScriptGenerator.TestCase
}.

Definition exhausted : Py.exn := Py.Exn Py.ExternalError "no reply".

#[global] Instance model : ModelProvider env := {|
  llm_invoke _ _ _ e :=
    match model_replies e with
    | r :: rest =>
        (r, {| model_replies := rest; tool_results := tool_results e;
               proc_results := proc_results e; spec_files := spec_files e;
               test_cases := test_cases e |})
    | [] => (Py.Raise exhausted, e)
    end
|}.

#[global] Instance tools : ToolProvider env := {|
  tool_invoke _ _ e :=
    match tool_results e with
    | r :: rest =>
        (r, {| model_replies := model_replies e; tool_results := rest;
               proc_results := proc_results e; spec_files := spec_files e;
               test_cases := test_cases e |})
    | [] => (Py.Raise exhausted, e)
    end
|}.

#[global] Instance clock : Clock env := {| timestamp _ := "20240101_120000" |}.

#[global] Instance process : TestRunner.TestProcess env := {|
  TestRunner.glob_specs := spec_files;
  TestRunner.run_playwright _ e :=
    match proc_results e with
    | r :: rest =>
        (r, {| model_replies := model_replies e; tool_results := tool_results e;
               proc_results := rest; spec_files := spec_files e;
               test_cases := test_cases e |})
    | [] => (TestRunner.Completed 0 "" "", e)
    end;
  TestRunner.read_script _ _ := "import { test } from '@playwright/test'; test('t', f);"
|}.

#[global] Instance planner_inputs : TestPlanner.PlannerInputs env := {|
  TestPlanner.snapshot_data_text _ := "[]";
  TestPlanner.str_value _ := "None"
|}.

(** The file name of a path directly in [tests], if it is one. *)
Definition in_tests (path : string) : bool :=
  Py.startswith "tests/" path
  && negb (Py.contains "/" (String.substring 6 (String.length path - 6) path)).

(** A regular-expression search that finds nothing, and a [tests]
    directory without subdirectories: a write to a path directly in it
    returns, any other raises as for a missing directory. *)
#[global] Instance generator_inputs : ScriptGenerator.GeneratorInputs env := {|
  ScriptGenerator.load_test_cases e := Py.Ok (test_cases e);
  ScriptGenerator.load_context _ _ := Py.Ok "Test Cases: ...";
  ScriptGenerator.search_case _ _ := Py.Ok None;
  ScriptGenerator.write_script path _ e :=
    if in_tests path then (Py.Ok tt, e)
    else (Py.Raise (Py.Exn Py.ExternalError
                      ("[Errno 2] No such file or directory: '" +:+ path +:+ "'")), e)
|}.

#[global] Instance render : Render := {|
  json_dumps _ := "{...}";
  py_str v := match v with Py.PStr s => s | _ => "..." end
|}.

#[global] Instance prompts : Prompts := {|
  ADVANCED_HEALER_PROMPT := "You heal failing tests.";
  TEST_RUNNER_PROMPT := "You analyse test failures.";
  TEST_PLANNER_PROMPT := "You plan tests.";
  SCRIPT_GENERATOR_PROMPT := "You write test scripts."
|}.

(** An environment with nothing prepared. *)
Definition idle : env :=
  {| model_replies := []; tool_results := []; proc_results := [];
     spec_files := []; test_cases := [] |}.

(** A reply of the model: text, tool calls, id. *)
Definition ai (text : string) (calls : list tool_call) (id : string) : message :=
  {| msg_role_of := AIMessage; content := Text text; tool_calls := calls;
     tool_call_id := None; msg_id := Some id |}.

Definition call (name id : string) : tool_call :=
  {| tc_name := name; tc_args := Py.PDict []; tc_id := id |}.

(** A suite result with one spec whose only result is [status]. *)
Definition suite_result (status : string) : Py.pyval :=
  Py.PDict [("suites",
    Py.PList [Py.PDict [("specs",
      Py.PList [Py.PDict [("tests",
        Py.PList [Py.PDict [("results",
          Py.PList [Py.PDict [("status", Py.PStr status)]])]])]])]])].

(** One script that passes: a clean run. *)
Definition clean_env : env :=
  {| model_replies := []; tool_results := [];
     proc_results := [TestRunner.Completed 0 "1 passed" ""];
     spec_files := ["TC-001.spec.ts"]; test_cases := [] |}.

(** Five scripts, the second fails and the fourth times out; the model
    then writes the failure report. *)
Definition two_failing_env : env :=
  {| model_replies := [Py.Ok (ai "# Failure analysis" [] "run-1")];
     tool_results := [];
     proc_results := [TestRunner.Completed 0 "1 passed" "";
                      TestRunner.Completed 1 "1 failed" "Error: locator not found";
                      TestRunner.Completed 0 "1 passed" "";
                      TestRunner.TimeoutExpired;
                      TestRunner.Completed 0 "1 passed" ""];
     spec_files := ["TC-001.spec.ts"; "TC-002.spec.ts"; "TC-003.spec.ts";
                    "TC-004.spec.ts"; "TC-005.spec.ts"];
     test_cases := [] |}.

(** A first reply that asks for a diagnosis, a full run and a wait; the
    full run passes. *)
Definition quick_reply : message :=
  ai "" [call "playwright_analyze_failure" "call_1";
         call "playwright_run_all_tests" "call_2";
         call "browser_wait" "call_3"] "run-1".

Definition quick_env : env :=
  {| model_replies := [Py.Ok quick_reply; Py.Ok (ai "# Healing summary" [] "run-2")];
     tool_results := [Py.Ok (Py.PStr "diagnostics"); Py.Ok (suite_result "passed")];
     proc_results := []; spec_files := []; test_cases := [] |}.

(** Two rounds: the first full run reports a failed spec, the second round
    fixes a script and its full run passes; then the summary. *)
Definition healing_env : env :=
  {| model_replies :=
       [Py.Ok (ai "" [call "playwright_run_all_tests" "call_1"] "run-1");
        Py.Ok (ai "" [call "update_test_script" "call_2";
                      call "playwright_run_all_tests" "call_3"] "run-2");
        Py.Ok (ai "# Healing summary" [] "run-3")];
     tool_results := [Py.Ok (suite_result "failed");
                      Py.Ok (Py.PStr "Updated test script: TC-002.spec.ts");
                      Py.Ok (suite_result "passed")];
     proc_results := []; spec_files := []; test_cases := [] |}.

(** The model talks without asking for tools, then fails on the fourth
    call. *)
Definition failing_model_env : env :=
  {| model_replies := [Py.Ok (ai "Let me think." [] "run-1");
                       Py.Ok (ai "Still thinking." [] "run-2");
                       Py.Ok (ai "Almost." [] "run-3");
                       Py.Raise (Py.Exn Py.ExternalError "rate limit exceeded")];
     tool_results := []; proc_results := []; spec_files := []; test_cases := [] |}.





(** The conversation so far is the user's request; the planner's model
    answers with a plan. *)
Definition user_request : message :=
  {| msg_role_of := HumanMessage; content := Text "Pages: ... User Story: ...";
     tool_calls := []; tool_call_id := None; msg_id := Some "user-1" |}.

Definition plan_reply : message := ai "# Test plan" [] "run-1".

Definition planner_env : env :=
  {| model_replies := [Py.Ok plan_reply];
     tool_results := []; proc_results := []; spec_files := []; test_cases := [] |}.

End Scripted.

(** * A stubborn environment

    A model provider that asks for a full test run in every reply, and
    tools that always fail. *)

Module Stubborn.

Inductive world := World.

Definition reply : message :=
  {| msg_role_of := AIMessage; content := Text "";
     tool_calls := [{| tc_name := "playwright_run_all_tests";
                       tc_args := Py.PDict []; tc_id := "call_1" |}];
     tool_call_id := None; msg_id := Some "run-1" |}.

Definition crash : Py.exn := Py.Exn Py.ExternalError "npx: command not found".

#[global] Instance model : ModelProvider world := {|
  llm_invoke _ _ _ w := (Py.Ok reply, w)
|}.

#[global] Instance tools : ToolProvider world := {|
  tool_invoke _ _ w := (Py.Raise crash, w)
|}.

#[global] Instance clock : Clock world := {| timestamp _ := "20240101_120000" |}.

End Stubborn.

(** * src/tools/playwright_tools.py: the full test run *)

Module RunAllTests.

(** [json.loads], the library's parser: a value or an exception. *)
Class JsonParser := { json_loads : string -> Py.result Py.pyval }.

(** [s[-n:]] *)
Definition last_chars (n : nat) (s : string) : string :=
  String.substring (String.length s - n) n s.

(** [playwright_run_all_tests()], on what the test process gave back:
    its return code, standard output and standard error. *)
Definition playwright_run_all_tests `{JsonParser} (returncode : Z)
    (stdout stderr : string) : Py.pyval :=
  if negb (Z.eqb returncode 0) && negb (Py.truthy_str stdout) then
    Py.PDict [("error", Py.PStr "Playwright execution failed");
              ("stderr", Py.PStr (last_chars 2000 stderr))]
  else
    match json_loads stdout with
    | Py.Ok report => report
    | Py.Raise e =>
        Py.PDict [("error", Py.PStr "Failed to parse Playwright JSON output");
                  ("exception", Py.PStr (Py.exn_str e));
                  ("raw", Py.PStr (last_chars 2000 stdout))]
    end.

(** The tool failed to produce a report: the process failed without
    output, or its output does not parse. *)
Definition no_report `{JsonParser} (returncode : Z) (stdout : string) : bool :=
  (negb (Z.eqb returncode 0) && negb (Py.truthy_str stdout))
  || negb (Py.is_ok (json_loads stdout)).

End RunAllTests.

(** * src/agents/test_runner.py: the outcomes of the runs *)

Module RunnerOutcomes.
Import State TestRunner.

(** A run counts as passed when it completes with return code 0. *)
Definition passed (p : proc_result) : bool :=
  match p with
  | Completed returncode _ _ => Z.eqb returncode 0
  | TimeoutExpired => false
  end.

(** The shape of a recorded failure. *)
Definition well_formed_failure (f : TestFailure) : Prop :=
  script_path f = "tests/" +:+ script_name f /\ String.length (logs f) <= 4000.

(** The scripts whose run did not pass, in order. *)
Fixpoint failing_scripts (scripts : list string) (outcomes : list proc_result)
  : list string :=
  match scripts, outcomes with
  | script :: scripts', outcome :: outcomes' =>
      if passed outcome then failing_scripts scripts' outcomes'
      else script :: failing_scripts scripts' outcomes'
  | _, _ => []
  end.

Section Outcomes.
Context {Env : Type} `{!TestProcess Env}.

(** What the test process answers for the scripts, run one after the
    other as the node runs them. *)
Fixpoint run_outcomes (scripts : list string) (env : Env) : list proc_result :=
  match scripts with
  | [] => []
  | script :: rest =>
      let '(proc, env') := run_playwright ("tests/" +:+ script) env in
      proc :: run_outcomes rest env'
  end.

End Outcomes.
End RunnerOutcomes.

(** * src/agents/advanced_test_healer.py: reading the log *)

Module HealerLog.

(** A run of the full-suite tool. *)
Definition is_full_run (e : event) : bool :=
  match e with
  | EvTool name _ => String.eqb name "playwright_run_all_tests"
  | _ => false
  end.

Definition is_tool_message (m : message) : bool :=
  match msg_role_of m with ToolMessage => true | _ => false end.

(** An event of the healer loop: a tool-bound model call or a run of one
    of the healing tools. *)
Definition loop_event (e : event) : Prop :=
  match e with
  | EvModel _ with_tools _ => with_tools = true
  | EvTool name _ => In name Healer.healing_tools
  | _ => False
  end.

(** A tool message that answers one of the calls. *)
Definition answers (calls : list tool_call) (m : message) : Prop :=
  is_tool_message m = true /\
  exists call, In call calls /\ tool_call_id m = Some (tc_id call).

End HealerLog.

(** * src/agents/test_healer.py *)

Module TestHealer.
Import State.

(** What the one-shot healer reads: its prompt file, a file's text, the
    text of the dict of current scripts, the matches of the
    updated-scripts pattern in the model's output (script name, new
    content), and whether a path exists. *)
Class HealerInputs (Env : Type) := {
  TEST_HEALER_PROMPT : string;
  read_text : string -> Env -> Py.result string;
  test_scripts_text : Env -> string;
  findall_updates : string -> list (string * string);
  path_exists : string -> Env -> bool
}.

Section Node.
Context {Env : Type} `{!ModelProvider Env, !HealerInputs Env, !Render}.

Definition healer_request (failure_report test_scripts : string) : string :=
  Py.join Py.newline
    [""; "FAILURE REPORT:"; failure_report; ""; "CURRENT TEST SCRIPTS:";
     test_scripts; ""].

(** The loop over the updates: unknown scripts are skipped, known ones
    are overwritten with the stripped content. *)
Fixpoint apply_updates (updates : list (string * string)) : Stage Env (list string) :=
  match updates with
  | [] => mret []
  | (script_name, updated_content) :: rest =>
      let script_path := PlaywrightTools.script_path script_name in
      known ← ask (path_exists script_path);
      if known : bool then
        _ ← write_file script_path (Py.strip updated_content);
        applied ← apply_updates rest;
        mret (script_name :: applied)
      else apply_updates rest
  end.

Definition change_report_path : string := "output/healer_report/applied_changes.md".

(** [test_healer_node(state)] *)
Definition test_healer_node (state : gmap string value)
  : Stage Env (gmap string value) :=
  let failure_report_path := get state "failure_report_path" VNone in
  if negb (truthy failure_report_path) then mret state
  else
    match failure_report_path with
    | VStr path =>
        failure_report ← (fun s => (read_text path s.1, s));
        test_scripts ← ask test_scripts_text;
        response ← invoke_model "gpt-4o-mini" false
                     [system_message TEST_HEALER_PROMPT;
                      human_message (healer_request failure_report test_scripts)];
        let llm_output := TestRunner.normalize (content response) in
        _ ← apply_updates (findall_updates llm_output);
        _ ← mkdir "output/healer_report";
        _ ← write_file change_report_path llm_output;
        history ← lift (messages_of state);
        mret (<["messages" := VMessages (history ++ [response])]> state)
    | _ => lift (Py.Raise (Py.Exn Py.TypeError
                             "expected str, bytes or os.PathLike object"))
    end.

End Node.
End TestHealer.

(** * More scripted collaborators *)

Module ScriptedMore.

(** A parser that rejects its input. *)
#[global] Instance rejecting_parser : RunAllTests.JsonParser := {|
  RunAllTests.json_loads _ := Py.Raise (Py.Exn Py.ExternalError "Expecting value")
|}.

(** The test process fails without output. *)
Definition broken_run_env : Scripted.env :=
  {| Scripted.model_replies := [];
     Scripted.tool_results :=
       [Py.Ok (RunAllTests.playwright_run_all_tests 1 "" "Error: no tests found")];
     Scripted.proc_results := []; Scripted.spec_files := [];
     Scripted.test_cases := [] |}.

(** The one-shot healer's inputs: one known script, and a model output
    with an update for it and one for an unknown script. *)
#[global] Instance healer_inputs : TestHealer.HealerInputs Scripted.env := {|
  TestHealer.TEST_HEALER_PROMPT := "You fix failing tests.";
  TestHealer.read_text _ _ := Py.Ok "# Failure analysis";
  TestHealer.test_scripts_text _ := "{'TC-001.spec.ts': '...'}";
  TestHealer.findall_updates _ :=
    [("TC-001.spec.ts", " import x; test('a', f); ");
     ("TC-999.spec.ts", "import y; test('b', g);")];
  TestHealer.path_exists p _ := String.eqb p "tests/TC-001.spec.ts"
|}.



End ScriptedMore.

(** * src/agents/test_healer.py: the updates applied *)

Module TestHealerLog.

Section Updates.
Context {Env : Type} `{!TestHealer.HealerInputs Env}.



End Updates.
End TestHealerLog.

(** * src/graph/workflow.py: the graph built *)

Module WorkflowGraph.
Import Workflow.

(** The conditional edge out of [snapshot_agent]. *)
Definition after_snapshot (state : gmap string State.value) : Py.result (option node) :=
  branch ← should_continue state;
  Py.Ok (if String.eqb branch "tool_call" then Some tools
         else if String.eqb branch "test_plan" then Some test_planner_agent
         else None).

(** Where [build_graph] sends control after a node, given the state the
    node left; nowhere when the router raises. *)
Definition next (n : node) (state : gmap string State.value) : option node :=
  match n with
  | snapshot_agent =>
      match after_snapshot state with Py.Ok target => target | Py.Raise _ => None end
  | test_runner_agent => after_test_runner state
  | _ => edge n
  end.




End WorkflowGraph.

(** * src/agents/snapshot_collector.py *)

Module SnapshotCollector.
Import State.

(** The prompt file read when the module is imported. *)
Class CollectorPrompt := { PROMPT : string }.

Section Node.
Context {Env : Type} `{!ModelProvider Env, !CollectorPrompt}.

(** [snapshot_node(state)]: the returned dict holds the reply alone. *)
Definition snapshot_node (state : gmap string value)
  : Stage Env (gmap string value) :=
  history ← lift (messages_of state);
  response ← invoke_model "gpt-4o-mini" true (system_message PROMPT :: history);
  mret ({[ "messages" := VMessages [response] ]}).

End Node.
End SnapshotCollector.

(** * src/tools/snapshot_locator_tool.py *)

Module SnapshotLocator.
Import PlaywrightTools.







End SnapshotLocator.

(** * A scripted collector *)

Module ScriptedCollector.

#[global] Instance prompt : SnapshotCollector.CollectorPrompt := {|
  SnapshotCollector.PROMPT := "You collect snapshots."
|}.

Definition navigate_reply : message :=
  Scripted.ai "" [Scripted.call "browser_navigate" "call_1"] "run-1".

Definition collector_env : Scripted.env :=
  {| Scripted.model_replies := [Py.Ok navigate_reply];
     Scripted.tool_results := []; Scripted.proc_results := [];
     Scripted.spec_files := []; Scripted.test_cases := [] |}.

End ScriptedCollector.

(** * Facts *)

(** ** Strings *)

Lemma append_cons (c : ascii) (s t : string) :
  String c s +:+ t = String c (s +:+ t).
Proof. reflexivity. Qed.

Lemma append_nil (t : string) : EmptyString +:+ t = t.
Proof. reflexivity. Qed.

Lemma startswith_app (p s : string) : Py.startswith p (p +:+ s) = true.
Proof.
  induction p as [|c p IH]; [reflexivity|].
  rewrite append_cons. simpl. rewrite Ascii.eqb_refl. exact IH.
Qed.

Lemma app_assoc_str (a b c : string) : (a +:+ b) +:+ c = a +:+ (b +:+ c).
Proof.
  induction a as [|x a IH]; [reflexivity|].
  rewrite !append_cons. f_equal. exact IH.
Qed.

Lemma string_app_length (a b : string) :
  String.length (a +:+ b) = String.length a + String.length b.
Proof.
  induction a as [|x a IH]; [reflexivity|].
  rewrite append_cons. simpl. f_equal. exact IH.
Qed.

Lemma string_app_inj_r (a b s : string) : a +:+ s = b +:+ s -> a = b.
Proof.
  revert b. induction a as [|x a IH]; intros [|y b] H.
  - reflexivity.
  - apply (f_equal String.length) in H.
    rewrite append_nil, string_app_length in H. simpl in H. lia.
  - apply (f_equal String.length) in H.
    rewrite append_nil, string_app_length in H. simpl in H. lia.
  - rewrite !append_cons in H. injection H as -> H. f_equal. by apply IH.
Qed.

(** ** update_test_script *)

Section UpdateTestScript.
Import PlaywrightTools.
Context {FS : Type} `{!FileSystem FS}.


End UpdateTestScript.

Section UpdateTestScriptExamples.
Import PlaywrightTools.

(** On a tests directory with one script: the script is overwritten,
    also when it is named with a leading [./] or a trailing slash, which
    pathlib drops; an unknown script and a content without [import] give
    the error answers; the empty name is the directory itself, which
    exists, so the write is tried and raises. *)
Example update_test_script_example :
  let d : TestsDir.dir := [("TC-001.spec.ts", "old")] in
  let content := "import x; test('a', f)" in
  update_test_script "TC-001.spec.ts" content d
    = (Py.Ok "Updated test script: TC-001.spec.ts", [("TC-001.spec.ts", content)])
  /\ update_test_script "./TC-001.spec.ts" content d
    = (Py.Ok "Updated test script: ./TC-001.spec.ts", [("TC-001.spec.ts", content)])
  /\ update_test_script "TC-001.spec.ts/" content d
    = (Py.Ok "Updated test script: TC-001.spec.ts/", [("TC-001.spec.ts", content)])
  /\ update_test_script "TC-002.spec.ts" content d
    = (Py.Ok "ERROR: Script TC-002.spec.ts not found.", d)
  /\ update_test_script "TC-001.spec.ts" "test('a', f)" d
    = (Py.Ok "ERROR: Invalid test content detected. Update aborted.", d)
  /\ update_test_script "" content d
    = (Py.Raise (Py.Exn Py.ExternalError "[Errno 21] Is a directory: 'tests'"), d).
Proof. vm_compute. repeat split. Qed.


End UpdateTestScriptExamples.

(** ** Snapshot page types *)

Section PageTypes.
Import PlaywrightTools.

Lemma infer_page_type_cases (page_name : string) :
  let lower_name := Py.lower page_name in
  let form := existsb (fun k => Py.contains k lower_name) ["new"; "edit"; "create"; "form"] in
  let listing := existsb (fun k => Py.contains k lower_name) ["list"; "view"] in
  infer_page_type page_name =
    if form then "form_page" else if listing then "list_view" else "general_page".
Proof. reflexivity. Qed.

Lemma infer_page_type_in (page_name : string) :
  In (infer_page_type page_name) PAGE_TYPES.
Proof.
  unfold infer_page_type, PAGE_TYPES.
  destruct (existsb _ _); [left; reflexivity|].
  destruct (existsb _ _); [right; left; reflexivity | right; right; left; reflexivity].
Qed.

Example infer_page_type_examples :
  infer_page_type "New Account form page" = "form_page" /\
  infer_page_type "Accounts List View" = "list_view" /\
  infer_page_type "Home Page" = "general_page" /\
  infer_page_type "Review queue" = "list_view".
Proof. repeat split. Qed.

(** C9, as the code has it.  The record [browser_snapshot] persists has a
    page type among form_page, list_view and general_page, fixed by the
    keywords found in the lower-cased page name (a form keyword wins over
    a list keyword); the record [browser_failure_snapshot] persists has the
    page type failure_page whatever the name. *)
Theorem snapshot_page_type (pv : PageView) (name : string)
    (store : gmap string Snapshot) :
  (exists snap,
      (browser_snapshot pv name store).2
        !! sum_file (browser_snapshot pv name store).1 = Some snap /\
      page_name snap = name /\
      page_type snap = infer_page_type name /\
      In (page_type snap) PAGE_TYPES) /\
  (exists snap,
      (browser_failure_snapshot pv name store).2
        !! sum_file (browser_failure_snapshot pv name store).1 = Some snap /\
      page_type snap = "failure_page").
Proof.
  split; eexists; (split; [apply lookup_insert_eq|]); simpl.
  - repeat split. apply infer_page_type_in.
  - reflexivity.
Qed.

(** C9 fails for [browser_failure_snapshot]: the page type of the record
    it persists is none of the three. *)
Lemma failure_snapshot_page_type_outside :
  let pv := {| pv_url := "https://example.test/lightning/o/Account/new";
               pv_nodes := [{| ax_role := Some "button"; ax_name := Some "Save" |}];
               pv_timestamp := "20240101_120000" |} in
  exists snap,
    (browser_failure_snapshot pv "TC-001" ∅).2
      !! sum_file (browser_failure_snapshot pv "TC-001" ∅).1 = Some snap /\
    page_type snap = "failure_page" /\
    ~ In (page_type snap) PAGE_TYPES.
Proof.
  simpl. eexists. split; [apply lookup_insert_eq|]. simpl. split; [reflexivity|].
  unfold PAGE_TYPES. intros [H|[H|[H|[]]]]; discriminate H.
Qed.

End PageTypes.

(** ** TestRunner *)

Section TestRunnerFacts.
Import State TestRunner.
Context {Env : Type} `{!ModelProvider Env, !TestProcess Env, !Render, !Prompts}.

(** The node, evaluated: one equation per path through it. *)
Lemma test_runner_node_run (state : gmap string value) (env : Env) :
  run_stage (test_runner_node state) env =
    let '(failures, env1) := run_scripts (glob_specs env) [] env in
    match failures with
    | [] => (Py.Ok (clean_state state), (env1, [EvMkdir "output/failure_report"]))
    | _ :: _ =>
        let '(r, env2) := llm_invoke "gpt-4o-mini" false (runner_prompt failures) env1 in
        let tr := [EvMkdir "output/failure_report";
                   EvModel "gpt-4o-mini" false (runner_prompt failures)] in
        match r with
        | Py.Ok llm_response =>
            (Py.Ok (failing_state state failures (normalize (content llm_response))),
             (env2, tr ++ [EvWrite report_md_path (normalize (content llm_response))]))
        | Py.Raise e => (Py.Raise e, (env2, tr))
        end
    end.
Proof.
  unfold run_stage, test_runner_node, mbind, stage_bind, mkdir, log, ask, perform,
    invoke_model, write_file, log, mret, stage_ret. simpl.
  destruct (run_scripts (glob_specs env) [] env) as [failures env1].
  destruct failures as [|f failures]; [reflexivity|]. simpl.
  destruct (llm_invoke _ _ _ env1) as [[llm_response|e] env2]; reflexivity.
Qed.

(** Failures are only ever appended. *)
Lemma run_scripts_grows (scripts : list string) (failures : list TestFailure) (env : Env) :
  exists more, (run_scripts scripts failures env).1 = failures ++ more.
Proof.
  revert failures env. induction scripts as [|script rest IH]; intros failures env; simpl.
  - exists []. by rewrite app_nil_r.
  - destruct (run_playwright _ env) as [[returncode stdout stderr|] env'].
    + destruct (negb (Z.eqb returncode 0)).
      * match goal with
        | |- context [run_scripts rest ?fs env'] => destruct (IH fs env') as [more Hm]
        end.
        rewrite Hm, <- app_assoc. eauto.
      * apply IH.
    + match goal with
      | |- context [run_scripts rest ?fs env'] => destruct (IH fs env') as [more Hm]
      end.
      rewrite Hm, <- app_assoc. eauto.
Qed.

(** C4. When the runner classifies no script as failing, the node returns
    a state with has_test_failures false, an empty failures list and a
    null failure_report_path; it writes no file and calls no model (all it
    does is make sure the report directory exists); and the routing
    function then selects end, which the graph maps to its END node. *)
Theorem clean_run_short_circuit (state : gmap string value) (env : Env) :
  (run_scripts (glob_specs env) [] env).1 = [] ->
  exists state' env' tr,
    run_stage (test_runner_node state) env = (Py.Ok state', (env', tr)) /\
    state' !! "has_test_failures" = Some (VBool false) /\
    state' !! "failures" = Some (VFailures []) /\
    state' !! "failure_report_path" = Some VNone /\
    tr = [EvMkdir "output/failure_report"] /\
    count_events is_write tr = 0 /\
    count_events is_model_call tr = 0 /\
    Workflow.route_after_test_runner state' = "end" /\
    Workflow.after_test_runner state' = Some Workflow.END.
Proof.
  intros Hclean. rewrite test_runner_node_run.
  destruct (run_scripts (glob_specs env) [] env) as [failures env1].
  simpl in Hclean. subst failures.
  exists (clean_state state), env1, [EvMkdir "output/failure_report"].
  assert (Hflag : clean_state state !! "has_test_failures" = Some (VBool false)).
  { unfold clean_state. by simplify_map_eq. }
  split; [reflexivity|].
  split; [exact Hflag|].
  split; [unfold clean_state; by simplify_map_eq|].
  split; [unfold clean_state; by simplify_map_eq|].
  split; [reflexivity|].
  split; [reflexivity|].
  split; [reflexivity|].
  assert (Hroute : Workflow.route_after_test_runner (clean_state state) = "end").
  { unfold Workflow.route_after_test_runner, get. by rewrite Hflag. }
  split; [exact Hroute|].
  unfold Workflow.after_test_runner. by rewrite Hroute.
Qed.

(** C5. Whatever the scripts and the model do, a state returned by the
    runner holds the collected failures, and the failures list is
    non-empty exactly when has_test_failures is true.  The node fails to
    return only when its one model call raises. *)
Theorem failures_iff_flag (state : gmap string value) (env : Env) :
  match run_stage (test_runner_node state) env with
  | (Py.Ok state', _) =>
      exists fs b,
        state' !! "failures" = Some (VFailures fs) /\
        state' !! "has_test_failures" = Some (VBool b) /\
        fs = (run_scripts (glob_specs env) [] env).1 /\
        (fs <> [] <-> b = true)
  | (Py.Raise e, (_, tr)) =>
      exists failures env1 env2,
        run_scripts (glob_specs env) [] env = (failures, env1) /\
        failures <> [] /\
        llm_invoke "gpt-4o-mini" false (runner_prompt failures) env1 = (Py.Raise e, env2) /\
        count_events is_write tr = 0
  end.
Proof.
  rewrite test_runner_node_run.
  destruct (run_scripts (glob_specs env) [] env) as [failures env1] eqn:Hrun.
  destruct failures as [|f failures].
  - exists [], false. unfold clean_state. simplify_map_eq.
    repeat split; try done.
  - destruct (llm_invoke _ _ _ env1) as [[llm_response|e] env2] eqn:Hllm.
    + exists (f :: failures), true. unfold failing_state. simplify_map_eq.
      repeat split; try done.
    + exists (f :: failures), env1, env2. repeat split; try done.
Qed.

(** A state returned with failures routes to the healer. *)
Lemma failing_state_routes (state : gmap string value) (failures : list TestFailure)
    (markdown_report : string) :
  Workflow.after_test_runner (failing_state state failures markdown_report)
  = Some Workflow.advanced_test_healer_agent.
Proof.
  unfold Workflow.after_test_runner, Workflow.route_after_test_runner, get,
    failing_state.
  by simplify_map_eq.
Qed.

End TestRunnerFacts.

Section TestRunnerExamples.
Import State TestRunner.

Lemma clean_run_short_circuit_witness :
  exists state' env' tr,
    run_stage (test_runner_node ∅) Scripted.clean_env = (Py.Ok state', (env', tr)) /\
    state' !! "has_test_failures" = Some (VBool false) /\
    state' !! "failures" = Some (VFailures []) /\
    state' !! "failure_report_path" = Some VNone /\
    tr = [EvMkdir "output/failure_report"] /\
    count_events is_write tr = 0 /\
    count_events is_model_call tr = 0 /\
    Workflow.route_after_test_runner state' = "end" /\
    Workflow.after_test_runner state' = Some Workflow.END.
Proof. apply (clean_run_short_circuit ∅ Scripted.clean_env). reflexivity. Defined.

End TestRunnerExamples.

Section TestRunnerScenario.
Import State TestRunner.

(** Two failing scripts out of five: two failures are recorded in
    order, the report is requested and written once, and the state the
    node returns routes to the healer. *)
Example two_failing_run :
  exists f1 f2 env1 env2,
    run_scripts (glob_specs Scripted.two_failing_env) [] Scripted.two_failing_env
      = ([f1; f2], env1) /\
    script_name f1 = "TC-002.spec.ts" /\
    logs f1 = "Error: locator not found" /\
    script_name f2 = "TC-004.spec.ts" /\
    logs f2 = "Test execution timed out after 60 seconds" /\
    run_stage (test_runner_node ∅) Scripted.two_failing_env
      = (Py.Ok (failing_state ∅ [f1; f2] "# Failure analysis"),
         (env2, [EvMkdir "output/failure_report";
                 EvModel "gpt-4o-mini" false (runner_prompt [f1; f2]);
                 EvWrite report_md_path "# Failure analysis"])).
Proof.
  do 4 eexists. split; [vm_compute; reflexivity|].
  do 4 (split; [reflexivity|]).
  rewrite test_runner_node_run. reflexivity.
Qed.

End TestRunnerScenario.

(** ** Traces *)

Lemma count_events_app (p : event -> bool) (a b : list event) :
  count_events p (a ++ b) = count_events p a + count_events p b.
Proof. unfold count_events. by rewrite filter_app, length_app. Qed.

Lemma count_events_cons (p : event -> bool) (e : event) (tr : list event) :
  count_events p (e :: tr) = (if p e then 1 else 0) + count_events p tr.
Proof.
  unfold count_events. rewrite filter_cons.
  destruct (p e); [rewrite decide_True by done | rewrite decide_False by done];
    reflexivity.
Qed.

Lemma count_events_nil (p : event -> bool) : count_events p [] = 0.
Proof. reflexivity. Qed.

Lemma count_events_none (p : event -> bool) (tr : list event) :
  Forall (fun e => p e = false) tr -> count_events p tr = 0.
Proof.
  unfold count_events. induction 1 as [|e tr He _ IH]; [reflexivity|].
  rewrite filter_cons. destruct (decide (p e = true)) as [Ht|_]; [congruence|exact IH].
Qed.

Lemma tool_runs_are_not (p : event -> bool) (tr : list event) :
  (forall name args, p (EvTool name args) = false) ->
  Forall (fun e => Healer.is_tool_run e = true) tr ->
  count_events p tr = 0.
Proof.
  intros Hp Htr. apply count_events_none.
  eapply Forall_impl; [exact Htr|]. intros [| | |] He; try discriminate He. apply Hp.
Qed.

(** ** The healer loop *)

Section HealerFacts.
Import State Healer.
Context {Env : Type} `{!ModelProvider Env, !ToolProvider Env, !Clock Env,
                       !Render, !Prompts}.

(** One tool call leaves the iteration counter alone, logs at most its
    own run, and sets the flag exactly when it ends in [break]. *)
Lemma try_call_facts (st : HState Env) (call : tool_call) :
  iteration (try_call st call).2 = iteration st /\
  (exists runs, trace (try_call st call).2 = trace st ++ runs /\
                Forall (fun e => is_tool_run e = true) runs) /\
  all_tests_passing (try_call st call).2
    = match (try_call st call).1 with
      | Py.Ok true => true
      | _ => all_tests_passing st
      end.
Proof.
  unfold try_call.
  destruct (find_tool (tc_name call)) as [tool_func|e]; simpl.
  2:{ split; [reflexivity|]. split; [|reflexivity]. exists []. by rewrite app_nil_r. }
  destruct (tool_invoke _ _ _) as [[tool_result|e] env']; simpl.
  2:{ split; [reflexivity|]. split; [|reflexivity]. eexists. split; [reflexivity|].
      by repeat constructor. }
  destruct (_ && _); [destruct (total_failures tool_result) as [[|n]|e]|]; simpl;
    (split; [reflexivity|]; split; [|reflexivity]; eexists; split; [reflexivity|];
     by repeat constructor).
Qed.

Lemma run_tool_calls_iteration (calls : list tool_call) (st : HState Env) :
  iteration (run_tool_calls st calls) = iteration st.
Proof.
  revert st. induction calls as [|call rest IH]; intros st; simpl; [reflexivity|].
  destruct (try_call_facts st call) as (Hit & _ & _).
  destruct (try_call st call) as [[[|]|e] st']; simpl in *;
    [exact Hit | by rewrite IH | by rewrite IH].
Qed.

Lemma run_tool_calls_trace (calls : list tool_call) (st : HState Env) :
  exists runs, trace (run_tool_calls st calls) = trace st ++ runs /\
               Forall (fun e => is_tool_run e = true) runs.
Proof.
  revert st. induction calls as [|call rest IH]; intros st; simpl.
  { exists []. by rewrite app_nil_r. }
  destruct (try_call_facts st call) as (_ & (runs & Ht & Hf) & _).
  destruct (try_call st call) as [[[|]|e] st']; simpl in *.
  - by exists runs.
  - destruct (IH st') as (more & Ht' & Hf'). exists (runs ++ more).
    rewrite Ht', Ht, <- app_assoc. split; [reflexivity|]. by apply Forall_app.
  - destruct (IH (append_message (tool_message (error_msg e) (tc_id call)) st'))
      as (more & Ht' & Hf'). exists (runs ++ more).
    rewrite Ht'. simpl. rewrite Ht, <- app_assoc. split; [reflexivity|].
    by apply Forall_app.
Qed.

(** One round of the loop: the counter goes up by one, one tool-bound
    model call is logged, then tool runs only. *)
Lemma loop_body_step (st : HState Env) :
  match loop_body st with
  | inl (e, st') =>
      iteration st' = S (iteration st) /\
      all_tests_passing st' = all_tests_passing st /\
      trace st' = trace st ++ [EvModel "gpt-4o" true (messages st)] /\
      exists env', llm_invoke "gpt-4o" true (messages st) (env st) = (Py.Raise e, env')
  | inr st' =>
      iteration st' = S (iteration st) /\
      exists runs,
        trace st' = trace st ++ EvModel "gpt-4o" true (messages st) :: runs /\
        Forall (fun e => is_tool_run e = true) runs
  end.
Proof.
  unfold loop_body. simpl.
  destruct (llm_invoke "gpt-4o" true (messages st) (env st)) as [[response|e] env'] eqn:Hllm.
  - destruct (tool_calls response) as [|call rest] eqn:Hcalls.
    + simpl. split; [reflexivity|]. exists []. by split.
    + cbn -[run_tool_calls]. rewrite run_tool_calls_iteration.
      split; [reflexivity|].
      match goal with |- context [run_tool_calls ?s ?c] =>
        destruct (run_tool_calls_trace c s) as [runs [Ht Hf]] end.
      exists runs. rewrite Ht. cbn -[run_tool_calls]. rewrite <- app_assoc. by split.
  - simpl. repeat split. by exists env'.
Qed.

Lemma loop_condition_status (st : HState Env) :
  (iteration st <? max_iterations) && negb (all_tests_passing st) = true
  <-> status_of st = RUNNING.
Proof.
  unfold status_of. destruct (all_tests_passing st), (iteration st <? max_iterations);
    simpl; split; intros Hs; try reflexivity; discriminate Hs.
Qed.

(** What the loop guarantees from any state, given fuel for the rounds
    that are left. *)
Lemma healer_loop_inv (fuel : nat) (st : HState Env) :
  max_iterations - iteration st <= fuel ->
  match healer_loop fuel st with
  | Finished st' =>
      status_of st' <> RUNNING /\
      iteration st <= iteration st' /\
      (iteration st' <= max_iterations \/ iteration st' = iteration st) /\
      count_events is_loop_call (trace st')
        = count_events is_loop_call (trace st) + (iteration st' - iteration st) /\
      count_events is_plain_call (trace st') = count_events is_plain_call (trace st) /\
      count_events is_write (trace st') = count_events is_write (trace st)
  | Aborted e st' =>
      iteration st < iteration st' /\ iteration st' <= max_iterations /\
      count_events is_loop_call (trace st')
        = count_events is_loop_call (trace st) + (iteration st' - iteration st) /\
      count_events is_plain_call (trace st') = count_events is_plain_call (trace st) /\
      count_events is_write (trace st') = count_events is_write (trace st) /\
      exists ms env1 env2, llm_invoke "gpt-4o" true ms env1 = (Py.Raise e, env2)
  | OutOfFuel => False
  end.
Proof.
  revert st. induction fuel as [|fuel IH]; intros st Hfuel.
  - simpl. destruct ((iteration st <? max_iterations) && negb (all_tests_passing st)) eqn:Hc.
    + apply andb_true_iff in Hc as [Hlt _]. apply Nat.ltb_lt in Hlt. lia.
    + split; [|repeat split; lia].
      intros Hr. apply loop_condition_status in Hr. congruence.
  - simpl. destruct ((iteration st <? max_iterations) && negb (all_tests_passing st)) eqn:Hc.
    2:{ split; [|repeat split; lia].
        intros Hr. apply loop_condition_status in Hr. congruence. }
    apply andb_true_iff in Hc as [Hlt _]. apply Nat.ltb_lt in Hlt.
    pose proof (loop_body_step st) as Hstep.
    destruct (loop_body st) as [[e st']|st'].
    + destruct Hstep as (Hit & _ & Htr & env' & Hraise).
      rewrite Htr, !count_events_app, !count_events_cons, !count_events_nil, Hit.
      simpl. do 5 (split; [lia|]). by exists (messages st), (env st), env'.
    + destruct Hstep as (Hit & runs & Htr & Hruns).
      specialize (IH st'). rewrite Hit in IH.
      assert (Hcount : forall p : event -> bool,
                 (forall name args, p (EvTool name args) = false) ->
                 count_events p (trace st')
                 = count_events p (trace st)
                   + (if p (EvModel "gpt-4o" true (messages st)) then 1 else 0)).
      { intros p Hp.
        rewrite Htr, count_events_app, count_events_cons,
          (tool_runs_are_not p runs Hp Hruns). lia. }
      pose proof (Hcount is_loop_call (fun _ _ => eq_refl)) as Hc1.
      pose proof (Hcount is_plain_call (fun _ _ => eq_refl)) as Hc2.
      pose proof (Hcount is_write (fun _ _ => eq_refl)) as Hc3.
      simpl in Hc1, Hc2, Hc3.
      destruct (healer_loop fuel st') as [st''|e st''|]; [| |apply IH; lia].
      * destruct IH as (Hs & Hle & Hmax & H1 & H2 & H3); [lia|].
        rewrite H1, H2, H3, Hc1, Hc2, Hc3. repeat split; try done; lia.
      * destruct IH as (Hle & Hmax & H1 & H2 & H3 & Hraise); [lia|].
        rewrite H1, H2, H3, Hc1, Hc2, Hc3. do 5 (split; [first [done|lia]|]).
        exact Hraise.
Qed.

(** Fuel beyond the rounds that are left changes nothing. *)
Lemma healer_loop_fuel (fuel fuel' : nat) (st : HState Env) :
  max_iterations - iteration st <= fuel ->
  max_iterations - iteration st <= fuel' ->
  healer_loop fuel st = healer_loop fuel' st.
Proof.
  revert fuel' st. induction fuel as [|fuel IH]; intros fuel' st H1 H2.
  - destruct fuel' as [|fuel']; [reflexivity|]. simpl.
    destruct ((iteration st <? max_iterations) && negb (all_tests_passing st)) eqn:Hc;
      [|reflexivity].
    apply andb_true_iff in Hc as [Hlt _]. apply Nat.ltb_lt in Hlt. lia.
  - destruct fuel' as [|fuel']; simpl;
      destruct ((iteration st <? max_iterations) && negb (all_tests_passing st)) eqn:Hc;
      try reflexivity.
    + apply andb_true_iff in Hc as [Hlt _]. apply Nat.ltb_lt in Hlt. lia.
    + apply andb_true_iff in Hc as [Hlt _]. apply Nat.ltb_lt in Hlt.
      pose proof (loop_body_step st) as Hstep.
      destruct (loop_body st) as [[e st']|st']; [reflexivity|].
      destruct Hstep as (Hit & _). apply IH; lia.
Qed.

Lemma not_running (st : HState Env) :
  status_of st <> RUNNING -> status_of st = CONVERGED \/ status_of st = BUDGET_EXHAUSTED.
Proof. destruct (status_of st); [congruence | by left | by right]. Qed.

(** C1. Whatever the model provider and the tools do, the healer loop
    runs at most [max_iterations] = 5 rounds (one tool-bound model call
    each) and stops: five rounds of fuel are never used up, and more fuel
    changes nothing.  A loop that ends on its own ends converged or with
    its budget exhausted; the only other ending is an exception raised by
    the model provider, which also comes within five rounds; with a model
    provider that never raises the loop always ends on its own. *)
Theorem healer_loop_bounded (env0 : Env) :
  max_iterations = 5 /\
  (forall fuel, max_iterations <= fuel ->
     healer_loop fuel (initial_state env0)
     = healer_loop max_iterations (initial_state env0)) /\
  match healer_loop max_iterations (initial_state env0) with
  | Finished st =>
      iteration st <= 5 /\
      count_events is_loop_call (trace st) = iteration st /\
      (status_of st = CONVERGED \/ status_of st = BUDGET_EXHAUSTED)
  | Aborted e st =>
      iteration st <= 5 /\
      count_events is_loop_call (trace st) = iteration st /\
      exists ms env1 env2, llm_invoke "gpt-4o" true ms env1 = (Py.Raise e, env2)
  | OutOfFuel => False
  end /\
  ((forall ms env1, Py.is_ok (llm_invoke "gpt-4o" true ms env1).1 = true) ->
   exists st,
     healer_loop max_iterations (initial_state env0) = Finished st /\
     iteration st <= 5 /\
     (status_of st = CONVERGED \/ status_of st = BUDGET_EXHAUSTED)).
Proof.
  split; [reflexivity|].
  split.
  { intros fuel Hfuel. apply healer_loop_fuel; unfold max_iterations in *; simpl; lia. }
  pose proof (healer_loop_inv max_iterations (initial_state env0)) as Hinv.
  destruct (healer_loop max_iterations (initial_state env0)) as [st|e st|].
  - destruct Hinv as (Hs & _ & Hmax & Hcount & _); [unfold max_iterations; simpl; lia|].
    simpl in Hmax, Hcount. unfold max_iterations in Hmax.
    apply not_running in Hs.
    split; [|intros _; exists st; repeat split; [lia | exact Hs]].
    split; [lia|]. split; [rewrite Hcount; lia|]. exact Hs.
  - destruct Hinv as (_ & Hmax & Hcount & _ & _ & ms & env1 & env2 & Hraise);
      [unfold max_iterations; simpl; lia|].
    simpl in Hcount. unfold max_iterations in Hmax.
    split.
    + split; [lia|]. split; [rewrite Hcount; lia|]. by exists ms, env1, env2.
    + intros Hok. specialize (Hok ms env1). rewrite Hraise in Hok. discriminate Hok.
  - exfalso. apply Hinv. unfold max_iterations. simpl. lia.
Qed.

End HealerFacts.

Section HealerExamples.
Import State Healer.

(** The stubborn environment: five rounds, five failed tool runs, budget
    exhausted. *)
Example stubborn_run :
  exists st,
    healer_loop max_iterations (initial_state Stubborn.World) = Finished st /\
    iteration st = 5 /\
    all_tests_passing st = false /\
    status_of st = BUDGET_EXHAUSTED /\
    count_events is_loop_call (trace st) = 5 /\
    count_events is_tool_run (trace st) = 5 /\
    length (messages st) = 12 /\
    last (messages st)
      = Some (tool_message "Tool execution error: npx: command not found" "call_1").
Proof. eexists. split; [vm_compute; reflexivity|]. repeat split. Qed.

Lemma healer_loop_bounded_witness :
  exists st,
    healer_loop max_iterations (initial_state Stubborn.World) = Finished st /\
    iteration st <= 5 /\
    (status_of st = CONVERGED \/ status_of st = BUDGET_EXHAUSTED).
Proof.
  apply (healer_loop_bounded Stubborn.World). intros ms env1. reflexivity.
Defined.

End HealerExamples.

(** ** Counting failures in a suite result *)

Section FailureCount.
Import Healer.

Lemma result_not_failed_status (rs : list Py.pyval) :
  forallb result_not_failed rs = true ->
  Py.any (fun r => status ← Py.get r "status" Py.PNone;
                   Py.Ok (Py.eq_str status "failed")) rs = Py.Ok false.
Proof.
  induction rs as [|r rs IH]; simpl; [reflexivity|].
  intros Hall. apply andb_true_iff in Hall as [Hr Hrs].
  destruct r as [| | | | | |items]; try discriminate Hr.
  simpl in *. apply negb_true_iff in Hr. rewrite Hr. by apply IH.
Qed.

Lemma spec_not_failed_count (t : Py.pyval) :
  spec_not_failed t = true -> spec_failed t = Py.Ok false.
Proof.
  destruct t as [| | | | | |items]; try discriminate. simpl.
  unfold spec_failed. simpl.
  destruct (default (Py.PList [Py.PDict []]) (Py.dict_lookup "tests" items))
    as [| | | | |tests|]; try discriminate.
  destruct tests as [|test0 more]; [discriminate|].
  destruct test0 as [| | | | | |fields]; try discriminate. simpl.
  destruct (default (Py.PList []) (Py.dict_lookup "results" fields))
    as [| | | | |rs|]; try discriminate.
  simpl. apply result_not_failed_status.
Qed.

Lemma specs_not_failed_count (ts : list Py.pyval) :
  forallb spec_not_failed ts = true -> Py.count_if spec_failed ts = Py.Ok 0.
Proof.
  induction ts as [|t ts IH]; simpl; [reflexivity|].
  intros Hall. apply andb_true_iff in Hall as [Ht Hts].
  rewrite (spec_not_failed_count t Ht). simpl. by rewrite (IH Hts).
Qed.

Lemma suite_not_failed_count (s : Py.pyval) :
  suite_not_failed s = true -> suite_failures s = Py.Ok 0.
Proof.
  destruct s as [| | | | | |items]; try discriminate. simpl.
  unfold suite_failures. simpl.
  destruct (default (Py.PList []) (Py.dict_lookup "specs" items))
    as [| | | | |ts|]; try discriminate.
  simpl. apply specs_not_failed_count.
Qed.

Lemma suites_not_failed_count (ss : list Py.pyval) :
  forallb suite_not_failed ss = true -> Py.sum_of suite_failures ss = Py.Ok 0.
Proof.
  induction ss as [|s ss IH]; simpl; [reflexivity|].
  intros Hall. apply andb_true_iff in Hall as [Hs Hss].
  rewrite (suite_not_failed_count s Hs). simpl. by rewrite (IH Hss).
Qed.

(** A structured suite result without failed specs is a dict the count
    evaluates on, to zero. *)
Lemma zero_failed_total (tool_result : Py.pyval) :
  zero_failed_specs tool_result = true ->
  Py.is_dict tool_result = true /\ total_failures tool_result = Py.Ok 0.
Proof.
  destruct tool_result as [| | | | | |items]; try discriminate. simpl.
  intros Hz. split; [reflexivity|]. unfold total_failures. simpl.
  destruct (default (Py.PList []) (Py.dict_lookup "suites" items))
    as [| | | | |ss|]; try discriminate.
  simpl. by apply suites_not_failed_count.
Qed.

Example total_failures_examples :
  total_failures (Scripted.suite_result "passed") = Py.Ok 0 /\
  total_failures (Scripted.suite_result "failed") = Py.Ok 1 /\
  total_failures (Py.PDict [("error", Py.PStr "Playwright execution failed")]) = Py.Ok 0 /\
  total_failures (Py.PDict [("suites", Py.PList [Py.PDict [("specs",
      Py.PList [Py.PDict [("tests", Py.PList [])]])]])])
    = Py.Raise (Py.Exn Py.IndexError "list index out of range") /\
  zero_failed_specs (Scripted.suite_result "passed") = true /\
  zero_failed_specs (Scripted.suite_result "failed") = false.
Proof. repeat split. Qed.

End FailureCount.

(** ** Convergence *)

Section HealerConvergence.
Import State Healer.
Context {Env : Type} `{!ModelProvider Env, !ToolProvider Env, !Clock Env,
                       !Render, !Prompts}.

(** While no call has ended the loop, the calls are run one after the
    other. *)
Lemma run_tool_calls_app (before rest : list tool_call) (st : HState Env) :
  all_tests_passing (run_tool_calls st before) = false ->
  run_tool_calls st (before ++ rest) = run_tool_calls (run_tool_calls st before) rest.
Proof.
  revert st. induction before as [|call before IH]; intros st; simpl; [reflexivity|].
  destruct (try_call_facts st call) as (_ & _ & Hflag).
  destruct (try_call st call) as [[[|]|e] st']; simpl in *; [|apply IH..].
  rewrite Hflag. discriminate.
Qed.

Lemma healer_loop_stops (fuel : nat) (st : HState Env) :
  all_tests_passing st = true -> healer_loop fuel st = Finished st.
Proof.
  intros Hp. destruct fuel; simpl; by rewrite Hp, andb_false_r.
Qed.

(** A full test run that reports no failed spec ends the tool-call loop
    at once, with the flag set. *)
Lemma run_all_tests_converges (st : HState Env) (call : tool_call)
    (rest : list tool_call) (tool_result : Py.pyval) (env2 : Env) :
  tc_name call = "playwright_run_all_tests" ->
  tool_invoke "playwright_run_all_tests" (tc_args call) (env st)
    = (Py.Ok tool_result, env2) ->
  zero_failed_specs tool_result = true ->
  run_tool_calls st (call :: rest)
  = set_passing
      (append_message (tool_message (result_str tool_result) (tc_id call))
         (after_effect env2 (EvTool "playwright_run_all_tests" (tc_args call)) st)).
Proof.
  intros Hname Hrun Hzero. simpl. unfold try_call. rewrite Hname. simpl. rewrite Hrun.
  destruct (zero_failed_total tool_result Hzero) as [Hdict Htotal].
  by rewrite Hdict, Htotal.
Qed.

(** C2. In a round of the running loop, let the model ask for tool calls
    among which a [playwright_run_all_tests] call is executed (no earlier
    call of the reply has ended the loop) and returns a structured suite
    result without failed specs.  Then the loop ends in that very round:
    the flag is set, the state is CONVERGED, the iteration counter is one
    more than before the round, the result message is the last message,
    and the calls after it are not run. *)
Theorem converges_on_same_iteration (fuel : nat) (st : HState Env)
    (response : message) (env1 env2 : Env) (before rest : list tool_call)
    (call : tool_call) (tool_result : Py.pyval) :
  status_of st = RUNNING ->
  llm_invoke "gpt-4o" true (messages st) (env st) = (Py.Ok response, env1) ->
  tool_calls response = before ++ call :: rest ->
  let st1 := run_tool_calls (after_reply st response env1) before in
  all_tests_passing st1 = false ->
  tc_name call = "playwright_run_all_tests" ->
  tool_invoke "playwright_run_all_tests" (tc_args call) (env st1)
    = (Py.Ok tool_result, env2) ->
  zero_failed_specs tool_result = true ->
  exists st',
    healer_loop (S fuel) st = Finished st' /\
    status_of st' = CONVERGED /\
    all_tests_passing st' = true /\
    iteration st' = S (iteration st) /\
    messages st'
      = messages st1 ++ [tool_message (result_str tool_result) (tc_id call)] /\
    trace st' = trace st1 ++ [EvTool "playwright_run_all_tests" (tc_args call)] /\
    env st' = env2.
Proof.
  intros Hrunning Hllm Hcalls st1 Hnot Hname Hrun Hzero.
  apply loop_condition_status in Hrunning.
  assert (Hbody : loop_body st
                  = inr (set_passing
                           (append_message
                              (tool_message (result_str tool_result) (tc_id call))
                              (after_effect env2
                                 (EvTool "playwright_run_all_tests" (tc_args call)) st1)))).
  { unfold loop_body. cbn -[run_tool_calls]. rewrite Hllm. cbn -[run_tool_calls].
    rewrite Hcalls.
    destruct (before ++ call :: rest) as [|c cs] eqn:Happ.
    { destruct before; discriminate Happ. }
    rewrite <- Happ. f_equal.
    rewrite run_tool_calls_app by exact Hnot.
    by apply run_all_tests_converges. }
  eexists. split.
  - simpl. rewrite Hrunning, Hbody. by apply healer_loop_stops.
  - unfold status_of. simpl. repeat split.
    subst st1. by rewrite run_tool_calls_iteration.
Qed.

End HealerConvergence.

Section HealerConvergenceExamples.
Import State Healer.

Lemma converges_on_same_iteration_witness :
  exists st',
    healer_loop max_iterations (initial_state Scripted.quick_env) = Finished st' /\
    status_of st' = CONVERGED /\
    all_tests_passing st' = true /\
    iteration st' = 1 /\
    count_events is_tool_run (trace st') = 2.
Proof.
  destruct (converges_on_same_iteration 4 (initial_state Scripted.quick_env)
              Scripted.quick_reply
              (llm_invoke "gpt-4o" true
                 (messages (initial_state Scripted.quick_env)) Scripted.quick_env).2
              {| Scripted.model_replies := [Py.Ok (Scripted.ai "# Healing summary" [] "run-2")];
                 Scripted.tool_results := []; Scripted.proc_results := [];
                 Scripted.spec_files := []; Scripted.test_cases := [] |}
              [Scripted.call "playwright_analyze_failure" "call_1"]
              [Scripted.call "browser_wait" "call_3"]
              (Scripted.call "playwright_run_all_tests" "call_2")
              (Scripted.suite_result "passed"))
    as (st' & Hloop & Hstatus & Hflag & Hiter & _ & Htrace & _);
    try reflexivity.
  exists st'. repeat split; try assumption. rewrite Htrace. reflexivity.
Defined.

(** Two failing scripts give two rounds: the first full run still fails,
    the second passes and the loop ends in the second round. *)
Example second_round_converges :
  exists st,
    healer_loop max_iterations (initial_state Scripted.healing_env) = Finished st /\
    iteration st = 2 /\
    status_of st = CONVERGED /\
    count_events is_tool_run (trace st) = 3.
Proof. eexists. split; [vm_compute; reflexivity|]. repeat split. Qed.

End HealerConvergenceExamples.

(** ** The summary report *)

Section HealerReport.
Import State Healer.
Context {Env : Type} `{!ModelProvider Env, !ToolProvider Env, !Clock Env,
                       !Render, !Prompts}.

(** The part after the loop, evaluated. *)
Lemma final_report_run (state : gmap string value) (st : HState Env) :
  final_report state st (env st, trace st) =
    let '(r, env1) := llm_invoke "gpt-4o" false (summary_prompt st) (env st) in
    let tr := trace st ++ [EvMkdir healing_report_dir;
                           EvModel "gpt-4o" false (summary_prompt st)] in
    match r with
    | Py.Raise e => (Py.Raise e, (env1, tr))
    | Py.Ok summary_response =>
        match content summary_response with
        | Parts _ =>
            (Py.Raise (Py.Exn Py.TypeError "data must be str, not list"), (env1, tr))
        | Text text =>
            let report_path := report_path_at (timestamp (env st)) in
            (healed_state state st report_path,
             (env1, tr ++ [EvWrite report_path text]))
        end
    end.
Proof.
  unfold final_report, mbind, stage_bind, mkdir, write_file, log, ask,
    invoke_model, lift, mret, stage_ret. simpl.
  destruct (llm_invoke "gpt-4o" false (summary_prompt st) (env st))
    as [[summary_response|e] env1]; simpl.
  - rewrite <- !app_assoc. simpl.
    destruct (content summary_response) as [text|items]; simpl; [|reflexivity].
    rewrite <- !app_assoc. reflexivity.
  - rewrite <- !app_assoc. reflexivity.
Qed.

(** The node, evaluated, when its loop ends on its own and the summary
    call returns text. *)
Lemma healer_node_finished (state : gmap string value) (env0 : Env)
    (st : HState Env) (summary_response : message) (env1 : Env) (text : string) :
  healer_loop max_iterations (initial_state env0) = Finished st ->
  llm_invoke "gpt-4o" false (summary_prompt st) (env st)
    = (Py.Ok summary_response, env1) ->
  content summary_response = Text text ->
  advanced_test_healer_node state env0
  = Some (healed_state state st (report_path_at (timestamp (env st))),
          (env1, trace st ++ [EvMkdir healing_report_dir;
                              EvModel "gpt-4o" false (summary_prompt st);
                              EvWrite (report_path_at (timestamp (env st))) text])).
Proof.
  intros Hloop Hllm Htext.
  unfold advanced_test_healer_node. rewrite Hloop, final_report_run, Hllm, Htext.
  simpl. rewrite <- app_assoc. reflexivity.
Qed.

(** C3. When the loop of the healer ends on its own, in whichever
    terminal state, the node makes exactly one further model call, the
    plain summary call on the iteration count, the flag and the last ten
    messages; and once that call returns its text, the node has written
    exactly one file, the summary report under output/healing_summary,
    holding that text.  Nothing in this depends on the flag. *)
Theorem summary_report_unconditional (state : gmap string value) (env0 : Env)
    (st : HState Env) (summary_response : message) (env1 : Env) (text : string) :
  healer_loop max_iterations (initial_state env0) = Finished st ->
  llm_invoke "gpt-4o" false (summary_prompt st) (env st)
    = (Py.Ok summary_response, env1) ->
  content summary_response = Text text ->
  (status_of st = CONVERGED \/ status_of st = BUDGET_EXHAUSTED) /\
  exists tr,
    advanced_test_healer_node state env0
      = Some (healed_state state st (report_path_at (timestamp (env st))), (env1, tr)) /\
    tr = trace st ++ [EvMkdir healing_report_dir;
                      EvModel "gpt-4o" false (summary_prompt st);
                      EvWrite (report_path_at (timestamp (env st))) text] /\
    count_events is_plain_call tr = 1 /\
    count_events is_loop_call tr = iteration st /\
    count_events is_write tr = 1 /\
    count_events (is_write_under healing_report_dir) tr = 1.
Proof.
  intros Hloop Hllm Htext.
  pose proof (healer_loop_inv max_iterations (initial_state env0)) as Hinv.
  rewrite Hloop in Hinv.
  destruct Hinv as (Hs & _ & _ & Hloops & Hplain & Hwrites);
    [unfold max_iterations; simpl; lia|].
  simpl in Hloops, Hplain, Hwrites.
  rewrite count_events_nil in Hplain, Hwrites. rewrite Nat.sub_0_r in Hloops.
  split; [by apply not_running|].
  eexists. split.
  { by apply (healer_node_finished state env0 st summary_response env1 text). }
  split; [reflexivity|].
  rewrite !count_events_app, !count_events_cons, !count_events_nil.
  rewrite Hloops, Hplain, Hwrites.
  assert (Hunder : count_events (is_write_under healing_report_dir) (trace st) = 0).
  { assert (Hle : forall tr, count_events (is_write_under healing_report_dir) tr
                             <= count_events is_write tr).
    { induction tr as [|e tr IH]; [reflexivity|].
      rewrite !count_events_cons.
      destruct e as [| | |p c]; cbn [is_write is_write_under]; try lia.
      destruct (Py.startswith healing_report_dir p); lia. }
    specialize (Hle (trace st)). lia. }
  assert (Hstart : forall stamp,
             Py.startswith healing_report_dir (report_path_at stamp) = true).
  { intros stamp. apply startswith_app. }
  cbn [is_plain_call is_loop_call is_write is_write_under].
  rewrite Hunder, Hstart. repeat split; lia.
Qed.

(** The state returned after the report: the keys the node sets. *)
Lemma healed_state_keys (state : gmap string value) (st : HState Env)
    (report_path : string) (history : list message) :
  state !! "messages" = Some (VMessages history) ->
  exists state',
    healed_state state st report_path = Py.Ok state' /\
    state' !! "messages" = Some (VMessages (history ++ messages st)) /\
    state' !! "healing_complete" = Some (VBool (all_tests_passing st)) /\
    state' !! "healing_iterations" = Some (VInt (Z.of_nat (iteration st))) /\
    state' !! "healing_report_path" = Some (VStr report_path).
Proof.
  intros Hm. unfold healed_state, messages_of. rewrite Hm. simpl.
  eexists. split; [reflexivity|].
  repeat split.
  - do 3 (rewrite lookup_insert_ne by discriminate). apply lookup_insert_eq.
  - do 2 (rewrite lookup_insert_ne by discriminate). apply lookup_insert_eq.
  - rewrite lookup_insert_ne by discriminate. apply lookup_insert_eq.
  - apply lookup_insert_eq.
Qed.

(** When the summary call raises, the node raises with it and no report
    is written. *)
Lemma summary_call_failure (state : gmap string value) (env0 : Env)
    (st : HState Env) (e : Py.exn) (env1 : Env) :
  healer_loop max_iterations (initial_state env0) = Finished st ->
  llm_invoke "gpt-4o" false (summary_prompt st) (env st) = (Py.Raise e, env1) ->
  exists tr,
    advanced_test_healer_node state env0 = Some (Py.Raise e, (env1, tr)) /\
    count_events is_write tr = 0.
Proof.
  intros Hloop Hllm.
  pose proof (healer_loop_inv max_iterations (initial_state env0)) as Hinv.
  rewrite Hloop in Hinv.
  destruct Hinv as (_ & _ & _ & _ & _ & Hwrites);
    [unfold max_iterations; simpl; lia|].
  eexists. split.
  { unfold advanced_test_healer_node. by rewrite Hloop, final_report_run, Hllm. }
  simpl in Hwrites. rewrite count_events_nil in Hwrites.
  rewrite !count_events_app, !count_events_cons, !count_events_nil, Hwrites.
  reflexivity.
Qed.

End HealerReport.

Section HealerReportExamples.
Import State Healer.

(** Budget exhausted, and the summary is still written: once. *)
Lemma summary_report_unconditional_witness :
  let st := final_state (healer_loop max_iterations (initial_state Stubborn.World))
                        (initial_state Stubborn.World) in
  status_of st = BUDGET_EXHAUSTED /\
  exists r tr,
    advanced_test_healer_node ∅ Stubborn.World = Some (r, (Stubborn.World, tr)) /\
    count_events is_plain_call tr = 1 /\
    count_events is_loop_call tr = 5 /\
    count_events is_write tr = 1 /\
    count_events (is_write_under healing_report_dir) tr = 1.
Proof.
  intros st.
  assert (Hloop : healer_loop max_iterations (initial_state Stubborn.World)
                  = Finished st) by (vm_compute; reflexivity).
  assert (Hiter : iteration st = 5) by (vm_compute; reflexivity).
  split; [vm_compute; reflexivity|].
  destruct (summary_report_unconditional ∅ Stubborn.World st Stubborn.reply
              Stubborn.World "" Hloop eq_refl eq_refl)
    as (_ & tr & Hnode & _ & Hplain & Hloops & Hwrites & Hunder).
  exists (healed_state ∅ st (report_path_at (timestamp (env st)))), tr.
  rewrite Hiter in Hloops. repeat split; assumption.
Defined.

(** Converged in the second round: the summary is written, once, and the
    returned state records the outcome. *)
Example healed_run :
  let state : gmap string value := {[ "messages" := VMessages [] ]} in
  let path := "output/healing_summary/advanced_healing_summary_20240101_120000.md" in
  exists st tr,
    healer_loop max_iterations (initial_state Scripted.healing_env) = Finished st /\
    iteration st = 2 /\
    status_of st = CONVERGED /\
    advanced_test_healer_node state Scripted.healing_env
      = Some (healed_state state st path, (Scripted.idle, tr)) /\
    tr = trace st ++ [EvMkdir healing_report_dir;
                      EvModel "gpt-4o" false (summary_prompt st);
                      EvWrite path "# Healing summary"] /\
    exists state',
      healed_state state st path = Py.Ok state' /\
      state' !! "healing_complete" = Some (VBool true) /\
      state' !! "healing_iterations" = Some (VInt 2) /\
      state' !! "healing_report_path" = Some (VStr path).
Proof.
  intros state path.
  set (st := final_state (healer_loop max_iterations (initial_state Scripted.healing_env))
                         (initial_state Scripted.healing_env)).
  assert (Hloop : healer_loop max_iterations (initial_state Scripted.healing_env)
                  = Finished st) by (vm_compute; reflexivity).
  assert (Hiter : iteration st = 2) by (vm_compute; reflexivity).
  assert (Hflag : all_tests_passing st = true) by (vm_compute; reflexivity).
  assert (Hllm : llm_invoke "gpt-4o" false (summary_prompt st) (env st)
                 = (Py.Ok (Scripted.ai "# Healing summary" [] "run-3"), Scripted.idle))
    by (vm_compute; reflexivity).
  clearbody st.
  pose proof (healer_node_finished state Scripted.healing_env st _ _ _
                Hloop Hllm eq_refl) as Hnode.
  eexists st, _.
  split; [exact Hloop|]. split; [exact Hiter|].
  split; [unfold status_of; by rewrite Hflag|].
  split; [exact Hnode|]. split; [reflexivity|].
  destruct (healed_state_keys state st path [] (lookup_singleton_eq _ _))
    as (state' & Hret & _ & Hc & Hi & Hp).
  exists state'. rewrite Hflag in Hc. rewrite Hiter in Hi. by repeat split.
Qed.

End HealerReportExamples.

(** ** Failures of tools and of the model provider *)

Section HealerFailures.
Import State Healer.
Context {Env : Type} `{!ModelProvider Env, !ToolProvider Env, !Clock Env,
                       !Render, !Prompts}.

Lemma find_tool_known (name : string) :
  In name healing_tools -> find_tool name = Py.Ok name.
Proof.
  intros Hin. unfold find_tool.
  replace (existsb (String.eqb name) healing_tools) with true; [reflexivity|].
  symmetry. apply existsb_exists. exists name. split; [exact Hin|].
  apply String.eqb_refl.
Qed.

Lemma find_tool_unknown (name : string) :
  ~ In name healing_tools -> find_tool name = Py.Raise (Py.Exn Py.StopIteration "").
Proof.
  intros Hnot. unfold find_tool.
  destruct (existsb (String.eqb name) healing_tools) eqn:Hex; [|reflexivity].
  apply existsb_exists in Hex as (x & Hin & Heq).
  apply String.eqb_eq in Heq. subst x. contradiction.
Qed.

End HealerFailures.

Section HealerFailureExamples.
Import State Healer.

(** The model fails on its fourth call: the loop ends there, with three
    continuation prompts sent, and the node raises. *)
Example model_failure_run :
  exists st,
    healer_loop max_iterations (initial_state Scripted.failing_model_env)
      = Aborted (Py.Exn Py.ExternalError "rate limit exceeded") st /\
    iteration st = 4 /\
    length (messages st) = 8 /\
    count_events is_loop_call (trace st) = 4 /\
    advanced_test_healer_node ∅ Scripted.failing_model_env
      = Some (Py.Raise (Py.Exn Py.ExternalError "rate limit exceeded"),
              (env st, trace st)).
Proof.
  eexists. split; [vm_compute; reflexivity|].
  do 3 (split; [vm_compute; reflexivity|]).
  unfold advanced_test_healer_node.
  match goal with |- context [healer_loop ?f ?s] =>
    let o := eval vm_compute in (healer_loop f s) in
    change (healer_loop f s) with o end.
  reflexivity.
Qed.

End HealerFailureExamples.

(** ** TestScriptGenerator *)

Section GeneratorFacts.
Import State ScriptGenerator.
Context {Env : Type} `{!ModelProvider Env, !GeneratorInputs Env, !Prompts}.



Lemma fallback_scripts_total (cases : list TestCase) (text : string) (acc : list string) :
  (forall case, In case cases ->
     Py.is_ok (search_case (default "" (case_id case)) text) = true) ->
  exists test_scripts, fallback_scripts cases text acc = Py.Ok test_scripts.
Proof.
  revert acc. induction cases as [|case rest IH]; intros acc Hok; simpl; [eauto|].
  pose proof (Hok case (or_introl eq_refl)) as Hcase.
  destruct (search_case _ text) as [[group0|]|e]; simpl; [| |discriminate].
  - apply IH. intros c Hc. apply Hok. by right.
  - apply IH. intros c Hc. apply Hok. by right.
Qed.



Lemma script_for_placeholder (idx : nat) (case : TestCase) (test_scripts : list string) :
  length test_scripts <= idx ->
  script_for idx case test_scripts
  = header +:+ "// TODO: Generate test for " +:+ effective_id idx case.
Proof.
  intros Hle. unfold script_for. by rewrite (lookup_ge_None_2 _ _ Hle).
Qed.




(** Writes to other paths leave a path as it is. *)
Lemma replay_other (writes : list event) (fs : gmap string string) (path : string) :
  Forall (fun e => forall text, e <> EvWrite path text) writes ->
  replay writes fs !! path = fs !! path.
Proof.
  revert fs. induction writes as [|e rest IH]; intros fs Hall; [reflexivity|].
  apply Forall_cons in Hall as [He Hrest].
  destruct e as [| | |p c]; simpl; try by apply IH.
  rewrite (IH _ Hrest). unfold write_text. apply lookup_insert_ne.
  intros ->. by apply (He c).
Qed.

End GeneratorFacts.

Section GeneratorNode.
Import State ScriptGenerator.
Context {Env : Type} `{!ModelProvider Env, !GeneratorInputs Env, !Prompts}.



End GeneratorNode.

Section GeneratorExamples.
Import State ScriptGenerator.

Example split_tests_examples :
  split_tests "import x; test('a', f); test('b', g);"
    = ["import x; "; "test('a', f); "; "test('b', g);"] /\
  split_tests "test('a', f);" = [""; "test('a', f);"] /\
  split_tests "no declarations here" = ["no declarations here"] /\
  split_tests "" = [""] /\
  extract_scripts (split_tests "import x; test('a', f);  ")
    = [header +:+ "test('a', f);"].
Proof. repeat split. Qed.




End GeneratorExamples.

(** ** Merging a stage's return value into the state *)

Section StateMerge.
Import State.

Lemma replace_by_id_none (m : message) (left : list message) :
  Forall (fun x => same_id x m = false) left -> replace_by_id m left = None.
Proof.
  induction 1 as [|x left Hx _ IH]; simpl; [reflexivity|].
  by rewrite IH, Hx.
Qed.

Lemma replace_by_id_length (m : message) (left l : list message) :
  replace_by_id m left = Some l -> length l = length left.
Proof.
  revert l. induction left as [|x left IH]; intros l; simpl; [discriminate|].
  destruct (replace_by_id m left) as [rest|].
  - intros [= <-]. simpl. by rewrite (IH rest eq_refl).
  - destruct (same_id x m); [|discriminate]. by intros [= <-].
Qed.

(** The last entry with the id of the message is the one replaced. *)
Lemma replace_by_id_last (m : message) (before : list message) (x : message)
    (after : list message) :
  same_id x m = true ->
  Forall (fun y => same_id y m = false) after ->
  replace_by_id m (before ++ x :: after) = Some (before ++ m :: after).
Proof.
  intros Hx Hafter. induction before as [|b before IH]; simpl.
  - by rewrite (replace_by_id_none m after Hafter), Hx.
  - by rewrite IH.
Qed.

(** A message whose id is new to the history is appended to it. *)
Lemma add_messages_append (left : list message) (m : message) :
  Forall (fun x => same_id x m = false) left ->
  add_messages left [m] = left ++ [m].
Proof.
  intros Hnew. unfold add_messages. simpl.
  by rewrite (replace_by_id_none m left Hnew).
Qed.

(** The update's messages go through the reducer; every other key of the
    update overrides, and the keys it lacks stay. *)
Lemma apply_update_messages (state update : gmap string value)
    (old new : list message) :
  state !! "messages" = Some (VMessages old) ->
  update !! "messages" = Some (VMessages new) ->
  apply_update state update !! "messages" = Some (VMessages (add_messages old new)).
Proof.
  intros Hold Hnew. unfold apply_update. rewrite Hnew, Hold. apply lookup_insert_eq.
Qed.

Lemma apply_update_other (state update : gmap string value) (key : string) :
  key <> "messages" ->
  apply_update state update !! key
  = match update !! key with Some v => Some v | None => state !! key end.
Proof.
  intros Hkey. unfold apply_update, override.
  assert (Hunion : (update ∪ state) !! key
                   = match update !! key with Some v => Some v | None => state !! key end).
  { rewrite lookup_union. destruct (update !! key), (state !! key); reflexivity. }
  destruct (update !! "messages") as [[]|]; try exact Hunion.
  rewrite lookup_insert_ne by congruence. exact Hunion.
Qed.

End StateMerge.

Section PlannerMerge.
Import State TestPlanner.
Context {Env : Type} `{!ModelProvider Env, !PlannerInputs Env, !Prompts}.

(** C6, as the code has it.  The planner returns the incoming state
    with messages set to its reply alone; but the state declares the
    add_messages reducer for that key, so merging the return value into
    the state does not replace the accumulated history: the reply (it
    carries an id, as the messages of the history do) is appended to the
    history when its id is new, and takes the place of the last entry
    with its id otherwise, so the merged list is as long as the history
    or one longer.  For every other key, in any update, a returned value
    overrides the old one and a key that is not returned keeps its
    value; the planner returns the other keys as they were. *)
Theorem planner_reply_is_appended (state : gmap string value) (env env1 : Env)
    (response : message) (text id : string) (old : list message) :
  llm_invoke "gpt-4o-mini" false (planner_messages state (snapshot_data_text env)) env
    = (Py.Ok response, env1) ->
  content response = Text text ->
  msg_id response = Some id ->
  state !! "messages" = Some (VMessages old) ->
  Forall (fun m => is_Some (msg_id m)) old ->
  exists update merged,
    run_stage (test_planner_node state) env
      = (Py.Ok update,
         (env1, [EvModel "gpt-4o-mini" false
                   (planner_messages state (snapshot_data_text env));
                 EvWrite "output/test_plan.md" text])) /\
    update !! "messages" = Some (VMessages [response]) /\
    (forall key, key <> "messages" -> update !! key = state !! key) /\
    apply_update state update !! "messages" = Some (VMessages merged) /\
    length old <= length merged <= S (length old) /\
    (Forall (fun m => msg_id m <> Some id) old -> merged = old ++ [response]) /\
    (forall before x after,
       old = before ++ x :: after ->
       msg_id x = Some id ->
       Forall (fun m => msg_id m <> Some id) after ->
       merged = before ++ response :: after) /\
    (forall key, key <> "messages" -> apply_update state update !! key = state !! key) /\
    (forall other key,
       key <> "messages" ->
       apply_update state other !! key
       = match other !! key with Some v => Some v | None => state !! key end).
Proof.
  intros Hllm Htext Hid Hold Hids.
  exists (<["messages" := VMessages [response]]> state), (add_messages old [response]).
  assert (Hupd : (<["messages" := VMessages [response]]> state : gmap string value)
                 !! "messages" = Some (VMessages [response])) by apply lookup_insert_eq.
  assert (Hsame : forall m, same_id m response = false <-> msg_id m <> Some id).
  { intros m. unfold same_id. rewrite Hid. destruct (msg_id m) as [a|]; [|by split].
    rewrite String.eqb_neq. split; congruence. }
  assert (Hlen : length old <= length (add_messages old [response]) <= S (length old)).
  { unfold add_messages. cbn [merge_messages].
    destruct (replace_by_id response old) as [l|] eqn:Hr.
    - rewrite (replace_by_id_length _ _ _ Hr). lia.
    - rewrite length_app. simpl. lia. }
  split; [|split; [|split; [|split; [|split; [exact Hlen|split_and!]]]]].
  - unfold run_stage, test_planner_node, mbind, stage_bind, ask, invoke_model, lift,
      write_file, log, mret, stage_ret. simpl. rewrite Hllm. simpl. by rewrite Htext.
  - exact Hupd.
  - intros key Hkey. apply lookup_insert_ne. congruence.
  - by apply apply_update_messages.
  - intros Hnew. apply add_messages_append.
    eapply Forall_impl; [exact Hnew|]. intros m Hm. by apply Hsame.
  - intros before x after -> Hx Hafter. unfold add_messages. cbn [merge_messages].
    rewrite (replace_by_id_last response before x after); [reflexivity| |].
    + unfold same_id. rewrite Hx, Hid. apply String.eqb_refl.
    + eapply Forall_impl; [exact Hafter|]. intros m Hm. by apply Hsame.
  - intros key Hkey. rewrite apply_update_other by exact Hkey.
    rewrite lookup_insert_ne by congruence. by destruct (state !! key).
  - intros other key Hkey. by apply apply_update_other.
Qed.

End PlannerMerge.

Section PlannerMergeExamples.
Import State TestPlanner.

(** C6 fails on the planner: the state holds the user's request, the
    planner returns its reply alone, and the merged state holds both, the
    request first. *)
Lemma merged_history_is_not_replaced :
  let state : gmap string value := {[ "messages" := VMessages [Scripted.user_request] ]} in
  exists update,
    (run_stage (test_planner_node state) Scripted.planner_env).1 = Py.Ok update /\
    update !! "messages" = Some (VMessages [Scripted.plan_reply]) /\
    apply_update state update !! "messages"
      = Some (VMessages [Scripted.user_request; Scripted.plan_reply]) /\
    apply_update state update !! "messages" <> update !! "messages".
Proof.
  intros state.
  exists (<["messages" := VMessages [Scripted.plan_reply]]> state).
  assert (Hupd : (<["messages" := VMessages [Scripted.plan_reply]]> state
                    : gmap string value) !! "messages"
                 = Some (VMessages [Scripted.plan_reply])) by apply lookup_insert_eq.
  assert (Hmerged : apply_update state (<["messages" := VMessages [Scripted.plan_reply]]> state)
                      !! "messages"
                    = Some (VMessages [Scripted.user_request; Scripted.plan_reply])).
  { assert (Hold : state !! "messages" = Some (VMessages [Scripted.user_request]))
      by apply lookup_singleton_eq.
    rewrite (apply_update_messages state _ _ _ Hold Hupd).
    reflexivity. }
  split; [reflexivity|]. split; [exact Hupd|]. split; [exact Hmerged|].
  rewrite Hmerged, Hupd. intros Heq. discriminate Heq.
Qed.

Lemma planner_reply_is_appended_witness :
  let state : gmap string value := {[ "messages" := VMessages [Scripted.user_request] ]} in
  exists update merged,
    update !! "messages" = Some (VMessages [Scripted.plan_reply]) /\
    apply_update state update !! "messages" = Some (VMessages merged) /\
    merged = [Scripted.user_request] ++ [Scripted.plan_reply].
Proof.
  intros state.
  destruct (planner_reply_is_appended state Scripted.planner_env Scripted.idle
              Scripted.plan_reply "# Test plan" "run-1" [Scripted.user_request])
    as (update & merged & _ & Hupd & _ & Hmerged & _ & Hnew & _).
  - reflexivity.
  - reflexivity.
  - reflexivity.
  - apply lookup_singleton_eq.
  - repeat constructor. by eexists.
  - exists update, merged. split_and!; [exact Hupd | exact Hmerged |].
    apply Hnew. repeat constructor. discriminate.
Defined.

End PlannerMergeExamples.

(** * Further facts *)

(** ** Snapshots: the captured actions *)

Section SnapshotActions.
Import PlaywrightTools.

Lemma in_roles_In (r : string) : in_roles r = true <-> In r INTERACTIVE_ROLES.
Proof.
  unfold in_roles. rewrite existsb_exists. split.
  - intros (x & Hin & Heq). apply String.eqb_eq in Heq. by subst x.
  - intros Hin. exists r. split; [exact Hin | apply String.eqb_refl].
Qed.

Lemma truthy_str_nonempty (s : string) : Py.truthy_str s = true <-> s <> "".
Proof. destruct s; simpl; split; intros Hs; congruence. Qed.

Lemma collect_actions_refs (k : nat) (nodes : list AXNode) :
  map ref (collect_actions k nodes)
  = map (fun i => "e" +:+ pretty i) (seq k (length (collect_actions k nodes))).
Proof.
  revert k. induction nodes as [|node rest IH]; intros k; simpl; [reflexivity|].
  destruct (ax_role node) as [r|]; [|apply IH].
  destruct (ax_name node) as [n|]; [|apply IH].
  destruct (_ || _); [apply IH|].
  destruct (_ || _); [apply IH|].
  simpl. f_equal. apply IH.
Qed.

Lemma ref_of_index_inj (i j : nat) : "e" +:+ pretty i = "e" +:+ pretty j -> i = j.
Proof. intros Heq. apply String.app_inj in Heq. by apply pretty_nat_inj in Heq. Qed.

(** X1. The refs of the actions of a snapshot are e1, e2, ... in the order
    of capture, without gaps, and so pairwise distinct within the
    snapshot; every snapshot starts again at e1. *)
Theorem snapshot_refs_sequential (nodes : list AXNode) :
  let actions := collect_actions 1 nodes in
  map ref actions = map (fun i => "e" +:+ pretty i) (seq 1 (length actions)) /\
  NoDup (map ref actions) /\
  (forall k a, actions !! k = Some a -> ref a = "e" +:+ pretty (S k)).
Proof.
  intros actions. pose proof (collect_actions_refs 1 nodes) as Hrefs.
  fold actions in Hrefs. split; [exact Hrefs|]. split.
  - rewrite Hrefs. apply NoDup_fmap_2; [|apply NoDup_seq].
    intros i j. apply ref_of_index_inj.
  - intros k a Hk.
    assert (Hr : map ref actions !! k = Some (ref a)).
    { change (map ref actions) with (ref <$> actions).
      by rewrite list_lookup_fmap, Hk. }
    rewrite Hrefs in Hr.
    change (map (fun i => "e" +:+ pretty i) (seq 1 (length actions)))
      with ((fun i => "e" +:+ pretty i) <$> seq 1 (length actions)) in Hr.
    rewrite list_lookup_fmap in Hr.
    destruct (seq 1 (length actions) !! k) as [i|] eqn:Hi; [|discriminate Hr].
    apply lookup_seq in Hi as [-> _]. cbn [fmap option_fmap option_map] in Hr.
    symmetry. by injection Hr.
Qed.

Lemma collect_actions_sound (k : nat) (nodes : list AXNode) :
  Forall (fun a =>
            In (role a) INTERACTIVE_ROLES /\
            Py.strip (label a) <> "" /\
            locator a = make_locator (role a) (label a) /\
            fallback_locators a = [] /\
            In {| ax_role := Some (role a); ax_name := Some (label a) |} nodes)
         (collect_actions k nodes).
Proof.
  revert k. induction nodes as [|node rest IH]; intros k; simpl; [constructor|].
  assert (Hrest : forall k',
            Forall (fun a =>
                      In (role a) INTERACTIVE_ROLES /\
                      Py.strip (label a) <> "" /\
                      locator a = make_locator (role a) (label a) /\
                      fallback_locators a = [] /\
                      (node = {| ax_role := Some (role a); ax_name := Some (label a) |}
                       \/ In {| ax_role := Some (role a); ax_name := Some (label a) |} rest))
                   (collect_actions k' rest)).
  { intros k'. eapply Forall_impl; [apply IH|]. simpl. intuition. }
  destruct node as [[r|] [n|]]; simpl; try apply Hrest.
  destruct (negb (Py.truthy_str r) || negb (in_roles r)) eqn:Hr; [apply Hrest|].
  destruct (negb (Py.truthy_str n) || negb (Py.truthy_str (Py.strip n))) eqn:Hn;
    [apply Hrest|].
  apply orb_false_iff in Hr as [_ Hr]. apply negb_false_iff in Hr.
  apply orb_false_iff in Hn as [_ Hn]. apply negb_false_iff in Hn.
  constructor; [|apply Hrest]. simpl.
  split; [by apply in_roles_In|].
  split; [by apply truthy_str_nonempty|].
  repeat split. by left.
Qed.

Lemma collect_actions_complete (k : nat) (nodes : list AXNode) (r n : string) :
  In {| ax_role := Some r; ax_name := Some n |} nodes ->
  In r INTERACTIVE_ROLES ->
  Py.strip n <> "" ->
  exists a, In a (collect_actions k nodes) /\ role a = r /\ label a = n.
Proof.
  intros Hin Hr Hn. revert k.
  induction nodes as [|node rest IH]; intros k; [destruct Hin|].
  assert (Hskip : forall k', In {| ax_role := Some r; ax_name := Some n |} rest ->
            exists a, In a (collect_actions k' rest) /\ role a = r /\ label a = n).
  { intros k' Hin'. by apply IH. }
  destruct Hin as [->|Hin].
  - simpl.
    assert (Hr1 : negb (Py.truthy_str r) || negb (in_roles r) = false).
    { apply orb_false_iff. split; apply negb_false_iff.
      - apply truthy_str_nonempty. intros ->. simpl in Hr. intuition discriminate.
      - by apply in_roles_In. }
    assert (Hn1 : negb (Py.truthy_str n) || negb (Py.truthy_str (Py.strip n)) = false).
    { apply orb_false_iff. split; apply negb_false_iff; apply truthy_str_nonempty.
      - intros ->. by apply Hn.
      - exact Hn. }
    rewrite Hr1, Hn1. eexists. split; [by left|]. by split.
  - simpl. destruct (Hskip k Hin) as (a0 & Ha0 & Hrole0 & Hlabel0).
    destruct (ax_role node) as [r'|]; [|eauto].
    destruct (ax_name node) as [n'|]; [|eauto].
    destruct (_ || _); [eauto|].
    destruct (_ || _); [eauto|].
    destruct (Hskip (S k) Hin) as (a & Ha & Hrole & Hlabel).
    exists a. split; [by right|]. by split.
Qed.

Lemma collect_actions_length (k : nat) (nodes : list AXNode) :
  length (collect_actions k nodes) <= length nodes.
Proof.
  revert k. induction nodes as [|node rest IH]; intros k; simpl; [lia|].
  destruct (ax_role node) as [r|]; [|specialize (IH k); lia].
  destruct (ax_name node) as [n|]; [|specialize (IH k); lia].
  destruct (_ || _); [specialize (IH k); lia|].
  destruct (_ || _); [specialize (IH k); lia|].
  simpl. specialize (IH (S k)). lia.
Qed.

(** X2. A snapshot captures exactly the nodes with an interactive role
    and a name that is not blank, that is, not empty once the characters
    [str.strip] removes are gone: each action comes from such a node of the
    tree, with the locator built from role and name and no fallback
    locators; each such node has its action; and the summary returned to
    the caller counts the actions of the persisted record. *)
Theorem snapshot_captures_interactive_nodes (pv : PageView) (name : string)
    (store : gmap string Snapshot) :
  exists snap,
    (browser_snapshot pv name store).2
      !! sum_file (browser_snapshot pv name store).1 = Some snap /\
    sum_actions_captured (browser_snapshot pv name store).1 = length (actions snap) /\
    length (actions snap) <= length (pv_nodes pv) /\
    (forall a, In a (actions snap) ->
       In (role a) INTERACTIVE_ROLES /\
       Py.strip (label a) <> "" /\
       locator a = make_locator (role a) (label a) /\
       fallback_locators a = [] /\
       In {| ax_role := Some (role a); ax_name := Some (label a) |} (pv_nodes pv)) /\
    (forall r n,
       In {| ax_role := Some r; ax_name := Some n |} (pv_nodes pv) ->
       In r INTERACTIVE_ROLES ->
       Py.strip n <> "" ->
       exists a, In a (actions snap) /\ role a = r /\ label a = n).
Proof.
  eexists. split; [apply lookup_insert_eq|]. simpl.
  split; [reflexivity|]. split; [apply collect_actions_length|]. split.
  - intros a Ha. pose proof (collect_actions_sound 1 (pv_nodes pv)) as Hall.
    rewrite Forall_forall in Hall. apply Hall. by apply list_elem_of_In.
  - intros r n. apply collect_actions_complete.
Qed.

End SnapshotActions.

(** ** Snapshots: the file written *)

Section SnapshotFiles.
Import PlaywrightTools.

Lemma contains_char_cons (c x : ascii) (s : string) :
  Py.contains (String c EmptyString) (String x s)
  = Ascii.eqb c x || Py.contains (String c EmptyString) s.
Proof. simpl. by destruct (Ascii.eqb c x). Qed.

Lemma contains_char_app (c : ascii) (a b : string) :
  Py.contains (String c EmptyString) (a +:+ b)
  = Py.contains (String c EmptyString) a || Py.contains (String c EmptyString) b.
Proof.
  induction a as [|x a IH].
  - rewrite append_nil. by destruct b.
  - rewrite append_cons, !contains_char_cons, IH. by rewrite orb_assoc.
Qed.

Lemma replace_char_removes (a b : ascii) (s : string) :
  a <> b -> Py.contains (String a EmptyString) (Py.replace_char a b s) = false.
Proof.
  intros Hab. induction s as [|x s IH]; [reflexivity|].
  simpl Py.replace_char. rewrite contains_char_cons, IH, orb_false_r.
  destruct (Ascii.eqb x a) eqn:Hx.
  - apply Ascii.eqb_neq. exact Hab.
  - rewrite Ascii.eqb_sym. exact Hx.
Qed.

Lemma replace_char_keeps_out (c a b : ascii) (s : string) :
  c <> b ->
  Py.contains (String c EmptyString) s = false ->
  Py.contains (String c EmptyString) (Py.replace_char a b s) = false.
Proof.
  intros Hcb. induction s as [|x s IH]; [reflexivity|].
  simpl Py.replace_char. rewrite !contains_char_cons. intros Hs.
  apply orb_false_iff in Hs as [Hx Hs]. rewrite (IH Hs), orb_false_r.
  destruct (Ascii.eqb x a); [by apply Ascii.eqb_neq | exact Hx].
Qed.

Lemma replace_char_length (a b : ascii) (s : string) :
  String.length (Py.replace_char a b s) = String.length s.
Proof. induction s as [|x s IH]; simpl; [reflexivity | by rewrite IH]. Qed.

Lemma safe_name_clean (name : string) :
  Py.contains "/" (safe_name name) = false /\
  Py.contains " " (safe_name name) = false /\
  String.length (safe_name name) = String.length name.
Proof.
  unfold safe_name. split; [|split].
  - by apply (replace_char_removes "/" "_").
  - apply (replace_char_keeps_out " " "/" "_"); [discriminate|].
    by apply (replace_char_removes " " "_").
  - by rewrite !replace_char_length.
Qed.

(** X3. Whatever the page name (spaces, slashes), the file the snapshot
    tools name for the record, and report to their caller, lies directly
    in output/snapshots: the sanitized name has the length of the name and
    holds neither space nor slash, so with a timestamp free of slashes the
    file name, sanitized name, underscore, timestamp and .json (after
    FAIL_ for a failure snapshot), has no slash. *)
Theorem snapshot_file_in_directory (pv : PageView) (name : string)
    (store : gmap string Snapshot) :
  Py.contains "/" (pv_timestamp pv) = false ->
  let clean := Py.replace_char "/" "_" (Py.replace_char " " "_" name) in
  (exists file,
     sum_file (browser_snapshot pv name store).1 = "output/snapshots/" +:+ file /\
     file = clean +:+ "_" +:+ pv_timestamp pv +:+ ".json" /\
     Py.contains "/" file = false) /\
  (exists file,
     sum_file (browser_failure_snapshot pv name store).1
       = "output/snapshots/" +:+ file /\
     file = "FAIL_" +:+ clean +:+ "_" +:+ pv_timestamp pv +:+ ".json" /\
     Py.contains "/" file = false) /\
  Py.contains " " clean = false /\
  Py.contains "/" clean = false /\
  String.length clean = String.length name.
Proof.
  intros Hstamp clean. destruct (safe_name_clean name) as (Hslash & Hspace & Hlen).
  fold (safe_name name) in clean. subst clean.
  split; [|split; [|by split_and!]].
  - exists (safe_name name +:+ "_" +:+ pv_timestamp pv +:+ ".json").
    split; [reflexivity|]. split; [reflexivity|].
    rewrite !contains_char_app, Hslash, Hstamp. reflexivity.
  - exists ("FAIL_" +:+ safe_name name +:+ "_" +:+ pv_timestamp pv +:+ ".json").
    split; [reflexivity|]. split; [reflexivity|].
    rewrite !contains_char_app, Hslash, Hstamp. reflexivity.
Qed.

Lemma snapshot_file_in_directory_witness :
  let pv := {| pv_url := "https://example.test/"; pv_nodes := [];
               pv_timestamp := "20240101_120000" |} in
  exists file,
    sum_file (browser_snapshot pv "Accounts/New form" ∅).1
      = "output/snapshots/" +:+ file /\
    file = "Accounts_New_form_20240101_120000.json" /\
    Py.contains "/" file = false.
Proof.
  intros pv.
  destruct (snapshot_file_in_directory pv "Accounts/New form" ∅ eq_refl)
    as ((file & Hfile & Hname & Hclean) & _).
  exists file. split_and!; [exact Hfile | rewrite Hname; reflexivity | exact Hclean].
Defined.

End SnapshotFiles.

(** ** TestRunner: which scripts are recorded *)

Section RunnerOutcomeFacts.
Import State TestRunner RunnerOutcomes.
Context {Env : Type} `{!ModelProvider Env, !TestProcess Env, !Render, !Prompts}.

(** The failures collected so far are only a prefix of the result. *)
Lemma run_scripts_acc (scripts : list string) (acc : list TestFailure) (env : Env) :
  run_scripts scripts acc env
  = (acc ++ (run_scripts scripts [] env).1, (run_scripts scripts [] env).2).
Proof.
  revert acc env. induction scripts as [|script rest IH]; intros acc env; simpl.
  - by rewrite app_nil_r.
  - destruct (run_playwright _ env) as [[returncode stdout stderr|] env'].
    + destruct (negb (Z.eqb returncode 0)).
      * rewrite (IH (acc ++ _)), (IH [_]). simpl. by rewrite <- app_assoc.
      * apply IH.
    + rewrite (IH (acc ++ _)), (IH [_]). simpl. by rewrite <- app_assoc.
Qed.

Lemma take_length (n : nat) (s : string) : String.length (Py.take n s) <= n.
Proof.
  unfold Py.take. revert s. induction n as [|n IH]; intros [|c s]; simpl; try lia.
  specialize (IH s). lia.
Qed.

Lemma run_scripts_outcomes (scripts : list string) (env : Env) :
  map script_name (run_scripts scripts [] env).1
    = failing_scripts scripts (run_outcomes scripts env) /\
  Forall well_formed_failure (run_scripts scripts [] env).1 /\
  ((run_scripts scripts [] env).1 = []
   <-> Forall (fun p => passed p = true) (run_outcomes scripts env)).
Proof.
  revert env. induction scripts as [|script rest IH]; intros env; simpl.
  { split; [reflexivity|]. split; [constructor|]. split; [constructor | reflexivity]. }
  destruct (run_playwright _ env) as [[returncode stdout stderr|] env'] eqn:Hrun; simpl.
  - destruct (IH env') as (Hnames & Hwf & Hnil).
    destruct (Z.eqb returncode 0) eqn:Hrc; simpl.
    + split; [exact Hnames|]. split; [exact Hwf|].
      rewrite Hnil. split; [intros Hall; by constructor|].
      intros Hall. by apply Forall_cons in Hall as [_ Hall].
    + rewrite run_scripts_acc. simpl.
      split; [by rewrite Hnames|]. split.
      * constructor; [|exact Hwf]. split; [reflexivity|]. simpl. apply take_length.
      * split; [discriminate|]. intros Hall.
        apply Forall_cons in Hall as [Hp _]. simpl in Hp. congruence.
  - destruct (IH env') as (Hnames & Hwf & Hnil).
    rewrite run_scripts_acc. simpl.
    split; [by rewrite Hnames|]. split.
    + constructor; [|exact Hwf]. split; [reflexivity|]. simpl. lia.
    + split; [discriminate|]. intros Hall.
      apply Forall_cons in Hall as [Hp _]. discriminate Hp.
Qed.

Lemma failing_scripts_length (scripts : list string) (outcomes : list proc_result) :
  length (failing_scripts scripts outcomes) <= length scripts.
Proof.
  revert outcomes. induction scripts as [|s scripts IH]; intros [|o outcomes]; simpl;
    try lia.
  specialize (IH outcomes). destruct (passed o); simpl; lia.
Qed.

(** X5. The runner records exactly the scripts whose run did not complete
    with return code 0 (a failure or a timeout), in the order the scripts
    were found and at most one entry per script; each entry carries the
    path tests/<name> and a log of at most 4000 characters; and the list
    is empty exactly when every run passed. *)
Theorem failures_are_the_failing_scripts (scripts : list string) (env : Env) :
  let failures := (run_scripts scripts [] env).1 in
  map script_name failures = failing_scripts scripts (run_outcomes scripts env) /\
  length failures <= length scripts /\
  Forall (fun f => script_path f = "tests/" +:+ script_name f /\
                   String.length (logs f) <= 4000) failures /\
  (failures = [] <-> Forall (fun p => passed p = true) (run_outcomes scripts env)).
Proof.
  intros failures. destruct (run_scripts_outcomes scripts env) as (Hnames & Hwf & Hnil).
  split; [exact Hnames|]. split; [|split; [exact Hwf | exact Hnil]].
  unfold failures.
  rewrite <- (length_map script_name (run_scripts scripts [] env).1), Hnames.
  apply failing_scripts_length.
Qed.

(** X6. When some script fails and the model answers, the runner calls
    the model once, writes the normalized answer once, to the one report
    path, and returns a state that holds that path and the report, keeps
    every other key of the incoming state, and routes to the healer. *)
Theorem failing_run_reports_once (state : gmap string value) (env env1 env2 : Env)
    (failures : list TestFailure) (response : message) :
  run_scripts (glob_specs env) [] env = (failures, env1) ->
  failures <> [] ->
  llm_invoke "gpt-4o-mini" false (runner_prompt failures) env1
    = (Py.Ok response, env2) ->
  exists state' tr,
    run_stage (test_runner_node state) env = (Py.Ok state', (env2, tr)) /\
    count_events is_model_call tr = 1 /\
    count_events is_write tr = 1 /\
    (forall fs, replay tr fs !! report_md_path = Some (normalize (content response))) /\
    state' !! "failure_report_path" = Some (VStr report_md_path) /\
    state' !! "llm_analysis" = Some (VStr (normalize (content response))) /\
    (forall key, ~ In key ["has_test_failures"; "failures"; "failure_report_path";
                           "llm_analysis"] ->
                 state' !! key = state !! key) /\
    Workflow.after_test_runner state' = Some Workflow.advanced_test_healer_agent.
Proof.
  intros Hrun Hne Hllm.
  exists (failing_state state failures (normalize (content response))).
  eexists. split.
  { rewrite test_runner_node_run, Hrun.
    destruct failures as [|f failures]; [congruence|]. rewrite Hllm. reflexivity. }
  split; [reflexivity|]. split; [reflexivity|].
  split; [intros fs; simpl; unfold write_text; apply lookup_insert_eq|].
  unfold failing_state.
  split; [rewrite lookup_insert_ne by discriminate; apply lookup_insert_eq|].
  split; [apply lookup_insert_eq|].
  split.
  - intros key Hkey. simpl in Hkey.
    rewrite !lookup_insert_ne; [reflexivity|intros <-; apply Hkey; auto 10..].
  - apply failing_state_routes.
Qed.

End RunnerOutcomeFacts.

Section RunnerOutcomeExamples.
Import State TestRunner RunnerOutcomes.

Lemma failing_run_reports_once_witness :
  exists state' env' tr,
    run_stage (test_runner_node ∅) Scripted.two_failing_env
      = (Py.Ok state', (env', tr)) /\
    count_events is_model_call tr = 1 /\
    count_events is_write tr = 1 /\
    state' !! "failure_report_path" = Some (VStr report_md_path) /\
    Workflow.after_test_runner state' = Some Workflow.advanced_test_healer_agent.
Proof.
  set (ran := run_scripts (glob_specs Scripted.two_failing_env) []
                Scripted.two_failing_env).
  assert (Hne : ran.1 <> []) by (vm_compute; discriminate).
  assert (Hllm : llm_invoke "gpt-4o-mini" false (runner_prompt ran.1) ran.2
                 = (Py.Ok (Scripted.ai "# Failure analysis" [] "run-1"),
                    (llm_invoke "gpt-4o-mini" false [] ran.2).2))
    by (vm_compute; reflexivity).
  destruct (failing_run_reports_once ∅ Scripted.two_failing_env ran.2 _ ran.1 _
              (surjective_pairing ran) Hne Hllm)
    as (state' & tr & Hnode & Hcalls & Hwrites & _ & Hpath & _ & _ & Hroute).
  eexists state', _, tr. repeat split; eassumption.
Defined.

Example failing_scripts_example :
  failing_scripts ["a.spec.ts"; "b.spec.ts"; "c.spec.ts"]
    [Completed 0 "" ""; TimeoutExpired; Completed 1 "" "boom"]
  = ["b.spec.ts"; "c.spec.ts"].
Proof. reflexivity. Qed.

End RunnerOutcomeExamples.

(** ** Routing *)

Section Routing.
Import State Workflow.

(** X7. The branch chosen after the runner is always one the graph maps:
    the healer exactly when has_test_failures is present and truthy, the
    END node otherwise, in particular when the key is missing or holds
    None, False, 0 or an empty value. *)
Theorem after_test_runner_total (state : gmap string value) :
  (after_test_runner state = Some advanced_test_healer_agent
   <-> exists v, state !! "has_test_failures" = Some v /\ truthy v = true) /\
  (after_test_runner state = Some END
   <-> state !! "has_test_failures" = None
       \/ exists v, state !! "has_test_failures" = Some v /\ truthy v = false).
Proof.
  unfold after_test_runner, route_after_test_runner, get.
  destruct (state !! "has_test_failures") as [v|]; simpl;
    [destruct (truthy v) eqn:Hv; simpl|];
    (split; split; intros Hx;
     first [ reflexivity
           | discriminate Hx
           | by eauto
           | by (destruct Hx as (v' & Hv' & Ht); congruence)
           | by (destruct Hx as [Hn|(v' & Hv' & Ht)]; congruence) ]).
Qed.

(** X8. [should_continue] looks at the last message only: with tool calls
    in it the branch is tool_call, without any it is test_plan, whatever
    came before; on an empty history it raises IndexError and without a
    messages key KeyError. *)
Theorem should_continue_last_message (state : gmap string value) :
  (forall history m,
     state !! "messages" = Some (VMessages (history ++ [m])) ->
     should_continue state
     = Py.Ok (match tool_calls m with [] => "test_plan" | _ :: _ => "tool_call" end)) /\
  (state !! "messages" = Some (VMessages []) ->
   should_continue state = Py.Raise (Py.Exn Py.IndexError "list index out of range")) /\
  (state !! "messages" = None ->
   should_continue state = Py.Raise (Py.Exn Py.KeyError "'messages'")).
Proof.
  unfold should_continue, messages_of. split; [|split].
  - intros history m Hm. rewrite Hm. simpl. rewrite last_snoc.
    by destruct (tool_calls m).
  - intros Hm. by rewrite Hm.
  - intros Hm. by rewrite Hm.
Qed.

End Routing.

(** ** The healer: its conversation and its log *)

Section HealerConversation.
Import State Healer HealerLog.
Context {Env : Type} `{!ModelProvider Env, !ToolProvider Env, !Clock Env,
                       !Render, !Prompts}.

Lemma find_tool_result (name tool_func : string) :
  find_tool name = Py.Ok tool_func -> tool_func = name /\ In name healing_tools.
Proof.
  unfold find_tool. destruct (existsb (String.eqb name) healing_tools) eqn:Hex;
    [|discriminate].
  intros [= <-]. split; [reflexivity|].
  apply existsb_exists in Hex as (x & Hin & Heq). apply String.eqb_eq in Heq.
  by subst x.
Qed.

(** One tool call: what it appends and what it logs. *)
Lemma try_call_appends (st : HState Env) (call : tool_call) :
  exists more runs,
    messages (try_call st call).2 = messages st ++ more /\
    trace (try_call st call).2 = trace st ++ runs /\
    Forall (answers [call]) more /\
    Forall loop_event runs /\
    match (try_call st call).1 with
    | Py.Ok stop =>
        length more = 1 /\
        (stop = true ->
         tc_name call = "playwright_run_all_tests" /\
         runs = [EvTool "playwright_run_all_tests" (tc_args call)]) /\
        (tc_name call <> "playwright_run_all_tests" -> stop = false)
    | Py.Raise _ =>
        length more <= 1 /\
        (tc_name call <> "playwright_run_all_tests" -> more = [])
    end.
Proof.
  assert (Hans : forall text, answers [call] (tool_message text (tc_id call))).
  { intros text. split; [reflexivity|]. exists call. split; [by left | reflexivity]. }
  assert (Hrun : loop_event (EvTool (tc_name call) (tc_args call))
                 \/ ~ In (tc_name call) healing_tools).
  { destruct (find_tool (tc_name call)) as [tool_func|e] eqn:Hfind.
    - left. by apply find_tool_result in Hfind as [_ Hknown].
    - right. intros Hin. by rewrite (find_tool_known _ Hin) in Hfind. }
  unfold try_call.
  destruct (find_tool (tc_name call)) as [tool_func|e] eqn:Hfind; simpl.
  2:{ exists [], []. rewrite !app_nil_r. split_and!; try done. simpl. lia. }
  apply find_tool_result in Hfind as [-> Hknown].
  destruct Hrun as [Hrun|Hrun]; [|contradiction].
  destruct (tool_invoke _ _ _) as [[tool_result|e] env']; simpl.
  2:{ exists [], [EvTool (tc_name call) (tc_args call)]. rewrite app_nil_r.
      split_and!; try done; [by constructor | simpl; lia]. }
  destruct (String.eqb (tc_name call) "playwright_run_all_tests") eqn:Hname; simpl.
  - apply String.eqb_eq in Hname.
    destruct (Py.is_dict tool_result); simpl;
      [destruct (total_failures tool_result) as [[|n]|e]; simpl|];
      eexists [_], [_]; (split_and!; try done;
        [by constructor | by constructor | ..]); try (simpl; lia).
    intros _. by rewrite Hname.
  - apply String.eqb_neq in Hname.
    eexists [_], [_]. split_and!; try done; by constructor.
Qed.

Lemma answers_mono (calls calls' : list tool_call) (more : list message) :
  (forall c, In c calls -> In c calls') ->
  Forall (answers calls) more -> Forall (answers calls') more.
Proof.
  intros Hsub Hall. eapply Forall_impl; [exact Hall|].
  intros m (Hrole & c & Hc & Hid).
  split; [exact Hrole|]. exists c. split; [by apply Hsub | exact Hid].
Qed.

(** The tool-call loop only appends answers to its calls and only logs
    runs of healing tools; a non-empty list of calls leaves at least one
    message. *)
Lemma run_tool_calls_appends (calls : list tool_call) (st : HState Env) :
  exists more runs,
    messages (run_tool_calls st calls) = messages st ++ more /\
    trace (run_tool_calls st calls) = trace st ++ runs /\
    Forall (answers calls) more /\
    Forall loop_event runs /\
    (calls <> [] -> 1 <= length more).
Proof.
  revert st. induction calls as [|call rest IH]; intros st.
  { exists [], []. simpl. rewrite !app_nil_r. by split_and!. }
  simpl.
  destruct (try_call_appends st call) as (more1 & runs1 & Hm1 & Ht1 & Ha1 & Hl1 & Hres).
  apply (answers_mono [call] (call :: rest)) in Ha1;
    [|intros c [<-|[]]; by left].
  destruct (try_call st call) as [[[|]|e] st'] eqn:Htry; simpl in *.
  - exists more1, runs1. split_and!; try done. intros _. lia.
  - destruct (IH st') as (more2 & runs2 & Hm2 & Ht2 & Ha2 & Hl2 & _).
    exists (more1 ++ more2), (runs1 ++ runs2).
    rewrite Hm2, Ht2, Hm1, Ht1, <- !app_assoc.
    split_and!; try done.
    + apply Forall_app. split; [exact Ha1|].
      apply (answers_mono rest); [intros c Hc; by right | exact Ha2].
    + by apply Forall_app.
    + intros _. rewrite length_app. lia.
  - destruct (IH (append_message (tool_message (error_msg e) (tc_id call)) st'))
      as (more2 & runs2 & Hm2 & Ht2 & Ha2 & Hl2 & _).
    exists (more1 ++ tool_message (error_msg e) (tc_id call) :: more2), (runs1 ++ runs2).
    rewrite Hm2, Ht2. simpl. rewrite Hm1, Ht1, <- !app_assoc.
    split_and!; try done.
    + apply Forall_app. split; [exact Ha1|]. constructor.
      * split; [reflexivity|]. exists call. split; [by left | reflexivity].
      * apply (answers_mono rest); [intros c Hc; by right | exact Ha2].
    + by apply Forall_app.
    + intros _. rewrite length_app. simpl. lia.
Qed.

(** When the tool-call loop sets the flag, the last thing it did was a
    full test run. *)
Lemma run_tool_calls_break (calls : list tool_call) (st : HState Env) :
  all_tests_passing st = false ->
  all_tests_passing (run_tool_calls st calls) = true ->
  exists args text id,
    last (trace (run_tool_calls st calls))
      = Some (EvTool "playwright_run_all_tests" args) /\
    last (messages (run_tool_calls st calls)) = Some (tool_message text id).
Proof.
  revert st. induction calls as [|call rest IH]; intros st Hflag Hset; simpl in *.
  { congruence. }
  destruct (try_call_facts st call) as (_ & _ & Hflag1).
  pose proof (try_call_appends st call) as (more1 & runs1 & Hm1 & Ht1 & Ha1 & _ & Hres).
  destruct (try_call st call) as [[[|]|e] st'] eqn:Htry; simpl in *.
  - destruct Hres as (Hlen & Hstop & _). destruct (Hstop eq_refl) as [_ ->].
    rewrite Ht1, Hm1.
    destruct more1 as [|m [|m' more1]]; try discriminate Hlen.
    apply Forall_cons in Ha1 as [(Hrole & c & _ & Hid) _].
    exists (tc_args call). rewrite !last_snoc.
    clear Hset Hflag1.
    assert (Hm : exists text id, m = tool_message text id).
    { revert Htry. unfold try_call.
      destruct (find_tool (tc_name call)); [|discriminate].
      destruct (tool_invoke _ _ _) as [[tool_result|e0] env']; [|discriminate].
      destruct (_ && _);
        [destruct (total_failures tool_result) as [[|n]|e0]|]; try discriminate.
      intros [= <-]. simpl in Hm1. apply app_inv_head in Hm1.
      injection Hm1 as <-. eauto. }
    destruct Hm as (text & id & ->). eauto.
  - apply IH; [congruence | exact Hset].
  - apply IH; [simpl; congruence | exact Hset].
Qed.

(** Without a full test run among the calls, every call is answered by
    exactly one message, in the order of the calls. *)
Lemma run_tool_calls_in_order (calls : list tool_call) (st : HState Env) :
  Forall (fun c => tc_name c <> "playwright_run_all_tests") calls ->
  exists more,
    messages (run_tool_calls st calls) = messages st ++ more /\
    map tool_call_id more = map (fun c => Some (tc_id c)) calls /\
    Forall (fun m => is_tool_message m = true) more.
Proof.
  intros Hcalls. revert st.
  induction Hcalls as [|call rest Hname _ IH]; intros st.
  { exists []. simpl. by rewrite app_nil_r. }
  simpl.
  destruct (try_call_appends st call) as (more1 & runs1 & Hm1 & _ & Ha1 & _ & Hres).
  destruct (try_call st call) as [[stop|e] st'] eqn:Htry; simpl in *.
  - destruct Hres as (Hlen & _ & Hstop). rewrite (Hstop Hname).
    destruct more1 as [|m [|m' more1]]; try discriminate Hlen.
    apply Forall_cons in Ha1 as [(Hrole & c & [<-|[]] & Hid) _].
    destruct (IH st') as (more2 & Hm2 & Hids & Hroles).
    exists (m :: more2). rewrite Hm2, Hm1, <- app_assoc. simpl.
    split; [reflexivity|]. split; [by rewrite Hid, Hids | by constructor].
  - destruct Hres as (_ & Hnone). rewrite (Hnone Hname), app_nil_r in Hm1.
    destruct (IH (append_message (tool_message (error_msg e) (tc_id call)) st'))
      as (more2 & Hm2 & Hids & Hroles).
    exists (tool_message (error_msg e) (tc_id call) :: more2).
    rewrite Hm2. simpl. rewrite Hm1, <- app_assoc. simpl.
    split; [reflexivity|]. split; [by rewrite Hids | by constructor].
Qed.

(** One round: at least two messages more (the reply and a tool message
    or the continuation request), or none when the model raises. *)
Lemma loop_body_appends (st : HState Env) :
  match loop_body st with
  | inl (e, st') => messages st' = messages st /\ trace st' = trace st ++ [EvModel "gpt-4o" true (messages st)]
  | inr st' =>
      exists more runs,
        messages st' = messages st ++ more /\ 2 <= length more /\
        trace st' = trace st ++ EvModel "gpt-4o" true (messages st) :: runs /\
        Forall loop_event runs /\
        (all_tests_passing st = false -> all_tests_passing st' = true ->
         exists args text id,
           last (trace st') = Some (EvTool "playwright_run_all_tests" args) /\
           last (messages st') = Some (tool_message text id))
  end.
Proof.
  unfold loop_body. cbn -[run_tool_calls].
  destruct (llm_invoke "gpt-4o" true (messages st) (env st)) as [[response|e] env'];
    [|by split].
  destruct (tool_calls response) as [|call rest] eqn:Hcalls.
  - exists [response; human_message continue_request], []. cbn.
    rewrite <- app_assoc. split_and!; try done. intros H1 H2. congruence.
  - rewrite <- Hcalls.
    set (st1 := append_message response _).
    destruct (run_tool_calls_appends (tool_calls response) st1)
      as (more & runs & Hm & Ht & _ & Hl & Hne).
    assert (Hbreak : all_tests_passing st = false ->
              all_tests_passing (run_tool_calls st1 (tool_calls response)) = true ->
              exists args text id,
                last (trace (run_tool_calls st1 (tool_calls response)))
                  = Some (EvTool "playwright_run_all_tests" args) /\
                last (messages (run_tool_calls st1 (tool_calls response)))
                  = Some (tool_message text id)).
    { intros Hflag Hset. by apply run_tool_calls_break. }
    exists (response :: more), runs. split_and!.
    + rewrite Hm. subst st1. cbn. by rewrite <- app_assoc.
    + simpl. specialize (Hne ltac:(rewrite Hcalls; discriminate)). lia.
    + rewrite Ht. subst st1. cbn. by rewrite <- app_assoc.
    + exact Hl.
    + exact Hbreak.
Qed.

End HealerConversation.


Section HealerConversationLoop.
Import State Healer HealerLog.
Context {Env : Type} `{!ModelProvider Env, !ToolProvider Env, !Clock Env,
                       !Render, !Prompts}.

(** The loop, from a state in which the flag is not set. *)
Lemma healer_loop_conversation (fuel : nat) (st : HState Env) :
  all_tests_passing st = false ->
  match healer_loop fuel st with
  | Finished st' =>
      exists more events,
        messages st' = messages st ++ more /\
        2 * (iteration st' - iteration st) <= length more /\
        trace st' = trace st ++ events /\
        Forall loop_event events /\
        (all_tests_passing st' = true ->
         exists args text id,
           last (trace st') = Some (EvTool "playwright_run_all_tests" args) /\
           last (messages st') = Some (tool_message text id))
  | Aborted e st' =>
      exists more events,
        messages st' = messages st ++ more /\
        2 * (iteration st' - iteration st - 1) <= length more /\
        trace st' = trace st ++ events /\
        Forall loop_event events
  | OutOfFuel => True
  end.
Proof.
  revert st. induction fuel as [|fuel IH]; intros st Hflag; simpl.
  - destruct (_ && _); [exact I|].
    exists [], []. rewrite !app_nil_r. split_and!; try done; [lia | congruence].
  - destruct (_ && _).
    2:{ exists [], []. rewrite !app_nil_r. split_and!; try done; [lia | congruence]. }
    pose proof (loop_body_step st) as Hstep.
    pose proof (loop_body_appends st) as Happ.
    destruct (loop_body st) as [[e st1]|st1].
    + destruct Hstep as (Hit & _). destruct Happ as (Hm & Ht).
      exists [], [EvModel "gpt-4o" true (messages st)].
      rewrite app_nil_r. split_and!; try done; [simpl; lia | by repeat constructor].
    + destruct Hstep as (Hit & _).
      destruct Happ as (more1 & runs1 & Hm1 & Hlen1 & Ht1 & Hl1 & Hbreak).
      assert (Hev1 : Forall loop_event (EvModel "gpt-4o" true (messages st) :: runs1))
        by (by constructor).
      destruct (all_tests_passing st1) eqn:Hflag1.
      * rewrite healer_loop_stops by exact Hflag1.
        exists more1, (EvModel "gpt-4o" true (messages st) :: runs1).
        split_and!; try done; [lia|]. intros _. by apply Hbreak.
      * specialize (IH st1 Hflag1).
        destruct (healer_loop fuel st1) as [st2|e st2|]; [| |exact I].
        -- destruct IH as (more2 & events2 & Hm2 & Hlen2 & Ht2 & Hl2 & Hlast).
           exists (more1 ++ more2),
                  ((EvModel "gpt-4o" true (messages st) :: runs1) ++ events2).
           split_and!.
           ++ by rewrite Hm2, Hm1, <- app_assoc.
           ++ rewrite length_app. lia.
           ++ by rewrite Ht2, Ht1, <- app_assoc.
           ++ by apply Forall_app.
           ++ exact Hlast.
        -- destruct IH as (more2 & events2 & Hm2 & Hlen2 & Ht2 & Hl2).
           exists (more1 ++ more2),
                  ((EvModel "gpt-4o" true (messages st) :: runs1) ++ events2).
           split_and!.
           ++ by rewrite Hm2, Hm1, <- app_assoc.
           ++ rewrite length_app. lia.
           ++ by rewrite Ht2, Ht1, <- app_assoc.
           ++ by apply Forall_app.
Qed.

(** The two messages every healer conversation starts with. *)
Lemma initial_messages (env0 : Env) :
  messages (initial_state env0)
  = [system_message ADVANCED_HEALER_PROMPT; human_message initial_request].
Proof. reflexivity. Qed.

(** X9. The conversation of the healer only grows: it keeps the system
    prompt and the opening request at its head, every finished round adds
    at least two messages, and the state the node returns holds the
    incoming history followed by the whole conversation. *)
Theorem healer_conversation_grows (state : gmap string value) (env0 : Env) :
  match healer_loop max_iterations (initial_state env0) with
  | Finished st =>
      exists more,
        messages st
          = [system_message ADVANCED_HEALER_PROMPT; human_message initial_request]
            ++ more /\
        2 * iteration st <= length more /\
        (forall history report_path,
           state !! "messages" = Some (VMessages history) ->
           exists state',
             healed_state state st report_path = Py.Ok state' /\
             state' !! "messages"
               = Some (VMessages
                         (history ++ [system_message ADVANCED_HEALER_PROMPT;
                                      human_message initial_request] ++ more)))
  | Aborted e st =>
      exists more,
        messages st
          = [system_message ADVANCED_HEALER_PROMPT; human_message initial_request]
            ++ more /\
        2 * (iteration st - 1) <= length more
  | OutOfFuel => False
  end.
Proof.
  pose proof (healer_loop_conversation max_iterations (initial_state env0) eq_refl)
    as Hconv.
  pose proof (healer_loop_inv max_iterations (initial_state env0)) as Hinv.
  destruct (healer_loop max_iterations (initial_state env0)) as [st|e st|].
  - destruct Hconv as (more & events & Hm & Hlen & _).
    exists more. rewrite initial_messages in Hm. simpl in Hlen.
    split; [exact Hm|]. split; [lia|].
    intros history report_path Hhist.
    destruct (healed_state_keys state st report_path history Hhist)
      as (state' & Hret & Hmsgs & _).
    exists state'. split; [exact Hret|]. by rewrite Hmsgs, Hm.
  - destruct Hconv as (more & events & Hm & Hlen & _).
    exists more. rewrite initial_messages in Hm. simpl in Hlen.
    split; [exact Hm | lia].
  - apply Hinv. unfold max_iterations. simpl. lia.
Qed.

(** X10. Every message the tool-call loop appends is a tool message that
    answers one of the calls of the reply, and without a full test run
    among the calls each call gets exactly one such message, in the order
    in which the calls were issued. *)
Theorem tool_answers_in_call_order (st : HState Env) (calls : list tool_call) :
  exists more,
    messages (run_tool_calls st calls) = messages st ++ more /\
    Forall (answers calls) more /\
    (Forall (fun c => tc_name c <> "playwright_run_all_tests") calls ->
     map tool_call_id more = map (fun c => Some (tc_id c)) calls).
Proof.
  destruct (run_tool_calls_appends calls st) as (more & runs & Hm & _ & Ha & _).
  exists more. split; [exact Hm|]. split; [exact Ha|].
  intros Hcalls.
  destruct (run_tool_calls_in_order calls st Hcalls) as (more' & Hm' & Hids & _).
  rewrite Hm in Hm'. apply app_inv_head in Hm'. by subst more'.
Qed.

(** X11. The loop ends converged only right after a full test run: when
    the flag is set at the end, the last logged event is a run of
    playwright_run_all_tests and the last message of the conversation is a
    tool message. *)
Theorem converged_only_after_full_run (env0 : Env) :
  match healer_loop max_iterations (initial_state env0) with
  | Finished st =>
      all_tests_passing st = true ->
      exists args text id,
        last (trace st) = Some (EvTool "playwright_run_all_tests" args) /\
        last (messages st) = Some (tool_message text id) /\
        1 <= count_events is_full_run (trace st)
  | Aborted e st => all_tests_passing st = false
  | OutOfFuel => False
  end.
Proof.
  pose proof (healer_loop_conversation max_iterations (initial_state env0) eq_refl)
    as Hconv.
  pose proof (healer_loop_inv max_iterations (initial_state env0)) as Hinv.
  destruct (healer_loop max_iterations (initial_state env0)) as [st|e st|] eqn:Hloop.
  - destruct Hconv as (more & events & _ & _ & _ & _ & Hlast).
    intros Hset. destruct (Hlast Hset) as (args & text & id & Hlt & Hlm).
    exists args, text, id. split; [exact Hlt|]. split; [exact Hlm|].
    apply last_Some in Hlt as [tr' ->].
    rewrite count_events_app, count_events_cons. simpl. lia.
  - clear Hconv Hinv. revert Hloop. generalize (initial_state env0).
    generalize max_iterations. intros fuel. induction fuel as [|fuel IH]; intros s; simpl.
    + destruct (_ && _); discriminate.
    + destruct ((iteration s <? max_iterations) && negb (all_tests_passing s)) eqn:Hc;
        [|discriminate].
      apply andb_true_iff in Hc as [_ Hc]. apply negb_true_iff in Hc.
      pose proof (loop_body_step s) as Hstep.
      destruct (loop_body s) as [[e' s1]|s1].
      * destruct Hstep as (_ & Hflag & _). intros [= _ <-]. congruence.
      * apply IH.
  - apply Hinv. unfold max_iterations. simpl. lia.
Qed.

(** X12. The loop never runs a tool outside its six healing tools,
    whatever the model asks for, never writes a file and never calls the
    plain model: its log holds tool-bound model calls and runs of healing
    tools only. *)
Theorem healer_loop_log (env0 : Env) :
  match healer_loop max_iterations (initial_state env0) with
  | Finished st | Aborted _ st =>
      Forall loop_event (trace st) /\
      (forall name args, In (EvTool name args) (trace st) -> In name healing_tools) /\
      (forall path text, ~ In (EvWrite path text) (trace st))
  | OutOfFuel => False
  end.
Proof.
  pose proof (healer_loop_conversation max_iterations (initial_state env0) eq_refl)
    as Hconv.
  pose proof (healer_loop_inv max_iterations (initial_state env0)) as Hinv.
  assert (Hlog : forall tr : list event, Forall loop_event tr ->
            (forall name args, In (EvTool name args) tr -> In name healing_tools) /\
            (forall path text, ~ In (EvWrite path text) tr)).
  { intros tr Hall. rewrite Forall_forall in Hall. split.
    - intros name args Hin. apply list_elem_of_In in Hin. exact (Hall _ Hin).
    - intros path text Hin. apply list_elem_of_In in Hin. exact (Hall _ Hin). }
  destruct (healer_loop max_iterations (initial_state env0)) as [st|e st|].
  - destruct Hconv as (more & events & _ & _ & Ht & Hl & _). simpl in Ht.
    rewrite Ht. split; [exact Hl | by apply Hlog].
  - destruct Hconv as (more & events & _ & _ & Ht & Hl). simpl in Ht.
    rewrite Ht. split; [exact Hl | by apply Hlog].
  - apply Hinv. unfold max_iterations. simpl. lia.
Qed.

End HealerConversationLoop.

(** ** TestScriptGenerator: cutting the generated text *)

Section SplitTests.
Import ScriptGenerator.

Lemma startswith_app_r (d a b : string) :
  Py.startswith d a = true -> Py.startswith d (a +:+ b) = true.
Proof.
  revert a. induction d as [|x d IH]; intros a Ha; [reflexivity|].
  destruct a as [|y a]; [discriminate Ha|].
  rewrite append_cons. simpl in *.
  destruct (Ascii.eqb x y); [by apply IH | discriminate Ha].
Qed.

Lemma startswith_split (d s : string) :
  Py.startswith d s = true -> exists rest, s = d +:+ rest.
Proof.
  revert s. induction d as [|x d IH]; intros s Hs.
  - exists s. reflexivity.
  - destruct s as [|y s]; [discriminate Hs|]. simpl in Hs.
    destruct (Ascii.eqb x y) eqn:Hxy; [|discriminate Hs].
    apply Ascii.eqb_eq in Hxy as ->. destruct (IH s Hs) as [rest ->].
    exists rest. by rewrite append_cons.
Qed.

Lemma join_empty_cons (p : string) (ps : list string) :
  Py.join "" (p :: ps) = p +:+ Py.join "" ps.
Proof.
  destruct ps as [|q ps]; simpl.
  - clear. induction p as [|c p IH]; [reflexivity|]. rewrite append_cons. by f_equal.
  - by rewrite append_nil.
Qed.

(** The pieces put together again give the text. *)
Lemma split_before_join (d s : string) :
  (split_before d s).1 +:+ Py.join "" (split_before d s).2 = s.
Proof.
  induction s as [|c s IH]; [reflexivity|]. cbn [split_before].
  destruct (split_before d s) as [h t]. cbn [fst snd] in IH.
  destruct (Py.startswith d (String c s)); cbn [fst snd].
  - rewrite append_nil, join_empty_cons, append_cons. by f_equal.
  - rewrite append_cons. by f_equal.
Qed.

(** The text before the first cut holds no occurrence; there is a cut
    exactly when there is an occurrence. *)
Lemma split_before_head (d s : string) :
  d <> "" -> Py.contains d (split_before d s).1 = false.
Proof.
  intros Hd. induction s as [|c s IH]; simpl.
  - destruct d; [done | reflexivity].
  - pose proof (split_before_join d s) as Hjoin.
    destruct (split_before d s) as [h t]. simpl in *.
    destruct d as [|x d]; [done|].
    destruct (Py.startswith (String x d) (String c s)) eqn:Hs; simpl; [reflexivity|].
    rewrite IH, orb_false_r.
    destruct (Ascii.eqb x c) eqn:Hxc; [|reflexivity].
    destruct (Py.startswith d h) eqn:Hh; [|reflexivity].
    simpl in Hs. rewrite Hxc in Hs. rewrite <- Hjoin in Hs.
    by rewrite (startswith_app_r d h _ Hh) in Hs.
Qed.

Lemma split_before_cuts (d s : string) :
  d <> "" -> (split_before d s).2 = [] <-> Py.contains d s = false.
Proof.
  intros Hd. destruct d as [|x d]; [done|]. clear Hd.
  induction s as [|c s IH]; [done|].
  cbn [split_before Py.contains].
  destruct (split_before (String x d) s) as [h t]. cbn [fst snd] in IH.
  destruct (Py.startswith (String x d) (String c s)); cbn [fst snd orb].
  - split; intros Hx; discriminate Hx.
  - exact IH.
Qed.

(** After a cut, the next four characters hold no further cut. *)
Lemma split_before_test (rest : string) :
  split_before "test(" ("test(" +:+ rest)
  = (EmptyString,
     ("test(" +:+ (split_before "test(" rest).1) :: (split_before "test(" rest).2).
Proof.
  rewrite !append_cons, append_nil. simpl.
  destruct (split_before "test(" rest) as [h t]. reflexivity.
Qed.

Lemma split_before_pieces (s : string) :
  Forall (fun p => Py.startswith "test(" p = true) (split_before "test(" s).2.
Proof.
  remember (String.length s) as n eqn:Hn. revert s Hn.
  induction n as [n IH] using lt_wf_ind. intros s Hn.
  destruct s as [|c s]; [constructor|].
  destruct (Py.startswith "test(" (String c s)) eqn:Hs.
  - destruct (startswith_split _ _ Hs) as [rest Hrest]. rewrite Hrest.
    rewrite split_before_test. cbn [snd].
    constructor; [apply (startswith_app "test(")|].
    apply (IH (String.length rest)); [|reflexivity].
    rewrite Hn, Hrest, string_app_length. simpl. lia.
  - assert (Hstep : (split_before "test(" (String c s)).2 = (split_before "test(" s).2).
    { cbn [split_before]. rewrite Hs. by destruct (split_before "test(" s). }
    rewrite Hstep. apply (IH (String.length s)); [|reflexivity].
    rewrite Hn. simpl. lia.
Qed.

(** X13. Cutting the generated text loses nothing and cuts at test
    declarations only: the pieces joined give back the text, the first
    piece holds no [test(], and every later piece begins with [test(]. *)
Theorem split_tests_round_trip (text : string) :
  Py.join "" (split_tests text) = text /\
  (exists first rest,
     split_tests text = first :: rest /\
     Py.contains "test(" first = false /\
     Forall (fun p => Py.startswith "test(" p = true) rest) /\
  (length (split_tests text) = 1 <-> Py.contains "test(" text = false).
Proof.
  unfold split_tests.
  pose proof (split_before_join "test(" text) as Hjoin.
  pose proof (split_before_head "test(" text ltac:(discriminate)) as Hhead.
  pose proof (split_before_pieces text) as Hpieces.
  pose proof (split_before_cuts "test(" text ltac:(discriminate)) as Hcuts.
  destruct (split_before "test(" text) as [h t]. cbn [fst snd] in *.
  split; [by rewrite join_empty_cons|].
  split; [by exists h, t|].
  rewrite <- Hcuts. destruct t; simpl; split; intros Hx; try done; lia.
Qed.

End SplitTests.

Section ExtractScripts.
Import ScriptGenerator.
Context {Env : Type} `{!ModelProvider Env, !GeneratorInputs Env, !Prompts}.

Lemma contains_app_r (d a b : string) :
  Py.contains d b = true -> Py.contains d (a +:+ b) = true.
Proof.
  intros Hb. induction a as [|c a IH]; [exact Hb|].
  rewrite append_cons. cbn [Py.contains]. rewrite IH. apply orb_true_r.
Qed.

Lemma startswith_contains (d s : string) :
  Py.startswith d s = true -> Py.contains d s = true.
Proof. intros Hs. destruct s; cbn [Py.contains]; by rewrite Hs. Qed.

Lemma lstrip_suffix (s : string) : exists w, s = w +:+ Py.lstrip s.
Proof.
  induction s as [|c s [w IH]]; [by exists ""|]. simpl.
  destruct (Py.isspace c).
  - exists (String c w). rewrite append_cons. by f_equal.
  - by exists "".
Qed.

Lemma rstrip_prefix (s : string) : exists w, s = Py.rstrip s +:+ w.
Proof.
  induction s as [|c s [w IH]]; [by exists ""|]. simpl.
  destruct (Py.rstrip s) as [|x r] eqn:Hr.
  - destruct (Py.isspace c).
    + exists (String c s). reflexivity.
    + exists s. reflexivity.
  - exists w. rewrite append_cons. by f_equal.
Qed.

(** Stripping cannot bring a declaration to the front of a text that
    holds none. *)
Lemma strip_no_declaration (d h : string) :
  Py.contains d h = false -> Py.startswith d (Py.strip h) = false.
Proof.
  intros Hh. destruct (Py.startswith d (Py.strip h)) eqn:Hs; [|reflexivity].
  unfold Py.strip in Hs.
  destruct (rstrip_prefix (Py.lstrip h)) as [w Hw].
  destruct (lstrip_suffix h) as [v Hv].
  apply (startswith_app_r d _ w) in Hs. rewrite <- Hw in Hs.
  apply startswith_contains, (contains_app_r d v) in Hs. rewrite <- Hv in Hs.
  congruence.
Qed.

(** Stripping keeps a declaration at the front. *)
Lemma strip_declaration (p : string) :
  Py.startswith "test(" p = true ->
  Py.truthy_str (Py.strip p) && Py.startswith "test(" (Py.strip p) = true.
Proof.
  intros Hp. destruct (startswith_split _ _ Hp) as [rest ->].
  assert (Ht : Py.isspace "t" = false) by reflexivity.
  assert (Hparen : Py.isspace "(" = false) by reflexivity.
  unfold Py.strip. rewrite !append_cons, append_nil.
  cbn [Py.lstrip]. rewrite Ht. cbn [Py.rstrip]. rewrite Hparen.
  destruct (Py.rstrip rest); reflexivity.
Qed.

Lemma extract_scripts_pieces (pieces : list string) :
  Forall (fun p => Py.startswith "test(" p = true) pieces ->
  extract_scripts pieces = map (fun p => header +:+ Py.strip p) pieces.
Proof.
  induction 1 as [|p pieces Hp _ IH]; [reflexivity|].
  cbn [extract_scripts map]. rewrite (strip_declaration p Hp). by f_equal.
Qed.

(** X14. The scripts kept are exactly the pieces after the first, each
    stripped and given the header: there is one script per [test(] of the
    generated text, in text order; and the fallback search over the case
    ids is used exactly when the text holds no [test(] at all. *)
Theorem scripts_are_the_declarations (cases : list TestCase) (text : string) :
  (exists first rest,
     split_tests text = first :: rest /\
     extract_scripts (split_tests text) = map (fun p => header +:+ Py.strip p) rest) /\
  (Py.contains "test(" text = true ->
   extract_scripts (split_tests text) <> [] /\
   partition_scripts cases text = Py.Ok (extract_scripts (split_tests text))) /\
  (Py.contains "test(" text = false ->
   extract_scripts (split_tests text) = [] /\
   partition_scripts cases text = fallback_scripts cases text []).
Proof.
  unfold partition_scripts, split_tests.
  pose proof (split_before_head "test(" text ltac:(discriminate)) as Hhead.
  pose proof (split_before_pieces text) as Hpieces.
  pose proof (split_before_cuts "test(" text ltac:(discriminate)) as Hcuts.
  destruct (split_before "test(" text) as [h t]. cbn [fst snd] in *.
  assert (Hex : extract_scripts (h :: t) = map (fun p => header +:+ Py.strip p) t).
  { cbn [extract_scripts]. rewrite (strip_no_declaration _ _ Hhead), andb_false_r.
    by apply extract_scripts_pieces. }
  split; [by exists h, t|]. rewrite Hex. split.
  - intros Hc. destruct t as [|p t].
    + destruct Hcuts as [Hcuts _]. rewrite (Hcuts eq_refl) in Hc. discriminate Hc.
    + split; [discriminate | reflexivity].
  - intros Hc. apply Hcuts in Hc. subst t. by split.
Qed.

End ExtractScripts.

(** ** A full run that produced no report *)

Section FailedRun.
Import State Healer RunAllTests.
Context {Env : Type} `{!ModelProvider Env, !ToolProvider Env, !Clock Env,
                       !Render, !Prompts, !JsonParser}.

(** What the tool returns when it has no report is a dict with an
    [error] entry and no [suites]: the count over it is zero. *)
Lemma error_dict_total (returncode : Z) (stdout stderr : string) :
  no_report returncode stdout = true ->
  exists items,
    playwright_run_all_tests returncode stdout stderr = Py.PDict items /\
    (exists text, Py.dict_lookup "error" items = Some (Py.PStr text)) /\
    Py.dict_lookup "suites" items = None /\
    total_failures (Py.PDict items) = Py.Ok 0.
Proof.
  unfold no_report, playwright_run_all_tests. intros Hno.
  destruct (negb (returncode =? 0)%Z && negb (Py.truthy_str stdout)).
  - eexists. split; [reflexivity|]. split; [by eexists|]. by split.
  - simpl in Hno. destruct (json_loads stdout) as [report|e]; [discriminate|].
    eexists. split; [reflexivity|]. split; [by eexists|]. by split.
Qed.

(** X15. When [playwright_run_all_tests] has no report to return (the
    test process failed without output, or its output does not parse), the
    healer reads the error dict as a run without failures: the flag is
    set, the calls after it are not run, and the loop ends. *)
Theorem failed_run_reads_as_passing (st : HState Env) (call : tool_call)
    (rest : list tool_call) (returncode : Z) (stdout stderr : string) (env2 : Env) :
  tc_name call = "playwright_run_all_tests" ->
  no_report returncode stdout = true ->
  tool_invoke "playwright_run_all_tests" (tc_args call) (env st)
    = (Py.Ok (playwright_run_all_tests returncode stdout stderr), env2) ->
  let st' := run_tool_calls st (call :: rest) in
  all_tests_passing st' = true /\
  status_of st' = CONVERGED /\
  trace st' = trace st ++ [EvTool "playwright_run_all_tests" (tc_args call)] /\
  messages st'
  = messages st
    ++ [tool_message
          (result_str (playwright_run_all_tests returncode stdout stderr))
          (tc_id call)] /\
  forall fuel, healer_loop fuel st' = Finished st'.
Proof.
  intros Hname Hno Hrun.
  destruct (error_dict_total returncode stdout stderr Hno)
    as (items & Hdict & _ & _ & Htotal).
  simpl. unfold try_call. rewrite Hname. simpl. rewrite Hrun, Hdict. simpl.
  rewrite Htotal. split_and!; try reflexivity.
  intros fuel. by apply healer_loop_stops.
Qed.

End FailedRun.

Section FailedRunExamples.
Import State Healer RunAllTests.

Lemma failed_run_reads_as_passing_witness :
  let st := initial_state ScriptedMore.broken_run_env in
  let st' := run_tool_calls st [Scripted.call "playwright_run_all_tests" "call_1"] in
  all_tests_passing st' = true /\
  status_of st' = CONVERGED /\
  trace st'
  = trace st ++ [EvTool "playwright_run_all_tests"
                   (tc_args (Scripted.call "playwright_run_all_tests" "call_1"))] /\
  messages st'
  = messages st
    ++ [tool_message
          (result_str (playwright_run_all_tests 1 "" "Error: no tests found"))
          "call_1"] /\
  forall fuel, healer_loop fuel st' = Finished st'.
Proof.
  intros st.
  apply (failed_run_reads_as_passing st
           (Scripted.call "playwright_run_all_tests" "call_1") []
           1 "" "Error: no tests found" Scripted.idle);
    [reflexivity | reflexivity | vm_compute; reflexivity].
Defined.

End FailedRunExamples.

(** ** The planner's artifact *)

Section PlannerArtifact.
Import State TestPlanner.
Context {Env : Type} `{!ModelProvider Env, !PlannerInputs Env, !Prompts}.



End PlannerArtifact.

(** ** The one-shot healer *)

Section OneShotHealer.
Import State TestHealer TestHealerLog.
Context {Env : Type} `{!ModelProvider Env, !HealerInputs Env, !Render}.


(** X17. Without a failure report in the state (the key absent, None or
    the empty string) the one-shot healer returns the state it was given
    and does nothing: no file is read, no model is called, nothing is
    written.  In particular it does nothing on the state a clean test run
    leaves. *)
Theorem healer_skips_without_report (state : gmap string value) (env : Env) :
  (state !! "failure_report_path" = None \/
   state !! "failure_report_path" = Some VNone \/
   state !! "failure_report_path" = Some (VStr "") ->
   truthy (get state "failure_report_path" VNone) = false) /\
  (truthy (get state "failure_report_path" VNone) = false ->
   run_stage (test_healer_node state) env = (Py.Ok state, (env, []))) /\
  run_stage (test_healer_node (TestRunner.clean_state state)) env
  = (Py.Ok (TestRunner.clean_state state), (env, [])).
Proof.
  split_and!.
  - unfold get. intros [H1|[H1|H1]]; by rewrite H1.
  - intros Hf. unfold run_stage, test_healer_node. by rewrite Hf.
  - unfold run_stage, test_healer_node, TestRunner.clean_state, get.
    rewrite lookup_insert_ne by discriminate. by rewrite lookup_insert_eq.
Qed.


End OneShotHealer.

Section OneShotHealerExamples.
Import State TestHealer TestHealerLog.


End OneShotHealerExamples.

(** ** The graph *)

Section Graph.
Import State Workflow WorkflowGraph.





End Graph.

(** ** The collecting loop *)

Section Collector.
Import State Workflow WorkflowGraph SnapshotCollector.
Context {Env : Type} `{!ModelProvider Env, !CollectorPrompt}.

(** X20. One round of the collector: the model is called once, with the
    tool-bound model, on the system prompt followed by the history; no file
    is written; merged into the state, the reply (its id being new) is the
    last message and every other key is kept, so the graph goes to the
    tools exactly when the reply asks for tool calls and to the planner
    otherwise. *)
Theorem collector_round_routes_on_reply (state : gmap string value) (env env1 : Env)
    (history : list message) (response : message) :
  state !! "messages" = Some (VMessages history) ->
  llm_invoke "gpt-4o-mini" true (system_message PROMPT :: history) env
    = (Py.Ok response, env1) ->
  Forall (fun m => same_id m response = false) history ->
  exists update,
    run_stage (snapshot_node state) env
      = (Py.Ok update,
         (env1, [EvModel "gpt-4o-mini" true (system_message PROMPT :: history)])) /\
    dom update = {[ "messages" ]} /\
    let state' := apply_update state update in
    state' !! "messages" = Some (VMessages (history ++ [response])) /\
    (forall key, key <> "messages" -> state' !! key = state !! key) /\
    next snapshot_agent state'
    = Some (match tool_calls response with
            | [] => test_planner_agent
            | _ :: _ => tools
            end).
Proof.
  intros Hold Hllm Hnew. exists {[ "messages" := VMessages [response] ]}.
  assert (Hupd : ({[ "messages" := VMessages [response] ]} : gmap string value)
                 !! "messages" = Some (VMessages [response]))
    by apply lookup_singleton_eq.
  assert (Hmerged : apply_update state {[ "messages" := VMessages [response] ]}
                      !! "messages" = Some (VMessages (history ++ [response]))).
  { rewrite (apply_update_messages _ _ history [response] Hold Hupd).
    by rewrite add_messages_append. }
  split; [|split; [|cbv zeta; split_and!]].
  - unfold run_stage, snapshot_node, mbind, stage_bind, lift, invoke_model, mret,
      stage_ret, messages_of. rewrite Hold. cbn [fst snd]. rewrite Hllm. reflexivity.
  - apply dom_singleton_L.
  - exact Hmerged.
  - intros key Hkey. rewrite apply_update_other by exact Hkey.
    by rewrite lookup_singleton_ne by congruence.
  - cbn [next]. unfold after_snapshot, should_continue, messages_of.
    rewrite Hmerged. cbn [mbind Py.result_bind]. rewrite last_snoc.
    by destruct (tool_calls response).
Qed.

End Collector.

Section CollectorExamples.
Import State Workflow WorkflowGraph SnapshotCollector.

Lemma collector_round_routes_on_reply_witness :
  let state : gmap string value := {[ "messages" := VMessages [Scripted.user_request] ]} in
  exists update,
    dom update = {[ "messages" ]} /\
    apply_update state update !! "messages"
    = Some (VMessages ([Scripted.user_request] ++ [ScriptedCollector.navigate_reply])) /\
    next snapshot_agent (apply_update state update) = Some tools.
Proof.
  intros state.
  destruct (collector_round_routes_on_reply state ScriptedCollector.collector_env
              Scripted.idle [Scripted.user_request] ScriptedCollector.navigate_reply)
    as (update & _ & Hdom & Hmerged & _ & Hnext).
  - apply lookup_singleton_eq.
  - reflexivity.
  - repeat constructor.
  - exists update. split_and!; assumption.
Defined.

End CollectorExamples.

(** ** Looking a locator up in the snapshots *)

Section Locator.
Import PlaywrightTools SnapshotLocator.









End Locator.

(** ** The healer: exceptions of tools and of the model provider *)

Section HealerExceptions.
Import State Healer HealerLog.
Context {Env : Type} `{!ModelProvider Env, !ToolProvider Env, !Clock Env,
                       !Render, !Prompts}.

(** C8. In the healer loop an exception raised while one tool call is
    handled is caught there, and the conversation gets a tool message for
    that call that holds the diagnostic text [Tool execution error: ]
    followed by the text of the exception; the loop then handles the
    remaining calls from the state so reached, and the diagnostic stays in
    the conversation of the round.  This holds when a healing tool raises
    (the run of the tool is logged), when the model names a tool that is
    none of the healing tools (nothing is run), and when the count on the
    result of a full run raises (the result has been appended before the
    diagnostic).  A round in which the model has answered always ends
    normally, with the reply and at least one more message appended, and
    the loop goes on from there.  An exception of the model provider is not
    caught: the loop ends with it, the conversation as it was, and the
    node raises it without a summary call and without a report. *)
Theorem tool_errors_absorbed_model_errors_fatal :
  (forall (st : HState Env) call rest e env',
      In (tc_name call) healing_tools ->
      tool_invoke (tc_name call) (tc_args call) (env st) = (Py.Raise e, env') ->
      let diagnostic :=
        tool_message ("Tool execution error: " +:+ Py.exn_str e) (tc_id call) in
      let caught :=
        {| env := env';
           trace := trace st ++ [EvTool (tc_name call) (tc_args call)];
           messages := messages st ++ [diagnostic];
           iteration := iteration st;
           all_tests_passing := all_tests_passing st |} in
      run_tool_calls st (call :: rest) = run_tool_calls caught rest /\
      exists later,
        messages (run_tool_calls st (call :: rest))
        = messages st ++ diagnostic :: later) /\
  (forall (st : HState Env) call rest,
      ~ In (tc_name call) healing_tools ->
      let diagnostic := tool_message "Tool execution error: " (tc_id call) in
      let caught :=
        {| env := env st;
           trace := trace st;
           messages := messages st ++ [diagnostic];
           iteration := iteration st;
           all_tests_passing := all_tests_passing st |} in
      run_tool_calls st (call :: rest) = run_tool_calls caught rest /\
      exists later,
        messages (run_tool_calls st (call :: rest))
        = messages st ++ diagnostic :: later) /\
  (forall (st : HState Env) call rest tool_result e env',
      tc_name call = "playwright_run_all_tests" ->
      tool_invoke "playwright_run_all_tests" (tc_args call) (env st)
        = (Py.Ok tool_result, env') ->
      Py.is_dict tool_result = true ->
      total_failures tool_result = Py.Raise e ->
      let answer := tool_message (json_dumps tool_result) (tc_id call) in
      let diagnostic :=
        tool_message ("Tool execution error: " +:+ Py.exn_str e) (tc_id call) in
      let caught :=
        {| env := env';
           trace := trace st ++ [EvTool "playwright_run_all_tests" (tc_args call)];
           messages := messages st ++ [answer; diagnostic];
           iteration := iteration st;
           all_tests_passing := all_tests_passing st |} in
      run_tool_calls st (call :: rest) = run_tool_calls caught rest /\
      exists later,
        messages (run_tool_calls st (call :: rest))
        = messages st ++ answer :: diagnostic :: later) /\
  (forall fuel (st : HState Env) response env1,
      status_of st = RUNNING ->
      llm_invoke "gpt-4o" true (messages st) (env st) = (Py.Ok response, env1) ->
      exists st' more,
        loop_body st = inr st' /\
        iteration st' = S (iteration st) /\
        messages st' = messages st ++ response :: more /\
        1 <= length more /\
        healer_loop (S fuel) st = healer_loop fuel st') /\
  (forall fuel (st : HState Env) e env1,
      status_of st = RUNNING ->
      llm_invoke "gpt-4o" true (messages st) (env st) = (Py.Raise e, env1) ->
      healer_loop (S fuel) st
      = Aborted e
          {| env := env1;
             trace := trace st ++ [EvModel "gpt-4o" true (messages st)];
             messages := messages st;
             iteration := S (iteration st);
             all_tests_passing := all_tests_passing st |}) /\
  (forall state env0 e (st : HState Env),
      healer_loop max_iterations (initial_state env0) = Aborted e st ->
      advanced_test_healer_node state env0 = Some (Py.Raise e, (env st, trace st)) /\
      count_events is_plain_call (trace st) = 0 /\
      count_events is_write (trace st) = 0).
Proof.
  assert (Hlater : forall (st : HState Env) calls,
             exists later, messages (run_tool_calls st calls) = messages st ++ later).
  { intros st calls. destruct (run_tool_calls_appends calls st) as (more & _ & Hm & _).
    by exists more. }
  split_and!.
  - intros st call rest e env' Hin Hrun. cbv zeta.
    assert (Heq : run_tool_calls st (call :: rest)
                  = run_tool_calls
                      {| env := env';
                         trace := trace st ++ [EvTool (tc_name call) (tc_args call)];
                         messages := messages st
                           ++ [tool_message ("Tool execution error: " +:+ Py.exn_str e)
                                 (tc_id call)];
                         iteration := iteration st;
                         all_tests_passing := all_tests_passing st |} rest).
    { cbn [run_tool_calls]. unfold try_call.
      by rewrite (find_tool_known _ Hin), Hrun. }
    split; [exact Heq|]. rewrite Heq.
    destruct (Hlater {| env := env';
                        trace := trace st ++ [EvTool (tc_name call) (tc_args call)];
                        messages := messages st
                          ++ [tool_message ("Tool execution error: " +:+ Py.exn_str e)
                                (tc_id call)];
                        iteration := iteration st;
                        all_tests_passing := all_tests_passing st |} rest)
      as [later Hl].
    exists later. rewrite Hl. cbn [messages]. by rewrite <- app_assoc.
  - intros st call rest Hnot. cbv zeta.
    assert (Heq : run_tool_calls st (call :: rest)
                  = run_tool_calls
                      {| env := env st; trace := trace st;
                         messages := messages st
                           ++ [tool_message "Tool execution error: " (tc_id call)];
                         iteration := iteration st;
                         all_tests_passing := all_tests_passing st |} rest).
    { cbn [run_tool_calls]. unfold try_call.
      by rewrite (find_tool_unknown _ Hnot). }
    split; [exact Heq|]. rewrite Heq.
    destruct (Hlater {| env := env st; trace := trace st;
                        messages := messages st
                          ++ [tool_message "Tool execution error: " (tc_id call)];
                        iteration := iteration st;
                        all_tests_passing := all_tests_passing st |} rest)
      as [later Hl].
    exists later. rewrite Hl. cbn [messages]. by rewrite <- app_assoc.
  - intros st call rest tool_result e env' Hname Hrun Hdict Htotal. cbv zeta.
    assert (Heq : run_tool_calls st (call :: rest)
                  = run_tool_calls
                      {| env := env';
                         trace := trace st
                           ++ [EvTool "playwright_run_all_tests" (tc_args call)];
                         messages := messages st
                           ++ [tool_message (json_dumps tool_result) (tc_id call);
                               tool_message ("Tool execution error: " +:+ Py.exn_str e)
                                 (tc_id call)];
                         iteration := iteration st;
                         all_tests_passing := all_tests_passing st |} rest).
    { cbn [run_tool_calls]. unfold try_call. rewrite Hname.
      rewrite (find_tool_known "playwright_run_all_tests") by (simpl; auto).
      rewrite Hrun, String.eqb_refl, Hdict. cbn [andb]. rewrite Htotal.
      unfold append_message, after_effect, result_str, error_msg. rewrite Hdict.
      cbn [messages env trace iteration all_tests_passing].
      by rewrite <- app_assoc. }
    split; [exact Heq|]. rewrite Heq.
    destruct (Hlater {| env := env';
                        trace := trace st
                          ++ [EvTool "playwright_run_all_tests" (tc_args call)];
                        messages := messages st
                          ++ [tool_message (json_dumps tool_result) (tc_id call);
                              tool_message ("Tool execution error: " +:+ Py.exn_str e)
                                (tc_id call)];
                        iteration := iteration st;
                        all_tests_passing := all_tests_passing st |} rest)
      as [later Hl].
    exists later. rewrite Hl. cbn [messages]. by rewrite <- app_assoc.
  - intros fuel st response env1 Hrunning Hllm.
    apply loop_condition_status in Hrunning.
    pose proof (loop_body_step st) as Hstep.
    assert (Hbody : exists st' more,
               loop_body st = inr st' /\
               messages st' = messages st ++ response :: more /\ 1 <= length more).
    { unfold loop_body. cbn -[run_tool_calls]. rewrite Hllm.
      destruct (tool_calls response) as [|c cs] eqn:Hcalls.
      - eexists _, [human_message continue_request]. split; [reflexivity|].
        cbn. rewrite <- app_assoc. split; [reflexivity | lia].
      - destruct (run_tool_calls_appends (c :: cs)
                    (append_message response
                       (after_effect env1 (EvModel "gpt-4o" true (messages st))
                          (next_iteration st))))
          as (more & _ & Hm & _ & _ & _ & Hone).
        eexists _, more. split; [reflexivity|]. rewrite Hm. cbn.
        rewrite <- app_assoc. split; [reflexivity|]. by apply Hone. }
    destruct Hbody as (st' & more & Hbody & Hm & Hone). rewrite Hbody in Hstep.
    destruct Hstep as (Hit & _).
    exists st', more. split_and!; try done.
    simpl. by rewrite Hrunning, Hbody.
  - intros fuel st e env1 Hrunning Hllm.
    apply loop_condition_status in Hrunning.
    simpl. rewrite Hrunning. unfold loop_body. cbn -[run_tool_calls].
    by rewrite Hllm.
  - intros state env0 e st Hloop.
    pose proof (healer_loop_inv max_iterations (initial_state env0)) as Hinv.
    rewrite Hloop in Hinv.
    destruct Hinv as (_ & _ & _ & Hplain & Hwrites & _);
      [unfold max_iterations; simpl; lia|].
    simpl in Hplain, Hwrites. rewrite count_events_nil in Hplain, Hwrites.
    unfold advanced_test_healer_node. by rewrite Hloop.
Qed.

End HealerExceptions.

Section HealerExceptionExamples.
Import State Healer.

Lemma tool_errors_absorbed_model_errors_fatal_witness :
  (let st := initial_state Stubborn.World in
   let call := Scripted.call "playwright_run_all_tests" "call_1" in
   exists later,
     messages (run_tool_calls st [call; call])
     = messages st
       ++ tool_message "Tool execution error: npx: command not found" "call_1"
          :: later) /\
  (exists st' more,
     loop_body (initial_state Stubborn.World) = inr st' /\
     iteration st' = 1 /\
     messages st' = messages (initial_state Stubborn.World) ++ Stubborn.reply :: more /\
     healer_loop 5 (initial_state Stubborn.World) = healer_loop 4 st') /\
  healer_loop 1 (initial_state Scripted.idle)
  = Aborted Scripted.exhausted
      {| env := Scripted.idle;
         trace := [] ++ [EvModel "gpt-4o" true (messages (initial_state Scripted.idle))];
         messages := messages (initial_state Scripted.idle);
         iteration := 1;
         all_tests_passing := false |}.
Proof.
  pose proof (@tool_errors_absorbed_model_errors_fatal Stubborn.world _ _ _ _ _)
    as (Hcatch & _ & _ & Hround & _ & _).
  pose proof (@tool_errors_absorbed_model_errors_fatal Scripted.env _ _ _ _ _)
    as (_ & _ & _ & _ & Hfatal & _).
  split; [|split].
  - intros st call.
    destruct (Hcatch st call [call] Stubborn.crash Stubborn.World) as [_ Hlater];
      [simpl; auto | reflexivity | exact Hlater].
  - destruct (Hround 4 (initial_state Stubborn.World) Stubborn.reply Stubborn.World)
      as (st' & more & Hbody & Hit & Hm & _ & Hloop); [reflexivity | reflexivity |].
    by exists st', more.
  - apply (Hfatal 0 (initial_state Scripted.idle) Scripted.exhausted Scripted.idle);
      reflexivity.
Defined.

End HealerExceptionExamples.
